(** * Stanford Digital Medic sushi chef: a shallow embedding of [sushichef.py]

    The script scrapes two Brandfolder pages, asks the asset API for the
    assets of every section, and assembles a ricecooker channel tree.  The
    embedding keeps the script's shape: module constants, the helper
    [create_slideshow], the three scraping functions and [construct_channel],
    all written in a state-and-exception monad over

    - a heap of ricecooker nodes (nodes are mutable Python objects: a topic
      is attached to the channel first and filled afterwards, so children
      are references into the heap),
    - the LOGGER output,
    - the files below the documents directory,
    - the sequence of [downloader.read] calls.

    Python [str] values are held as Rocq strings carrying their UTF-8
    encoding, so [s.encode('utf-8')] is the list of the string's bytes.

    What lies outside the script is a parameter, the [World]: the command
    line, the path separator, what every URL serves (the same answer for the
    whole run) and the language table of [le_utils].  Parsed JSON is typed:
    an asset has its [id] and the three attributes the script reads, so a
    missing key is excluded by the type; what can still go wrong is kept as
    an exception: a failed download, content of the wrong kind, a key
    missing from [LANGUAGE_MAP], an empty attachment list, an unknown
    language code, an empty list of images.  ricecooker's node and file
    constructors only record their arguments, and [add_child] appends a
    reference to the parent's children. *)

From Stdlib Require Import ZArith Ascii String List Lia Bool.
From stdpp Require Import base option list strings gmap.

Local Open Scope string_scope.
Local Open Scope list_scope.

(** ** [hashlib.md5]: RFC 1321 on 32-bit words held in [Z] *)

Module MD5.

Local Open Scope Z_scope.

Definition mask32 : Z := 0xffffffff.

Definition add32 (a b : Z) : Z := Z.land (a + b) mask32.

Definition not32 (a : Z) : Z := Z.lxor a mask32.

Definition rotl32 (x c : Z) : Z :=
  Z.land (Z.lor (Z.shiftl x c) (Z.shiftr x (32 - c))) mask32.

Definition sines : list Z :=
  [ 0xd76aa478; 0xe8c7b756; 0x242070db; 0xc1bdceee;
    0xf57c0faf; 0x4787c62a; 0xa8304613; 0xfd469501;
    0x698098d8; 0x8b44f7af; 0xffff5bb1; 0x895cd7be;
    0x6b901122; 0xfd987193; 0xa679438e; 0x49b40821;
    0xf61e2562; 0xc040b340; 0x265e5a51; 0xe9b6c7aa;
    0xd62f105d; 0x02441453; 0xd8a1e681; 0xe7d3fbc8;
    0x21e1cde6; 0xc33707d6; 0xf4d50d87; 0x455a14ed;
    0xa9e3e905; 0xfcefa3f8; 0x676f02d9; 0x8d2a4c8a;
    0xfffa3942; 0x8771f681; 0x6d9d6122; 0xfde5380c;
    0xa4beea44; 0x4bdecfa9; 0xf6bb4b60; 0xbebfbc70;
    0x289b7ec6; 0xeaa127fa; 0xd4ef3085; 0x04881d05;
    0xd9d4d039; 0xe6db99e5; 0x1fa27cf8; 0xc4ac5665;
    0xf4292244; 0x432aff97; 0xab9423a7; 0xfc93a039;
    0x655b59c3; 0x8f0ccc92; 0xffeff47d; 0x85845dd1;
    0x6fa87e4f; 0xfe2ce6e0; 0xa3014314; 0x4e0811a1;
    0xf7537e82; 0xbd3af235; 0x2ad7d2bb; 0xeb86d391 ].

Definition shifts : list Z :=
  [ 7; 12; 17; 22; 7; 12; 17; 22; 7; 12; 17; 22; 7; 12; 17; 22;
    5;  9; 14; 20; 5;  9; 14; 20; 5;  9; 14; 20; 5;  9; 14; 20;
    4; 11; 16; 23; 4; 11; 16; 23; 4; 11; 16; 23; 4; 11; 16; 23;
    6; 10; 15; 21; 6; 10; 15; 21; 6; 10; 15; 21; 6; 10; 15; 21 ].

(** [n] bytes of [x], least significant first. *)
Fixpoint le_bytes (n : nat) (x : Z) : list Z :=
  match n with
  | O => []
  | S n' => Z.land x 0xff :: le_bytes n' (Z.shiftr x 8)
  end.

Fixpoint le_word (bs : list Z) : Z :=
  match bs with
  | [] => 0
  | b :: bs' => Z.lor b (Z.shiftl (le_word bs') 8)
  end.

Definition pad (msg : list Z) : list Z :=
  let len := Z.of_nat (List.length msg) in
  (msg ++ 0x80 :: List.repeat 0 (Z.to_nat ((55 - len) mod 64)))
    ++ le_bytes 8 ((8 * len) mod 2 ^ 64).

Fixpoint blocks (size n : nat) (l : list Z) : list (list Z) :=
  match n with
  | O => []
  | S n' => firstn size l :: blocks size n' (skipn size l)
  end.

Definition words (chunk : list Z) : list Z :=
  List.map le_word (blocks 4 16 chunk).

Definition round (m : list Z) (st : Z * Z * Z * Z) (i : nat) : Z * Z * Z * Z :=
  let '(a, b, c, d) := st in
  let zi := Z.of_nat i in
  let '(f, g) :=
    if zi <? 16 then (Z.lor (Z.land b c) (Z.land (not32 b) d), zi)
    else if zi <? 32 then (Z.lor (Z.land d b) (Z.land (not32 d) c), (5 * zi + 1) mod 16)
    else if zi <? 48 then (Z.lxor (Z.lxor b c) d, (3 * zi + 5) mod 16)
    else (Z.lxor c (Z.lor b (not32 d)), (7 * zi) mod 16) in
  let f' := add32 (add32 (add32 f a) (List.nth i sines 0)) (List.nth (Z.to_nat g) m 0) in
  (d, add32 b (rotl32 f' (List.nth i shifts 0)), b, c).

Definition compress (st : Z * Z * Z * Z) (chunk : list Z) : Z * Z * Z * Z :=
  let '(a0, b0, c0, d0) := st in
  let '(a, b, c, d) := List.fold_left (round (words chunk)) (List.seq 0 64) st in
  (add32 a0 a, add32 b0 b, add32 c0 c, add32 d0 d).

Definition digest (msg : list Z) : list Z :=
  let padded := pad msg in
  let '(a, b, c, d) :=
    List.fold_left compress (blocks 64 (List.length padded / 64) padded)
      (0x67452301, 0xefcdab89, 0x98badcfe, 0x10325476) in
  le_bytes 4 a ++ le_bytes 4 b ++ le_bytes 4 c ++ le_bytes 4 d.

Definition hex_digit (n : Z) : ascii :=
  List.nth (Z.to_nat n)
    (list_ascii_of_string "0123456789abcdef") "0"%char.

Fixpoint hex (bs : list Z) : string :=
  match bs with
  | [] => EmptyString
  | b :: bs' => String (hex_digit (Z.shiftr b 4)) (String (hex_digit (Z.land b 0xf)) (hex bs'))
  end.

Definition hexdigest (msg : list Z) : string := hex (digest msg).

End MD5.

(** [s.encode('utf-8')] *)
Definition encode_utf8 (s : string) : list Z :=
  List.map (fun c => Z.of_N (N_of_ascii c)) (list_ascii_of_string s).


(** ** Python string operations used by the script *)

(** [s.replace(old, new)] for a non-empty [old]: occurrences are taken left
    to right and do not overlap; [skip] counts the characters of a matched
    occurrence still to be dropped. *)
Fixpoint replace_from (old new : string) (skip : nat) (s : string) : string :=
  match s with
  | EmptyString => EmptyString
  | String c s' =>
      match skip with
      | S k => replace_from old new k s'
      | O =>
          if String.prefix old s
          then new +:+ replace_from old new (String.length old - 1) s'
          else String c (replace_from old new 0 s')
      end
  end.

Definition str_replace (s old new : string) : string := replace_from old new 0 s.

Fixpoint kwarg (k : string) (kwargs : list (string * string)) : string :=
  match kwargs with
  | [] => ""
  | (k', v) :: rest => if String.eqb k k' then v else kwarg k rest
  end.

(** [template.format(k1=v1, ...)] for a template whose only braces are
    [{name}] fields with [name] among the keywords; [field] is the name read
    so far when the scan is inside a field. *)
Fixpoint format_from (kwargs : list (string * string)) (field : option string)
    (template : string) : string :=
  match template with
  | EmptyString => EmptyString
  | String c rest =>
      match field with
      | None =>
          if Ascii.eqb c "{" then format_from kwargs (Some "") rest
          else String c (format_from kwargs None rest)
      | Some k =>
          if Ascii.eqb c "}" then kwarg k kwargs +:+ format_from kwargs None rest
          else format_from kwargs (Some (k +:+ String c "")) rest
      end
  end.

Definition str_format (template : string) (kwargs : list (string * string)) : string :=
  format_from kwargs None template.

Arguments str_format : simpl never.

(** ** Data *)

(** One entry of the [sections] array in a page's [data-react-props]. *)
Record SectionInfo := {
  sec_id : Z;
  sec_name : string;
  section_key : string;
}.

(** One element of an asset listing: [asset['id']] and the three keys of
    [asset['attributes']] the script reads. *)
Record Asset := {
  asset_id : string;
  extension : string;
  thumbnail_url : string;
  name : string;
}.

(** [video_data['data'][i]['attributes']] *)
Record Attachment := {
  att_url : string;
  att_thumbnail_url : string;
}.

(** The JSON document of an asset listing.  The script reads ['data'] only;
    [next_page] stands for the pagination metadata of the listing (the
    address of the following page, when the listing has one). *)
Record AssetsResponse := {
  data : list Asset;
  next_page : option string;
}.

(** A decoded PIL image. *)
Record Img := {
  mode : string;
  pixels : string;
}.

Definition convert (img : Img) (m : string) : Img :=
  {| mode := m; pixels := pixels img |}.

(** What BeautifulSoup, the regular expression of [get_collection_key] and
    [json.loads] of [data-react-props] find in a page. *)
Record Page := {
  resource_key : option string;
  react_sections : option (list SectionInfo);
}.

(** What a URL serves. *)
Inductive Content :=
| Html (page : Page)
| AssetsJson (response : AssetsResponse)
| AttachmentsJson (attachments : list Attachment)
| ImageBytes (img : Img)
| OtherBytes.

(** [le_utils] language objects. *)
Record Language := { native_name : string }.

(** Everything the script reads from outside: the command line, the path
    separator of the platform, the web, and the [le_utils] language table. *)
Record World := {
  argv : list string;
  os_path_sep : string;
  web : string -> option Content;
  getlang : string -> option Language;
}.

(** The dictionaries handed to [create_slideshow]: [{url: str, caption: str}],
    the caption being optional. *)
Record Image := {
  url : string;
  caption : option string;
}.

Inductive License :=
| CC_BY_SALicense (copyright_holder : string).

Inductive File :=
| ThumbnailFile (path : string)
| SlideImageFile (path : string) (slide_caption : string)
| DocumentFile (path : string)
| VideoFile (path : string).

Inductive NodeKind :=
| ChannelNode | TopicNode | VideoNode | SlideshowNode | DocumentNode.

(** A ricecooker node; [children] are heap references, in [add_child] order. *)
Record Node := {
  kind : NodeKind;
  source_id : string;
  title : string;
  license : option License;
  language : option string;
  files : list File;
  children : list nat;
}.

Inductive Level := INFO | WARNING.

(** A LOGGER call: the format string and its arguments. *)
Record LogRecord := {
  level : Level;
  fmt : string;
  args : list string;
}.

Inductive Exception :=
| DownloadError (address : string)
| ParseError (address : string)
| KeyError (key : string)
| IndexError (expr : string)
| AttributeError (expr : string).

Record State := {
  heap : list Node;
  log : list LogRecord;
  fs : gmap string (list Img);
  reads : list string;
}.

Inductive Result (A : Type) :=
| Ok (a : A)
| Raise (e : Exception).

Arguments Ok {A} a.
Arguments Raise {A} e.

(** ** The monad: state passing with exceptions *)

Definition M (A : Type) : Type := State -> Result (A * State).

Definition ret {A} (a : A) : M A := fun s => Ok (a, s).

Definition raise {A} (e : Exception) : M A := fun _ => Raise e.

Definition bind {A B} (m : M A) (k : A -> M B) : M B :=
  fun s => match m s with
           | Ok (a, s') => k a s'
           | Raise e => Raise e
           end.

Notation "'let*' x ':=' m 'in' k" := (bind m (fun x => k))
  (at level 10, x name, m at level 100, k at level 200).
Notation "m '>>' k" := (bind m (fun _ => k))
  (at level 90, right associativity).

(** [for x in xs: body(x)] *)
Fixpoint for_each {A} (xs : list A) (body : A -> M unit) : M unit :=
  match xs with
  | [] => ret tt
  | x :: xs' => body x >> for_each xs' body
  end.

(** A [for] loop that threads a local variable [acc] through its body. *)
Fixpoint for_fold {A B} (xs : list A) (acc : B) (body : B -> A -> M B) : M B :=
  match xs with
  | [] => ret acc
  | x :: xs' => let* acc' := body acc x in for_fold xs' acc' body
  end.

(** *** Primitive effects *)

Definition alloc (n : Node) : M nat :=
  fun s => Ok (List.length (heap s),
               {| heap := heap s ++ [n]; log := log s; fs := fs s; reads := reads s |}).

Definition append_child (c : nat) (n : Node) : Node :=
  {| kind := kind n; source_id := source_id n; title := title n;
     license := license n; language := language n; files := files n;
     children := children n ++ [c] |}.

(** [parent.add_child(child)] *)
Definition add_child (parent child : nat) : M unit :=
  fun s => Ok (tt,
               {| heap := alter (append_child child) parent (heap s);
                  log := log s; fs := fs s; reads := reads s |}).

(** [node.title] *)
Definition get_title (r : nat) : M string :=
  fun s => Ok (match heap s !! r with Some n => title n | None => "" end, s).

Definition LOGGER (lv : Level) (f : string) (a : list string) : M unit :=
  fun s => Ok (tt,
               {| heap := heap s;
                  log := log s ++ [{| level := lv; fmt := f; args := a |}];
                  fs := fs s; reads := reads s |}).

Definition os_path_exists (p : string) : M bool :=
  fun s => Ok (bool_decide (is_Some (fs s !! p)), s).

(** [first.save(path, save_all=True, append_images=rest)] *)
Definition save_pdf (p : string) (pages : list Img) : M unit :=
  fun s => Ok (tt,
               {| heap := heap s; log := log s;
                  fs := <[p := pages]> (fs s); reads := reads s |}).

(** ** Module constants *)

Definition CHANNEL_NAME : string := "Stanford Digital Medic".
Definition CHANNEL_SOURCE_ID : string := "sushi-chef-stanford-digital-medic".
Definition CHANNEL_LANGUAGE : string := "en".
Definition CHANNEL_THUMBNAIL : string :=
  "https://4ao7ry48spy847yi1v2f88gj-wpengine.netdna-ssl.com/wp-content/uploads/2019/06/logo_horizontal-A_white.png".

Definition DOCUMENT_DOWNLOAD_DIR : string := "documents".

Definition ENGLISH_COLLECTION_URL : string :=
  "https://brandfolder.com/digitalmedic/covid-19".
Definition ENGLISH_ASSETS_URL : string :=
  "https://brandfolder.com/api/v4/collections/{collection}/sections/{section}/assets?sort_by=position&order=ASC&search=&fast_jsonapi=true".
Definition EXCLUDED_TOPIC_IDS : list Z := [262354%Z; 261412%Z].
Definition FILE_STORAGE_URL : string :=
  "https://brandfolder.com/api/v4/assets/{id}/attachments?fields=url,thumbnail_url".

Definition SLIDESHOWS_URL : string :=
  "https://brandfolder.com/digitalmedic/covid-19-multiple-languages".
Definition SLIDESHOW_ASSETS_URL : string :=
  "https://brandfolder.com/api/v4/collections/{collection}/sections/{section}/assets?sort_by=position&order=ASC&strict_search=false&fast_jsonapi=true".
Definition LICENSE : License :=
  CC_BY_SALicense "Stanford Center for Health Education".

(** The dictionary literal, in source order; [None] is Python's [None]. *)
Definition LANGUAGE_MAP_items : list (string * option string) :=
  [ ("Afrikaans", Some "af");
    ("Arabic", Some "ar");
    ("English", Some "en");
    ("French", Some "fr");
    ("Hindi", Some "hi");
    ("isiXhosa", Some "xh");
    ("isiZulu", Some "zul");
    ("Kiswahili", Some "sw");
    ("Mandarin Chinese - simple", Some "zh-CN");
    ("Mandarin Chinese - Traditional", Some "zh-Hant");
    ("Portuguese", Some "pt");
    ("Setswana", Some "tn");
    ("Spanish", Some "es");
    ("Tetun", None) ].

Definition LANGUAGE_MAP : gmap string (option string) :=
  list_to_map LANGUAGE_MAP_items.

(** [LANGUAGE_MAP[key]] *)
Definition LANGUAGE_MAP_getitem (key : string) : M (option string) :=
  match LANGUAGE_MAP !! key with
  | Some v => ret v
  | None => raise (KeyError key)
  end.

(** Truth value of a [LANGUAGE_MAP] entry: [None] and the empty string are
    false. *)
Definition truthy (v : option string) : bool :=
  match v with
  | Some c => negb (String.eqb c "")
  | None => false
  end.

(** The [images[i]] dictionaries built from asset thumbnails. *)
Definition view_url (thumbnail : string) : string :=
  str_replace thumbnail "element.png" "view@2x.png".

(** ** The script *)

Section Chef.

Variable w : World.

(** [downloader.read(url)] *)
Definition downloader_read (address : string) : M Content :=
  fun s =>
    match web w address with
    | Some c =>
        Ok (c, {| heap := heap s; log := log s; fs := fs s;
                  reads := reads s ++ [address] |})
    | None => Raise (DownloadError address)
    end.

(** [BeautifulSoup(content, 'html5lib')]: anything parses; what is not a
    page of the expected site has neither the [SOURCE] variable nor the
    asset list. *)
Definition BeautifulSoup (c : Content) : Page :=
  match c with
  | Html p => p
  | _ => {| resource_key := None; react_sections := None |}
  end.

(** [json.loads(content)['data']] of an asset listing *)
Definition assets_data (address : string) (c : Content) : M (list Asset) :=
  match c with
  | AssetsJson r => ret (data r)
  | _ => raise (ParseError address)
  end.

(** [json.loads(content)['data']] of an attachment listing *)
Definition attachments_data (address : string) (c : Content) : M (list Attachment) :=
  match c with
  | AttachmentsJson l => ret l
  | _ => raise (ParseError address)
  end.

(** [Image.open(BytesIO(content))] *)
Definition Image_open (address : string) (c : Content) : M Img :=
  match c with
  | ImageBytes i => ret i
  | _ => raise (ParseError address)
  end.

(** [SushiChef.get_channel]: a fresh ChannelNode from [channel_info]. *)
Definition get_channel : M nat :=
  alloc {| kind := ChannelNode; source_id := CHANNEL_SOURCE_ID;
           title := CHANNEL_NAME; license := None;
           language := Some CHANNEL_LANGUAGE;
           files := [ThumbnailFile CHANNEL_THUMBNAIL]; children := [] |}.

Definition get_collection_key (contents : Page) : M string :=
  match resource_key contents with
  | Some k => ret k
  | None => raise (AttributeError "re.search(...).group")
  end.

(** [json.loads(contents.find('div', {'class': 'asset-list'}).find('div')['data-react-props'])['sections']] *)
Definition asset_list_sections (contents : Page) : M (list SectionInfo) :=
  match react_sections contents with
  | Some l => ret l
  | None => raise (AttributeError "contents.find(...).find")
  end.

Definition pdf_path (source : string) : string :=
  let filename := MD5.hexdigest (encode_utf8 source) in
  DOCUMENT_DOWNLOAD_DIR +:+ os_path_sep w +:+ filename +:+ ".pdf".

(** The body of the loop that fills [image_list]. *)
Definition open_image (image_list : list Img) (image : Image) : M (list Img) :=
  let* c := downloader_read (url image) in
  let* img := Image_open (url image) c in
  let img := if String.eqb (mode img) "RGBA" then convert img "RGB" else img in
  ret (image_list ++ [img]).

Definition create_slideshow (images : list Image)
    (source title_ language_name : string) : M nat :=
  let* first :=
    match images with
    | i :: _ => ret i
    | [] => raise (IndexError "images[0]")
    end in
  let thumbnailFile := ThumbnailFile (url first) in
  if bool_decide ("--slides" ∈ argv w) then
    let slides :=
      List.map (fun image => SlideImageFile (url image) (default "" (caption image)))
        images in
    let* lang := LANGUAGE_MAP_getitem language_name in
    alloc {| kind := SlideshowNode; source_id := source; title := title_;
             license := Some LICENSE; language := lang;
             files := [thumbnailFile] ++ slides; children := [] |}
  else
    let pdfpath := pdf_path source in
    let* present := os_path_exists pdfpath in
    (if negb present then
       let* image_list := for_fold images [] open_image in
       match image_list with
       | im :: rest => save_pdf pdfpath (im :: rest)
       | [] => raise (IndexError "image_list[0]")
       end
     else ret tt) >>
    let* lang := LANGUAGE_MAP_getitem language_name in
    alloc {| kind := DocumentNode; source_id := source; title := title_;
             license := Some LICENSE; language := lang;
             files := [thumbnailFile; DocumentFile pdfpath]; children := [] |}.

(** The body of the loop over [assets] in [scrape_collection_files]. *)
Definition scrape_asset (topic : nat) (address : string)
    (images : list Image) (asset : Asset) : M (list Image) :=
  if String.eqb (extension asset) "png" then
    ret (images ++ [{| url := view_url (thumbnail_url asset);
                       caption := Some (name asset) |}])
  else if String.eqb (extension asset) "mp4" then
    let storage := str_format FILE_STORAGE_URL [("id", asset_id asset)] in
    let* c := downloader_read storage in
    let* video_data := attachments_data storage c in
    let* video :=
      match video_data with
      | v :: _ => ret v
      | [] => raise (IndexError "video_data['data'][0]")
      end in
    let* node :=
      alloc {| kind := VideoNode; source_id := att_url video;
               title := name asset; license := Some LICENSE; language := None;
               files := [VideoFile (att_url video);
                         ThumbnailFile (att_thumbnail_url video)];
               children := [] |} in
    add_child topic node >>
    ret images
  else
    LOGGER WARNING "Unable to add {} from {}" [extension asset; address] >>
    ret images.

Definition scrape_collection_files (topic : nat) (address : string) : M unit :=
  let* c := downloader_read address in
  let* assets := assets_data address c in
  let* images := for_fold assets [] (scrape_asset topic address) in
  if (0 <? List.length images)%nat then
    let* t := get_title topic in
    let* node := create_slideshow images address t "English" in
    add_child topic node
  else ret tt.

(** The body of the loop over [topic_list]. *)
Definition scrape_topic (channel : nat) (collection_key : string)
    (topic : SectionInfo) : M unit :=
  LOGGER INFO "    {}" [sec_name topic] >>
  let* topic_node :=
    alloc {| kind := TopicNode; source_id := section_key topic;
             title := sec_name topic; license := None; language := None;
             files := []; children := [] |} in
  add_child channel topic_node >>
  let address :=
    str_format ENGLISH_ASSETS_URL
      [("collection", collection_key); ("section", section_key topic)] in
  scrape_collection_files topic_node address.

Definition excluded (t : SectionInfo) : bool :=
  bool_decide (sec_id t ∈ EXCLUDED_TOPIC_IDS).

Definition scrape_english_collection (channel : nat) : M unit :=
  LOGGER INFO "Scraping English collection..." [] >>
  let* c := downloader_read ENGLISH_COLLECTION_URL in
  let contents := BeautifulSoup c in
  let* collection_key := get_collection_key contents in
  let* sections := asset_list_sections contents in
  let topic_list := List.filter (fun t => negb (excluded t)) sections in
  for_each topic_list (scrape_topic channel collection_key).

(** The conditional expression that computes [translated_name]. *)
Definition translate (language_name : string) : M string :=
  let* code := LANGUAGE_MAP_getitem language_name in
  if truthy code then
    let* code' := LANGUAGE_MAP_getitem language_name in
    match getlang w (default "" code') with
    | Some l => ret (native_name l)
    | None => raise (AttributeError "getlang(...).native_name")
    end
  else ret language_name.

(** The body of the loop over [language_list]. *)
Definition scrape_language (channel : nat) (lang : SectionInfo) : M unit :=
  let asset_url :=
    str_format SLIDESHOW_ASSETS_URL
      [("collection", "qac6i4-foozd4-68u325"); ("section", section_key lang)] in
  let* c := downloader_read asset_url in
  let* slide_data := assets_data asset_url c in
  let* translated_name := translate (sec_name lang) in
  LOGGER INFO "    {}" [translated_name] >>
  let slides :=
    List.map (fun slide => {| url := view_url (thumbnail_url slide); caption := None |})
      slide_data in
  if (0 <? List.length slides)%nat then
    let* node := create_slideshow slides asset_url translated_name (sec_name lang) in
    add_child channel node
  else ret tt.

Definition scrape_multilanguage_slideshows (channel : nat) : M unit :=
  LOGGER INFO "Scraping multi-language content..." [] >>
  let* c := downloader_read SLIDESHOWS_URL in
  let contents := BeautifulSoup c in
  let* collection_key := get_collection_key contents in
  let* language_list := asset_list_sections contents in
  for_each language_list (scrape_language channel).

Definition construct_channel : M nat :=
  let* channel := get_channel in
  scrape_english_collection channel >>
  scrape_multilanguage_slideshows channel >>
  ret channel.

End Chef.

(** The state a run starts from: no node, no output, and whatever the
    documents directory holds from earlier runs. *)
Definition initial (files0 : gmap string (list Img)) : State :=
  {| heap := []; log := []; fs := files0; reads := [] |}.

(** ** What a run is expected to produce

    Pure descriptions of the pieces of the final state, computed from the
    world alone; the theorems below relate the script to them. *)

Definition append_children (cs : list nat) (n : Node) : Node :=
  {| kind := kind n; source_id := source_id n; title := title n;
     license := license n; language := language n; files := files n;
     children := children n ++ cs |}.

Definition is_png (a : Asset) : bool := String.eqb (extension a) "png".
Definition is_mp4 (a : Asset) : bool := String.eqb (extension a) "mp4".
Definition is_other (a : Asset) : bool := negb (is_png a) && negb (is_mp4 a).

Definition slide_of_asset (a : Asset) : Image :=
  {| url := view_url (thumbnail_url a); caption := Some (name a) |}.

Definition storage_url (a : Asset) : string :=
  str_format FILE_STORAGE_URL [("id", asset_id a)].

Definition video_node (a : Asset) (v : Attachment) : Node :=
  {| kind := VideoNode; source_id := att_url v; title := name a;
     license := Some LICENSE; language := None;
     files := [VideoFile (att_url v); ThumbnailFile (att_thumbnail_url v)];
     children := [] |}.

Definition warning_for (address : string) (a : Asset) : LogRecord :=
  {| level := WARNING; fmt := "Unable to add {} from {}";
     args := [extension a; address] |}.

Section Expected.

Variable w : World.

Definition first_attachment (a : Asset) : option Attachment :=
  match web w (storage_url a) with
  | Some (AttachmentsJson (v :: _)) => Some v
  | _ => None
  end.

(** The video nodes of a listing, in listing order. *)
Definition video_nodes (assets : list Asset) : option (list Node) :=
  mapM (fun a => video_node a <$> first_attachment a) (List.filter is_mp4 assets).

Definition slides_mode : bool := bool_decide ("--slides" ∈ argv w).

Definition to_rgb (img : Img) : Img :=
  if String.eqb (mode img) "RGBA" then convert img "RGB" else img.

(** The page an image contributes to a generated PDF. *)
Definition page_of (image : Image) : option Img :=
  match web w (url image) with
  | Some (ImageBytes i) => Some (to_rgb i)
  | _ => None
  end.

(** The PDF flattened from a list of images: one page per image, in order. *)
Definition pages_of (images : list Image) : option (list Img) :=
  mapM page_of images.

Definition head_url (images : list Image) : string :=
  match images with
  | i :: _ => url i
  | [] => ""
  end.

Definition slide_file (image : Image) : File :=
  SlideImageFile (url image) (default "" (caption image)).

Definition slideshow_node (images : list Image) (source title_ : string)
    (lang : option string) : Node :=
  {| kind := SlideshowNode; source_id := source; title := title_;
     license := Some LICENSE; language := lang;
     files := ThumbnailFile (head_url images) :: List.map slide_file images;
     children := [] |}.

Definition document_node (images : list Image) (source title_ : string)
    (lang : option string) : Node :=
  {| kind := DocumentNode; source_id := source; title := title_;
     license := Some LICENSE; language := lang;
     files := [ThumbnailFile (head_url images); DocumentFile (pdf_path w source)];
     children := [] |}.

(** The node [create_slideshow] returns. *)
Definition packaged (images : list Image) (source title_ : string)
    (lang : option string) : Node :=
  if slides_mode then slideshow_node images source title_ lang
  else document_node images source title_ lang.

(** Whether [create_slideshow] has to generate the PDF of [source]. *)
Definition generates_pdf (files0 : gmap string (list Img)) (source : string) : bool :=
  negb slides_mode && negb (bool_decide (is_Some (files0 !! pdf_path w source))).

(** The documents directory after [create_slideshow]. *)
Definition files_after (files0 : gmap string (list Img)) (images : list Image)
    (source : string) : gmap string (list Img) :=
  if generates_pdf files0 source
  then <[pdf_path w source := default [] (pages_of images)]> files0
  else files0.

(** The downloads [create_slideshow] performs. *)
Definition image_reads (files0 : gmap string (list Img)) (images : list Image)
    (source : string) : list string :=
  if generates_pdf files0 source then List.map url images else [].

(** The asset listing a URL serves. *)
Definition listing (address : string) : list Asset :=
  match web w address with
  | Some (AssetsJson r) => data r
  | _ => []
  end.

(** The images [scrape_collection_files] collects from a listing. *)
Definition collected (address : string) : list Image :=
  List.map slide_of_asset (List.filter is_png (listing address)).

Definition nonempty {A} (l : list A) : bool := (0 <? List.length l)%nat.

(** The slideshow of a topic: present when the listing has an image. *)
Definition topic_slideshow (address title_ : string) : list Node :=
  if nonempty (collected address)
  then [packaged (collected address) address title_ (Some "en")]
  else [].

(** The nodes [scrape_collection_files] puts below a topic. *)
Definition listing_leaves (address title_ : string) : list Node :=
  default [] (video_nodes (listing address)) ++ topic_slideshow address title_.

Definition listing_files (files0 : gmap string (list Img)) (address : string)
    : gmap string (list Img) :=
  if nonempty (collected address)
  then files_after files0 (collected address) address
  else files0.

(** The requests of [scrape_collection_files]: the listing, the attachments
    of every video, and the images of a PDF that has to be generated. *)
Definition listing_reads (files0 : gmap string (list Img)) (address : string)
    : list string :=
  address :: List.map storage_url (List.filter is_mp4 (listing address))
    ++ (if nonempty (collected address)
        then image_reads files0 (collected address) address
        else []).

(** What has to hold of the world for [scrape_collection_files] to return. *)
Definition listing_ok (files0 : gmap string (list Img)) (address : string) : Prop :=
  (exists r, web w address = Some (AssetsJson r)) /\
  is_Some (video_nodes (listing address)) /\
  (nonempty (collected address) = true ->
   generates_pdf files0 address = true ->
   is_Some (pages_of (collected address))).

(** *** The English collection *)

Definition english_assets_url (key : string) (t : SectionInfo) : string :=
  str_format ENGLISH_ASSETS_URL
    [("collection", key); ("section", section_key t)].

Definition topic_node (t : SectionInfo) (cs : list nat) : Node :=
  {| kind := TopicNode; source_id := section_key t; title := sec_name t;
     license := None; language := None; files := []; children := cs |}.

Definition topic_leaves (key : string) (t : SectionInfo) : list Node :=
  listing_leaves (english_assets_url key t) (sec_name t).

(** The heap cells of one topic: the topic at [start], its leaves behind it. *)
Definition topic_block (key : string) (start : nat) (t : SectionInfo) : list Node :=
  topic_node t (seq (S start) (List.length (topic_leaves key t)))
    :: topic_leaves key t.

Fixpoint layout (key : string) (start : nat) (topics : list SectionInfo) : list Node :=
  match topics with
  | [] => []
  | t :: ts =>
      topic_block key start t
        ++ layout key (start + List.length (topic_block key start t)) ts
  end.

(** Where the topics of [layout] sit. *)
Fixpoint starts (key : string) (start : nat) (topics : list SectionInfo) : list nat :=
  match topics with
  | [] => []
  | t :: ts =>
      start :: starts key (start + List.length (topic_block key start t)) ts
  end.

Definition topic_log (key : string) (t : SectionInfo) : list LogRecord :=
  {| level := INFO; fmt := "    {}"; args := [sec_name t] |}
    :: List.map (warning_for (english_assets_url key t))
         (List.filter is_other (listing (english_assets_url key t))).

Fixpoint english_files (key : string) (files0 : gmap string (list Img))
    (topics : list SectionInfo) : gmap string (list Img) :=
  match topics with
  | [] => files0
  | t :: ts =>
      english_files key (listing_files files0 (english_assets_url key t)) ts
  end.

Fixpoint english_reads (key : string) (files0 : gmap string (list Img))
    (topics : list SectionInfo) : list string :=
  match topics with
  | [] => []
  | t :: ts =>
      listing_reads files0 (english_assets_url key t)
        ++ english_reads key (listing_files files0 (english_assets_url key t)) ts
  end.

Fixpoint topics_ok (key : string) (files0 : gmap string (list Img))
    (topics : list SectionInfo) : Prop :=
  match topics with
  | [] => True
  | t :: ts =>
      listing_ok files0 (english_assets_url key t) /\
      topics_ok key (listing_files files0 (english_assets_url key t)) ts
  end.

(** The sections the English scrape keeps, in page order. *)
Definition kept (sections : list SectionInfo) : list SectionInfo :=
  List.filter (fun t => negb (excluded t)) sections.

(** *** The multi-language slideshows *)

Definition slideshow_assets_url (t : SectionInfo) : string :=
  str_format SLIDESHOW_ASSETS_URL
    [("collection", "qac6i4-foozd4-68u325"); ("section", section_key t)].

Definition slide_of (a : Asset) : Image :=
  {| url := view_url (thumbnail_url a); caption := None |}.

Definition slides_of (t : SectionInfo) : list Image :=
  List.map slide_of (listing (slideshow_assets_url t)).

(** The value of [translated_name] for a section name; [None] when its
    computation raises. *)
Definition translated_name (language_name : string) : option string :=
  match LANGUAGE_MAP !! language_name with
  | Some code =>
      if truthy code
      then native_name <$> getlang w (default "" code)
      else Some language_name
  | None => None
  end.

(** The node of a language section: present when the section has a slide. *)
Definition language_nodes (t : SectionInfo) : list Node :=
  if nonempty (slides_of t)
  then [packaged (slides_of t) (slideshow_assets_url t)
          (default "" (translated_name (sec_name t)))
          (default None (LANGUAGE_MAP !! sec_name t))]
  else [].

Definition language_log (t : SectionInfo) : LogRecord :=
  {| level := INFO; fmt := "    {}";
     args := [default "" (translated_name (sec_name t))] |}.

Definition language_files (files0 : gmap string (list Img)) (t : SectionInfo)
    : gmap string (list Img) :=
  if nonempty (slides_of t)
  then files_after files0 (slides_of t) (slideshow_assets_url t)
  else files0.

Definition language_reads (files0 : gmap string (list Img)) (t : SectionInfo)
    : list string :=
  slideshow_assets_url t
    :: (if nonempty (slides_of t)
        then image_reads files0 (slides_of t) (slideshow_assets_url t)
        else []).

Definition language_ok (files0 : gmap string (list Img)) (t : SectionInfo) : Prop :=
  (exists r, web w (slideshow_assets_url t) = Some (AssetsJson r)) /\
  is_Some (translated_name (sec_name t)) /\
  (nonempty (slides_of t) = true ->
   generates_pdf files0 (slideshow_assets_url t) = true ->
   is_Some (pages_of (slides_of t))).

Fixpoint multilanguage_files (files0 : gmap string (list Img))
    (langs : list SectionInfo) : gmap string (list Img) :=
  match langs with
  | [] => files0
  | t :: ts => multilanguage_files (language_files files0 t) ts
  end.

Fixpoint multilanguage_reads (files0 : gmap string (list Img))
    (langs : list SectionInfo) : list string :=
  match langs with
  | [] => []
  | t :: ts =>
      language_reads files0 t ++ multilanguage_reads (language_files files0 t) ts
  end.

Fixpoint languages_ok (files0 : gmap string (list Img))
    (langs : list SectionInfo) : Prop :=
  match langs with
  | [] => True
  | t :: ts => language_ok files0 t /\ languages_ok (language_files files0 t) ts
  end.

(** *** The two pages *)

Definition page_at (address : string) : Page :=
  match web w address with
  | Some c => BeautifulSoup c
  | None => {| resource_key := None; react_sections := None |}
  end.

Definition page_ok (address : string) : Prop :=
  is_Some (web w address) /\
  is_Some (resource_key (page_at address)) /\
  is_Some (react_sections (page_at address)).

Definition english_key : string :=
  default "" (resource_key (page_at ENGLISH_COLLECTION_URL)).

Definition english_topics : list SectionInfo :=
  kept (default [] (react_sections (page_at ENGLISH_COLLECTION_URL))).

Definition language_sections : list SectionInfo :=
  default [] (react_sections (page_at SLIDESHOWS_URL)).

Definition has_slides (t : SectionInfo) : bool := nonempty (slides_of t).

(** The node of a language section that has slides. *)
Definition language_node (t : SectionInfo) : Node :=
  packaged (slides_of t) (slideshow_assets_url t)
    (default "" (translated_name (sec_name t)))
    (default None (LANGUAGE_MAP !! sec_name t)).

(** *** The whole run *)

Definition channel_node (cs : list nat) : Node :=
  {| kind := ChannelNode; source_id := CHANNEL_SOURCE_ID;
     title := CHANNEL_NAME; license := None;
     language := Some CHANNEL_LANGUAGE;
     files := [ThumbnailFile CHANNEL_THUMBNAIL]; children := cs |}.

Definition topic_cells (base : nat) : list Node :=
  layout english_key (S base) english_topics.

Definition language_cells : list Node :=
  flat_map language_nodes language_sections.

(** The children of the channel when the channel sits at [base]: the
    topics, then the language slideshows. *)
Definition channel_children (base : nat) : list nat :=
  starts english_key (S base) english_topics
    ++ seq (S base + List.length (topic_cells base)) (List.length language_cells).

(** The heap cells a run allocates, the channel first. *)
Definition channel_cells (base : nat) : list Node :=
  channel_node (channel_children base) :: topic_cells base ++ language_cells.

Definition run_log : list LogRecord :=
  {| level := INFO; fmt := "Scraping English collection..."; args := [] |}
    :: flat_map (topic_log english_key) english_topics
    ++ {| level := INFO; fmt := "Scraping multi-language content..."; args := [] |}
    :: List.map language_log language_sections.

Definition run_files (files0 : gmap string (list Img)) : gmap string (list Img) :=
  multilanguage_files (english_files english_key files0 english_topics)
    language_sections.

Definition run_reads (files0 : gmap string (list Img)) : list string :=
  ENGLISH_COLLECTION_URL :: english_reads english_key files0 english_topics
    ++ SLIDESHOWS_URL
    :: multilanguage_reads (english_files english_key files0 english_topics)
         language_sections.

Definition run_ok (files0 : gmap string (list Img)) : Prop :=
  page_ok ENGLISH_COLLECTION_URL /\
  topics_ok english_key files0 english_topics /\
  page_ok SLIDESHOWS_URL /\
  languages_ok (english_files english_key files0 english_topics) language_sections.

(** *** The requests that do not depend on the documents directory *)

Definition is_image_url (address : string) : bool :=
  match web w address with
  | Some (ImageBytes _) => true
  | _ => false
  end.

Definition not_image (address : string) : bool := negb (is_image_url address).

Definition is_listing_url (address : string) : bool :=
  match web w address with
  | Some (AssetsJson _) => true
  | _ => false
  end.

(** The listing of a section and the attachments of its videos. *)
Definition listing_requests (address : string) : list string :=
  address :: List.map storage_url (List.filter is_mp4 (listing address)).

(** The page and API requests of a run. *)
Definition scrape_reads : list string :=
  ENGLISH_COLLECTION_URL
    :: flat_map (fun t => listing_requests (english_assets_url english_key t))
         english_topics
    ++ SLIDESHOWS_URL :: List.map slideshow_assets_url language_sections.

End Expected.

Arguments pages_of w images : simpl never.

Definition title_of (h : list Node) (r : nat) : string :=
  match h !! r with
  | Some n => title n
  | None => ""
  end.

(** ** Reading the tree off the heap *)

Definition children_of (h : list Node) (r : nat) : list nat :=
  match h !! r with
  | Some n => children n
  | None => []
  end.

Definition is_leaf_kind (k : NodeKind) : bool :=
  match k with
  | VideoNode | SlideshowNode | DocumentNode => true
  | ChannelNode | TopicNode => false
  end.

Definition is_slideshow_kind (k : NodeKind) : bool :=
  match k with
  | SlideshowNode | DocumentNode => true
  | _ => false
  end.

(** A slideshow, document or video without children. *)
Definition is_leaf (n : Node) : bool :=
  is_leaf_kind (kind n) && bool_decide (children n = []).

Definition leaf_at (h : list Node) (r : nat) : bool :=
  match h !! r with
  | Some n => is_leaf n
  | None => false
  end.

(** A topic whose children are all leaves. *)
Definition topic_at (h : list Node) (r : nat) : bool :=
  match h !! r with
  | Some n =>
      match kind n with
      | TopicNode => forallb (leaf_at h) (children n)
      | _ => false
      end
  | None => false
  end.

(** A slideshow, native or PDF, without children. *)
Definition slideshow_at (h : list Node) (r : nat) : bool :=
  match h !! r with
  | Some n => is_slideshow_kind (kind n) && bool_decide (children n = [])
  | None => false
  end.

(** What may hang directly below the channel. *)
Definition channel_child_at (h : list Node) (r : nat) : bool :=
  topic_at h r || slideshow_at h r.

Definition two_level (h : list Node) (c : nat) : bool :=
  match h !! c with
  | Some n =>
      match kind n with
      | ChannelNode => forallb (channel_child_at h) (children n)
      | _ => false
      end
  | None => false
  end.

(** Every reference below [r] is live and no node sits more than [n] levels
    below [r]. *)
Fixpoint depth_within (h : list Node) (n : nat) (r : nat) : bool :=
  match h !! r with
  | None => false
  | Some node =>
      match n with
      | O => bool_decide (children node = [])
      | S n' => forallb (depth_within h n') (children node)
      end
  end.

(** ** A small world to run the script on *)

Module Sample.

Fixpoint assoc {A} (k : string) (l : list (string * A)) : option A :=
  match l with
  | [] => None
  | (k', v) :: r => if String.eqb k k' then Some v else assoc k r
  end.

Definition prevention : SectionInfo :=
  {| sec_id := 1; sec_name := "Prevention"; section_key := "s1" |}.
Definition hidden : SectionInfo :=
  {| sec_id := 262354; sec_name := "Hidden"; section_key := "sx" |}.
Definition videos : SectionInfo :=
  {| sec_id := 2; sec_name := "Videos"; section_key := "s2" |}.

Definition french : SectionInfo :=
  {| sec_id := 10; sec_name := "French"; section_key := "f1" |}.
Definition tetun : SectionInfo :=
  {| sec_id := 11; sec_name := "Tetun"; section_key := "t1" |}.
Definition hindi : SectionInfo :=
  {| sec_id := 12; sec_name := "Hindi"; section_key := "h1" |}.

Definition wash : Asset :=
  {| asset_id := "a1"; extension := "png";
     thumbnail_url := "https://cdn/a1/element.png"; name := "Wash" |}.
Definition clip : Asset :=
  {| asset_id := "v1"; extension := "mp4";
     thumbnail_url := "https://cdn/v1/element.png"; name := "Clip" |}.
Definition leaflet : Asset :=
  {| asset_id := "d1"; extension := "pdf";
     thumbnail_url := "https://cdn/d1/element.png"; name := "Leaflet" |}.
Definition mask : Asset :=
  {| asset_id := "a2"; extension := "png";
     thumbnail_url := "https://cdn/a2/element.png"; name := "Mask" |}.
Definition distance : Asset :=
  {| asset_id := "a3"; extension := "png";
     thumbnail_url := "https://cdn/a3/element.png"; name := "Distance" |}.

Definition clip_file : Attachment :=
  {| att_url := "https://cdn/v1.mp4"; att_thumbnail_url := "https://cdn/v1.png" |}.

(** The second page of the listing of [prevention]. *)
Definition prevention_page2 : string :=
  "https://brandfolder.com/api/v4/collections/ck/sections/s1/assets?page=2".

Definition pages : list (string * Content) :=
  [ (ENGLISH_COLLECTION_URL,
     Html {| resource_key := Some "ck";
             react_sections := Some [prevention; hidden; videos] |});
    (str_format ENGLISH_ASSETS_URL [("collection", "ck"); ("section", "s1")],
     AssetsJson {| data := [wash; clip; leaflet; mask];
                   next_page := Some prevention_page2 |});
    (prevention_page2,
     AssetsJson {| data := [distance]; next_page := None |});
    (str_format ENGLISH_ASSETS_URL [("collection", "ck"); ("section", "s2")],
     AssetsJson {| data := []; next_page := None |});
    (str_format FILE_STORAGE_URL [("id", "v1")], AttachmentsJson [clip_file]);
    ("https://cdn/a1/view@2x.png", ImageBytes {| mode := "RGBA"; pixels := "a1" |});
    ("https://cdn/a2/view@2x.png", ImageBytes {| mode := "RGB"; pixels := "a2" |});
    ("https://cdn/a3/view@2x.png", ImageBytes {| mode := "RGB"; pixels := "a3" |});
    (SLIDESHOWS_URL,
     Html {| resource_key := Some "zz";
             react_sections := Some [french; tetun; hindi] |});
    (str_format SLIDESHOW_ASSETS_URL
       [("collection", "qac6i4-foozd4-68u325"); ("section", "f1")],
     AssetsJson {| data := [wash]; next_page := None |});
    (str_format SLIDESHOW_ASSETS_URL
       [("collection", "qac6i4-foozd4-68u325"); ("section", "t1")],
     AssetsJson {| data := [mask]; next_page := None |});
    (str_format SLIDESHOW_ASSETS_URL
       [("collection", "qac6i4-foozd4-68u325"); ("section", "h1")],
     AssetsJson {| data := []; next_page := None |}) ].

Definition languages : list (string * Language) :=
  [ ("fr", {| native_name := "Francais" |});
    ("hi", {| native_name := "Hindi (native)" |}) ].

(** The world of a run with or without [--slides]. *)
Definition world (slides : bool) : World :=
  {| argv := if slides then ["sushichef.py"; "--slides"] else ["sushichef.py"];
     os_path_sep := "/";
     web := fun address => assoc address pages;
     getlang := fun code => assoc code languages |}.

(** A state that holds a channel and one empty topic. *)
Definition topic_state (files0 : gmap string (list Img)) : State :=
  {| heap := [ {| kind := ChannelNode; source_id := CHANNEL_SOURCE_ID;
                  title := CHANNEL_NAME; license := None;
                  language := Some CHANNEL_LANGUAGE; files := [];
                  children := [1%nat] |};
               {| kind := TopicNode; source_id := "s1"; title := "Prevention";
                  license := None; language := None; files := [];
                  children := [] |} ];
     log := []; fs := files0; reads := [] |}.

(** A state that holds the channel alone. *)
Definition channel_state (files0 : gmap string (list Img)) : State :=
  {| heap := [ {| kind := ChannelNode; source_id := CHANNEL_SOURCE_ID;
                  title := CHANNEL_NAME; license := None;
                  language := Some CHANNEL_LANGUAGE; files := [];
                  children := [] |} ];
     log := []; fs := files0; reads := [] |}.

Definition prevention_url : string :=
  str_format ENGLISH_ASSETS_URL [("collection", "ck"); ("section", "s1")].

(** A PDF left in the documents directory by an earlier run. *)
Definition stale : list Img := [ {| mode := "RGB"; pixels := "old" |} ].

Definition final {A} (r : Result (A * State)) : State :=
  match r with
  | Ok (_, s) => s
  | Raise _ => initial ∅
  end.

(** The documents directory after an earlier run over other images. *)
Definition used_directory : gmap string (list Img) :=
  {[ pdf_path (world false) prevention_url := stale ]}.

(** The states the sample runs end in. *)
Definition topic_run : State :=
  Eval vm_compute in
    final (scrape_collection_files (world false) 1 prevention_url (topic_state ∅)).

Definition slides_run : State :=
  Eval vm_compute in final (construct_channel (world true) (initial ∅)).

Definition pdf_run : State :=
  Eval vm_compute in final (construct_channel (world false) (initial ∅)).

Definition pdf_rerun : State :=
  Eval vm_compute in final (construct_channel (world false) (initial used_directory)).

Definition english_run : State :=
  Eval vm_compute in
    final (scrape_english_collection (world true) 0 (channel_state ∅)).

Definition languages_run : State :=
  Eval vm_compute in
    final (scrape_multilanguage_slideshows (world true) 0 (channel_state ∅)).

(** A world without network. *)
Definition offline : World :=
  {| argv := ["sushichef.py"]; os_path_sep := "/";
     web := fun _ => None; getlang := fun _ => None |}.

End Sample.

(** ** Exceptions of the accesses to the first image *)

(** The IndexError of [images[0]] or of [image_list[0]]: what
    [create_slideshow] raises when its list of images is empty. *)
Definition image_index_error (e : Exception) : bool :=
  match e with
  | IndexError expr =>
      String.eqb expr "images[0]" || String.eqb expr "image_list[0]"
  | _ => false
  end.

(** A computation that raises none of them. *)
Definition safe {A} (m : M A) : Prop :=
  forall s e, m s = Raise e -> image_index_error e = false.

(** ** Comparing the nodes of two runs *)

(** Two nodes that are the same, or two slideshows, native or PDF, that
    differ in nothing but their kind and the files behind the thumbnail. *)
Definition repackaged (n1 n2 : Node) : Prop :=
  n1 = n2 \/
  (is_slideshow_kind (kind n1) = true /\
   is_slideshow_kind (kind n2) = true /\
   source_id n1 = source_id n2 /\
   title n1 = title n2 /\
   license n1 = license n2 /\
   language n1 = language n2 /\
   head (files n1) = head (files n2) /\
   children n1 = children n2).

(** * Proofs *)

(** URLs are compared, never computed, in the proofs below. *)
Opaque str_format.

(** ** Running monadic code *)

Lemma bind_Ok {A B} (m : M A) (k : A -> M B) s b s' :
  bind m k s = Ok (b, s') ->
  exists a s1, m s = Ok (a, s1) /\ k a s1 = Ok (b, s').
Proof.
  unfold bind. destruct (m s) as [[a s1]|e]; [eauto | discriminate].
Qed.

Lemma bind_Raise {A B} (m : M A) (k : A -> M B) s e :
  bind m k s = Raise e ->
  m s = Raise e \/ exists a s1, m s = Ok (a, s1) /\ k a s1 = Raise e.
Proof.
  unfold bind. destruct (m s) as [[a s1]|e']; [eauto | intros [= ->]; auto].
Qed.

Lemma bind_run {A B} (m : M A) (k : A -> M B) s a s1 :
  m s = Ok (a, s1) -> bind m k s = k a s1.
Proof. unfold bind. intros ->. reflexivity. Qed.

(** Split a successful run at its outermost [bind]. *)
Ltac split_run H :=
  let a := fresh "a" in
  let s1 := fresh "s" in
  let H1 := fresh "Hrun" in
  apply bind_Ok in H; destruct H as (a & s1 & H1 & H).

Lemma png_not_mp4 a : is_png a = true -> is_mp4 a = false.
Proof.
  unfold is_png, is_mp4. intros H%String.eqb_eq. rewrite H. reflexivity.
Qed.

(** ** The loop over the assets of a listing *)

Section AssetLoop.

Variable w : World.

Lemma scrape_asset_Ok topic address images a s images1 s1 :
  scrape_asset w topic address images a s = Ok (images1, s1) ->
  (topic < List.length (heap s))%nat ->
  (is_png a = true /\ images1 = images ++ [slide_of_asset a] /\ s1 = s)
  \/ (is_png a = false /\ is_mp4 a = true /\ images1 = images /\
      exists v, first_attachment w a = Some v /\
        s1 = {| heap := alter (append_child (List.length (heap s))) topic (heap s)
                          ++ [video_node a v];
                log := log s; fs := fs s;
                reads := reads s ++ [storage_url a] |})
  \/ (is_png a = false /\ is_mp4 a = false /\ images1 = images /\
      s1 = {| heap := heap s; log := log s ++ [warning_for address a];
              fs := fs s; reads := reads s |}).
Proof.
  unfold scrape_asset, is_png, is_mp4, first_attachment, storage_url.
  intros H Hlt.
  destruct (String.eqb (extension a) "png").
  - left. inversion H. auto.
  - destruct (String.eqb (extension a) "mp4").
    + right; left.
      unfold bind, downloader_read in H.
      destruct (web w _) as [c|]; [|discriminate].
      destruct c as [p|r|[|v l]|i|]; simpl in H; try discriminate.
      inversion H; subst. repeat split; auto.
      exists v. split; [reflexivity|].
      simpl. rewrite alter_app_l by (simpl; lia). reflexivity.
    + right; right. inversion H. auto.
Qed.

Lemma append_children_nil n : append_children [] n = n.
Proof. destruct n. unfold append_children. simpl. rewrite app_nil_r. reflexivity. Qed.

Lemma append_children_cons c cs n :
  append_children cs (append_child c n) = append_children (c :: cs) n.
Proof.
  unfold append_children, append_child. simpl.
  rewrite <- app_assoc. reflexivity.
Qed.

Lemma alter_append_children_nil t (h : list Node) :
  alter (append_children []) t h = h.
Proof. apply list_alter_id, append_children_nil. Qed.

Lemma alter_append_children_cons c cs t (h : list Node) :
  alter (append_children cs) t (alter (append_child c) t h)
  = alter (append_children (c :: cs)) t h.
Proof.
  rewrite list_alter_alter_eq. apply list_alter_ext; [|reflexivity].
  intros n _. apply append_children_cons.
Qed.

Lemma state_eta s :
  s = {| heap := heap s; log := log s; fs := fs s; reads := reads s |}.
Proof. destruct s. reflexivity. Qed.

Lemma scrape_assets_Ok topic address assets :
  forall images s images' s',
  for_fold assets images (scrape_asset w topic address) s = Ok (images', s') ->
  (topic < List.length (heap s))%nat ->
  exists videos,
    video_nodes w assets = Some videos /\
    images' = images ++ List.map slide_of_asset (List.filter is_png assets) /\
    s' = {| heap := alter (append_children
                             (seq (List.length (heap s)) (List.length videos)))
                      topic (heap s) ++ videos;
            log := log s ++ List.map (warning_for address) (List.filter is_other assets);
            fs := fs s;
            reads := reads s ++ List.map storage_url (List.filter is_mp4 assets) |}.
Proof.
  induction assets as [|a assets IH]; intros images s images' s' H Hlt.
  - inversion H; subst. exists []. simpl.
    rewrite alter_append_children_nil, !app_nil_r.
    repeat split; auto using state_eta.
  - simpl in H. split_run H.
    apply scrape_asset_Ok in Hrun; [|assumption].
    destruct Hrun as [(Hpng & -> & ->) | [(Hpng & Hmp4 & -> & v & Hv & ->)
                                         | (Hpng & Hmp4 & -> & ->)]].
    + apply IH in H; [|assumption]. destruct H as (videos & Hvs & -> & ->).
      exists videos. unfold video_nodes, is_other in *. simpl.
      rewrite Hpng, (png_not_mp4 _ Hpng). simpl.
      rewrite <- app_assoc. auto.
    + apply IH in H; [|simpl; rewrite length_app, length_alter; lia].
      destruct H as (videos & Hvs & -> & ->).
      exists (video_node a v :: videos).
      unfold video_nodes, is_other in *. simpl.
      rewrite Hpng, Hmp4. simpl. rewrite Hv. simpl.
      unfold video_nodes in Hvs. rewrite Hvs. simpl.
      repeat split; auto. f_equal.
      * rewrite length_app, length_alter. simpl.
        rewrite alter_app_l by (rewrite length_alter; lia).
        rewrite alter_append_children_cons, <- app_assoc.
        replace (List.length (heap s) + 1)%nat with (S (List.length (heap s))) by lia.
        reflexivity.
      * rewrite <- app_assoc. reflexivity.
    + apply IH in H; [|assumption]. destruct H as (videos & Hvs & -> & ->).
      exists videos. unfold video_nodes, is_other in *. simpl.
      rewrite Hpng, Hmp4. simpl. rewrite <- app_assoc. auto.
Qed.

End AssetLoop.

(** ** [create_slideshow] *)

Section Slideshow.

Variable w : World.

Lemma open_images_Ok images :
  forall acc s l s',
  for_fold images acc (open_image w) s = Ok (l, s') ->
  exists pages,
    pages_of w images = Some pages /\ l = acc ++ pages /\
    s' = {| heap := heap s; log := log s; fs := fs s;
            reads := reads s ++ List.map url images |}.
Proof.
  induction images as [|image images IH]; intros acc s l s' H.
  - inversion H; subst. exists []. rewrite !app_nil_r. auto using state_eta.
  - simpl in H. split_run H.
    unfold open_image, bind, downloader_read in Hrun.
    destruct (web w (url image)) as [c|] eqn:Hweb; [|discriminate].
    destruct c as [p|r|l0|i|]; simpl in Hrun; try discriminate.
    inversion Hrun; subst; clear Hrun.
    apply IH in H. destruct H as (pages & Hpages & -> & ->).
    exists (to_rgb i :: pages). unfold pages_of, page_of in *. simpl.
    rewrite Hweb. simpl. rewrite Hpages. simpl.
    rewrite <- !app_assoc. auto.
Qed.

Lemma open_images_run images :
  forall acc s pages,
  pages_of w images = Some pages ->
  for_fold images acc (open_image w) s
  = Ok (acc ++ pages,
        {| heap := heap s; log := log s; fs := fs s;
           reads := reads s ++ List.map url images |}).
Proof.
  induction images as [|image images IH]; intros acc s pages H.
  - inversion H; subst. simpl. rewrite !app_nil_r, <- state_eta. reflexivity.
  - unfold pages_of in H. simpl in H.
    destruct (page_of w image) as [p|] eqn:Hp; [|discriminate].
    destruct (mapM (page_of w) images) as [ps|] eqn:Hps; [|discriminate].
    inversion H; subst; clear H.
    unfold page_of in Hp.
    destruct (web w (url image)) as [c|] eqn:Hweb; [|discriminate].
    destruct c as [?|?|?|i|]; try discriminate. inversion Hp; subst.
    simpl. unfold bind at 1. unfold open_image at 1.
    unfold bind, downloader_read. rewrite Hweb. simpl.
    rewrite (IH _ _ ps Hps). simpl. rewrite <- !app_assoc. reflexivity.
Qed.

Lemma pages_of_length images pages :
  pages_of w images = Some pages -> List.length pages = List.length images.
Proof. intros H. symmetry. eapply length_mapM, H. Qed.

(** A successful call, described completely. *)
Lemma create_slideshow_Ok images source t language_name s r s' :
  create_slideshow w images source t language_name s = Ok (r, s') ->
  exists lang,
    images <> [] /\
    LANGUAGE_MAP !! language_name = Some lang /\
    (generates_pdf w (fs s) source = true -> is_Some (pages_of w images)) /\
    r = List.length (heap s) /\
    s' = {| heap := heap s ++ [packaged w images source t lang];
            log := log s;
            fs := files_after w (fs s) images source;
            reads := reads s ++ image_reads w (fs s) images source |}.
Proof.
  unfold create_slideshow, packaged, files_after, image_reads, generates_pdf,
    slides_mode, LANGUAGE_MAP_getitem.
  intros H. destruct images as [|first rest]; [discriminate|].
  rewrite bind_run with (a := first) (s1 := s) in H by reflexivity.
  destruct (bool_decide ("--slides" ∈ argv w)).
  - destruct (LANGUAGE_MAP !! language_name) as [lang|]; [|discriminate].
    inversion H; subst. exists lang. simpl. rewrite app_nil_r.
    repeat split; auto; discriminate.
  - apply bind_Ok in H as (present & s1 & Hex & H).
    unfold os_path_exists in Hex. inversion Hex; subst; clear Hex.
    apply bind_Ok in H as ([] & s2 & Hpdf & H).
    destruct (LANGUAGE_MAP !! language_name) as [lang|];
      [|unfold bind in H; discriminate].
    inversion H; subst; clear H. exists lang.
    destruct (bool_decide (is_Some (fs s1 !! pdf_path w source)));
      cbn [negb] in Hpdf; simpl.
    + inversion Hpdf; subst. rewrite app_nil_r.
      repeat split; auto; discriminate.
    + apply bind_Ok in Hpdf as (image_list & s3 & Hloop & Hsave).
      apply open_images_Ok in Hloop.
      destruct Hloop as (pages & Hpages & -> & ->).
      pose proof (pages_of_length _ _ Hpages) as Hlen.
      destruct pages as [|im more]; [discriminate|].
      inversion Hsave; subst. rewrite Hpages. simpl.
      repeat split; eauto; discriminate.
Qed.

(** The conditions of [create_slideshow_Ok] are enough for the call to
    return. *)
Lemma create_slideshow_run images source t language_name s lang :
  images <> [] ->
  LANGUAGE_MAP !! language_name = Some lang ->
  (generates_pdf w (fs s) source = true -> is_Some (pages_of w images)) ->
  create_slideshow w images source t language_name s
  = Ok (List.length (heap s),
        {| heap := heap s ++ [packaged w images source t lang];
           log := log s;
           fs := files_after w (fs s) images source;
           reads := reads s ++ image_reads w (fs s) images source |}).
Proof.
  unfold create_slideshow, packaged, files_after, image_reads, generates_pdf,
    slides_mode, LANGUAGE_MAP_getitem.
  intros Hne Hlang Hpages. destruct images as [|first rest]; [congruence|].
  rewrite bind_run with (a := first) (s1 := s) by reflexivity.
  rewrite Hlang.
  destruct (bool_decide ("--slides" ∈ argv w)).
  - simpl. rewrite app_nil_r. reflexivity.
  - unfold bind at 1. unfold os_path_exists.
    destruct (bool_decide (is_Some (fs s !! pdf_path w source)));
      cbn [negb andb] in *.
    + simpl. rewrite app_nil_r. reflexivity.
    + destruct Hpages as [pages Hpages]; [reflexivity|].
      unfold bind at 1. unfold bind at 1.
      rewrite (open_images_run _ [] s pages Hpages).
      pose proof (pages_of_length _ _ Hpages) as Hlen.
      destruct pages as [|im more]; [discriminate|].
      rewrite Hpages. reflexivity.
Qed.

End Slideshow.

(** ** [scrape_collection_files] *)

Section CollectionFiles.

Variable w : World.

Lemma alter_append_children_snoc cs c t (h : list Node) :
  alter (append_child c) t (alter (append_children cs) t h)
  = alter (append_children (cs ++ [c])) t h.
Proof.
  rewrite list_alter_alter_eq. apply list_alter_ext; [|reflexivity].
  intros n _. unfold append_children, append_child. simpl.
  rewrite <- app_assoc. reflexivity.
Qed.

Lemma title_of_alter_children f t (h more : list Node) r :
  (forall n, title (f n) = title n) ->
  title_of (alter f t h ++ more) r = title_of (h ++ more) r.
Proof.
  intros Hf. unfold title_of.
  destruct (decide (r < List.length h)%nat) as [Hlt|Hge].
  - rewrite !lookup_app_l by (rewrite ?length_alter; lia).
    rewrite list_lookup_alter. case_decide; [|reflexivity].
    subst r. destruct (h !! t); simpl; auto.
  - rewrite !lookup_app_r by (rewrite ?length_alter; lia).
    rewrite length_alter. reflexivity.
Qed.

Lemma title_of_app_l (h more : list Node) r :
  (r < List.length h)%nat -> title_of (h ++ more) r = title_of h r.
Proof. intros H. unfold title_of. rewrite lookup_app_l by lia. reflexivity. Qed.

Lemma English_in_LANGUAGE_MAP : LANGUAGE_MAP !! "English" = Some (Some "en").
Proof. vm_compute. reflexivity. Qed.

Lemma nonempty_true {A} (l : list A) : nonempty l = true -> l <> [].
Proof. destruct l; [discriminate | discriminate]. Qed.

Lemma scrape_collection_files_Ok topic address s s' :
  scrape_collection_files w topic address s = Ok (tt, s') ->
  (topic < List.length (heap s))%nat ->
  let leaves := listing_leaves w address (title_of (heap s) topic) in
  listing_ok w (fs s) address /\
  s' = {| heap := alter (append_children
                           (seq (List.length (heap s)) (List.length leaves)))
                    topic (heap s) ++ leaves;
          log := log s ++ List.map (warning_for address)
                            (List.filter is_other (listing w address));
          fs := listing_files w (fs s) address;
          reads := reads s ++ listing_reads w (fs s) address |}.
Proof.
  intros H Hlt leaves. subst leaves.
  unfold scrape_collection_files in H.
  apply bind_Ok in H as (c & s1 & Hread & H).
  unfold downloader_read in Hread.
  destruct (web w address) as [c0|] eqn:Hweb; [|discriminate].
  inversion Hread; subst; clear Hread.
  apply bind_Ok in H as (assets & s2 & Hdata & H).
  destruct c as [?|resp|?|?|]; try discriminate.
  inversion Hdata; subst; clear Hdata.
  apply bind_Ok in H as (images & s3 & Hloop & H).
  apply scrape_assets_Ok in Hloop; [|simpl; lia].
  destruct Hloop as (videos & Hvideos & -> & ->). simpl in *.
  assert (Hlisting : listing w address = data resp)
    by (unfold listing; rewrite Hweb; reflexivity).
  unfold listing_leaves, topic_slideshow, listing_files, listing_reads, collected.
  rewrite Hlisting, Hvideos. simpl.
  unfold listing_ok. rewrite Hlisting, Hvideos, Hweb.
  fold (nonempty (List.map slide_of_asset (List.filter is_png (data resp)))) in H.
  destruct (nonempty _) eqn:Hne.
  - apply bind_Ok in H as (ttl & s4 & Htitle & H).
    inversion Htitle; subst; clear Htitle. simpl in H.
    apply bind_Ok in H as (node & s5 & Hshow & H).
    apply create_slideshow_Ok in Hshow.
    destruct Hshow as (lang & _ & Hlang & Hpages & -> & ->). simpl in *.
    rewrite English_in_LANGUAGE_MAP in Hlang. inversion Hlang; subst; clear Hlang.
    inversion H; subst; clear H. simpl.
    split.
    { repeat split; eauto. intros _. unfold collected. rewrite Hlisting. exact Hpages. }
    f_equal.
    + rewrite !length_app, length_alter. simpl.
      rewrite alter_app_l by (rewrite length_app, length_alter; lia).
      rewrite alter_app_l by (rewrite length_alter; lia).
      rewrite alter_append_children_snoc.
      rewrite seq_app, <- !app_assoc. simpl.
      match goal with
      | |- context [match ?l !! topic with Some n => title n | None => "" end] =>
          fold (title_of l topic)
      end.
      rewrite title_of_alter_children by reflexivity.
      rewrite title_of_app_l by lia. reflexivity.
    + rewrite <- !app_assoc. reflexivity.
  - inversion H; subst; clear H.
    split.
    { repeat split; eauto. unfold collected. rewrite Hlisting, Hne. discriminate. }
    rewrite !app_nil_r. rewrite <- !app_assoc. reflexivity.
Qed.


End CollectionFiles.

(** ** The English collection *)

Section English.

Variable w : World.

Lemma alter_append_children_app cs1 cs2 t (h : list Node) :
  alter (append_children cs2) t (alter (append_children cs1) t h)
  = alter (append_children (cs1 ++ cs2)) t h.
Proof.
  rewrite list_alter_alter_eq. apply list_alter_ext; [|reflexivity].
  intros n _. unfold append_children. simpl.
  rewrite <- app_assoc. reflexivity.
Qed.

Lemma scrape_topic_Ok channel key t s s' :
  scrape_topic w channel key t s = Ok (tt, s') ->
  (channel < List.length (heap s))%nat ->
  listing_ok w (fs s) (english_assets_url key t) /\
  s' = {| heap := alter (append_child (List.length (heap s))) channel (heap s)
                    ++ topic_block w key (List.length (heap s)) t;
          log := log s ++ topic_log w key t;
          fs := listing_files w (fs s) (english_assets_url key t);
          reads := reads s ++ listing_reads w (fs s) (english_assets_url key t) |}.
Proof.
  intros H Hlt. unfold scrape_topic in H.
  apply bind_Ok in H as ([] & s1 & Hlog & H).
  inversion Hlog; subst; clear Hlog.
  apply bind_Ok in H as (topic_node' & s2 & Halloc & H).
  inversion Halloc; subst; clear Halloc.
  apply bind_Ok in H as ([] & s3 & Hadd & H).
  inversion Hadd; subst; clear Hadd.
  change (str_format ENGLISH_ASSETS_URL _) with (english_assets_url key t) in H.
  apply scrape_collection_files_Ok in H;
    [|simpl; rewrite length_alter, length_app; simpl; lia].
  simpl in H. destruct H as (Hok & ->).
  split; [exact Hok|].
  rewrite alter_app_l by lia.
  assert (Htitle : title_of
            (alter (append_child (List.length (heap s))) channel (heap s)
               ++ [topic_node t []]) (List.length (heap s)) = sec_name t).
  { unfold title_of. rewrite lookup_app_r by (rewrite length_alter; lia).
    rewrite length_alter, Nat.sub_diag. reflexivity. }
  unfold topic_node in Htitle. rewrite Htitle.
  fold (topic_leaves w key t).
  rewrite length_app, length_alter. simpl.
  f_equal.
  - replace (List.length (heap s))
      with (List.length (alter (append_child (List.length (heap s))) channel (heap s)) + 0)%nat
      at 2 by (rewrite length_alter; lia).
    rewrite alter_app_r. simpl. rewrite <- app_assoc. simpl.
    unfold topic_block, topic_node, append_children. simpl.
    replace (List.length (heap s) + 1)%nat with (S (List.length (heap s))) by lia.
    reflexivity.
  - unfold topic_log. rewrite <- app_assoc. reflexivity.
Qed.

Lemma scrape_topics_Ok channel key topics :
  forall s s',
  for_each topics (scrape_topic w channel key) s = Ok (tt, s') ->
  (channel < List.length (heap s))%nat ->
  topics_ok w key (fs s) topics /\
  s' = {| heap := alter (append_children (starts w key (List.length (heap s)) topics))
                    channel (heap s)
                    ++ layout w key (List.length (heap s)) topics;
          log := log s ++ flat_map (topic_log w key) topics;
          fs := english_files w key (fs s) topics;
          reads := reads s ++ english_reads w key (fs s) topics |}.
Proof.
  induction topics as [|t topics IH]; intros s s' H Hlt.
  - inversion H; subst. simpl.
    rewrite alter_append_children_nil, !app_nil_r.
    auto using state_eta.
  - simpl in H. apply bind_Ok in H as ([] & s1 & Hone & H).
    apply scrape_topic_Ok in Hone; [|assumption].
    destruct Hone as (Hok & ->).
    apply IH in H; [|simpl; rewrite length_app, length_alter; lia].
    simpl in H. destruct H as (Hoks & ->).
    split; [simpl; auto|].
    rewrite length_app, length_alter.
    simpl. f_equal.
    + rewrite alter_app_l by (rewrite length_alter; lia).
      change (append_child (List.length (heap s)))
        with (append_children [List.length (heap s)]).
      rewrite alter_append_children_app. simpl.
      rewrite <- app_assoc. reflexivity.
    + rewrite <- app_assoc. reflexivity.
    + rewrite <- app_assoc. reflexivity.
Qed.


End English.

(** ** The multi-language slideshows *)

Section Languages.

Variable w : World.

Lemma translate_Ok language_name s r s' :
  translate w language_name s = Ok (r, s') ->
  translated_name w language_name = Some r /\ s' = s.
Proof.
  unfold translate, translated_name, LANGUAGE_MAP_getitem, bind.
  destruct (LANGUAGE_MAP !! language_name) as [code|]; [|discriminate].
  simpl. destruct (truthy code).
  - simpl. destruct (getlang w (default "" code)); [|discriminate].
    intros H. inversion H. auto.
  - intros H. inversion H. auto.
Qed.

Lemma translated_name_known language_name r :
  translated_name w language_name = Some r ->
  is_Some (LANGUAGE_MAP !! language_name).
Proof.
  unfold translated_name.
  destruct (LANGUAGE_MAP !! language_name); [eauto | discriminate].
Qed.

Lemma scrape_language_Ok channel t s s' :
  scrape_language w channel t s = Ok (tt, s') ->
  (channel < List.length (heap s))%nat ->
  language_ok w (fs s) t /\
  s' = {| heap := alter (append_children
                           (seq (List.length (heap s))
                              (List.length (language_nodes w t))))
                    channel (heap s) ++ language_nodes w t;
          log := log s ++ [language_log w t];
          fs := language_files w (fs s) t;
          reads := reads s ++ language_reads w (fs s) t |}.
Proof.
  intros H Hlt. unfold scrape_language in H.
  change (str_format SLIDESHOW_ASSETS_URL _) with (slideshow_assets_url t) in H.
  apply bind_Ok in H as (c & s1 & Hread & H).
  unfold downloader_read in Hread.
  destruct (web w (slideshow_assets_url t)) as [c0|] eqn:Hweb; [|discriminate].
  inversion Hread; subst; clear Hread.
  apply bind_Ok in H as (slide_data & s2 & Hdata & H).
  destruct c as [?|resp|?|?|]; try discriminate.
  inversion Hdata; subst; clear Hdata.
  apply bind_Ok in H as (tname & s3 & Htr & H).
  apply translate_Ok in Htr as (Htr & ->).
  apply bind_Ok in H as ([] & s4 & Hlog & H).
  inversion Hlog; subst; clear Hlog.
  assert (Hlisting : listing w (slideshow_assets_url t) = data resp)
    by (unfold listing; rewrite Hweb; reflexivity).
  unfold language_ok, language_nodes, language_log, language_files,
    language_reads, slides_of.
  rewrite Hlisting, Htr, Hweb.
  change (fun slide : Asset =>
            {| url := view_url (thumbnail_url slide); caption := None |})
    with slide_of in H.
  fold (nonempty (List.map slide_of (data resp))) in H.
  destruct (nonempty _) eqn:Hne.
  - apply bind_Ok in H as (node & s5 & Hshow & H).
    apply create_slideshow_Ok in Hshow.
    destruct Hshow as (lang & _ & Hlang & Hpages & -> & ->).
    inversion H; subst; clear H. simpl in *.
    rewrite Hlang. simpl.
    split; [repeat split; eauto|].
    f_equal.
    + rewrite alter_app_l by lia.
      change (append_child (List.length (heap s)))
        with (append_children [List.length (heap s)]).
      reflexivity.
    + rewrite <- app_assoc. reflexivity.
  - inversion H; subst; clear H. simpl.
    split; [repeat split; eauto; discriminate|].
    rewrite alter_append_children_nil, !app_nil_r. reflexivity.
Qed.

Lemma scrape_languages_Ok channel langs :
  forall s s',
  for_each langs (scrape_language w channel) s = Ok (tt, s') ->
  (channel < List.length (heap s))%nat ->
  languages_ok w (fs s) langs /\
  s' = {| heap := alter (append_children
                           (seq (List.length (heap s))
                              (List.length (flat_map (language_nodes w) langs))))
                    channel (heap s) ++ flat_map (language_nodes w) langs;
          log := log s ++ List.map (language_log w) langs;
          fs := multilanguage_files w (fs s) langs;
          reads := reads s ++ multilanguage_reads w (fs s) langs |}.
Proof.
  induction langs as [|t langs IH]; intros s s' H Hlt.
  - inversion H; subst. simpl.
    rewrite alter_append_children_nil, !app_nil_r.
    auto using state_eta.
  - simpl in H. apply bind_Ok in H as ([] & s1 & Hone & H).
    apply scrape_language_Ok in Hone; [|assumption].
    destruct Hone as (Hok & ->).
    apply IH in H; [|simpl; rewrite length_app, length_alter; lia].
    simpl in H. destruct H as (Hoks & ->).
    split; [simpl; auto|].
    simpl. f_equal.
    + rewrite !length_app, length_alter.
      rewrite alter_app_l by (rewrite length_alter; lia).
      rewrite alter_append_children_app, <- app_assoc, seq_app.
      reflexivity.
    + rewrite <- app_assoc. reflexivity.
    + rewrite <- app_assoc. reflexivity.
Qed.

End Languages.

(** ** The whole run *)

Section Run.

Variable w : World.

Lemma read_page_Ok address s key sections s' :
  (let* c := downloader_read w address in
   let contents := BeautifulSoup c in
   let* collection_key := get_collection_key contents in
   let* l := asset_list_sections contents in
   ret (collection_key, l)) s = Ok ((key, sections), s') ->
  page_ok w address /\
  resource_key (page_at w address) = Some key /\
  react_sections (page_at w address) = Some sections /\
  s' = {| heap := heap s; log := log s; fs := fs s;
          reads := reads s ++ [address] |}.
Proof.
  intros H. apply bind_Ok in H as (c & s1 & Hread & H).
  unfold downloader_read in Hread. unfold page_ok, page_at.
  destruct (web w address) as [c0|]; [|discriminate].
  inversion Hread; subst; clear Hread. simpl in H.
  unfold bind, get_collection_key, asset_list_sections in H.
  destruct (resource_key (BeautifulSoup c)) as [k|]; [|discriminate].
  simpl in H.
  destruct (react_sections (BeautifulSoup c)) as [l|]; [|discriminate].
  inversion H; subst. repeat split; eauto.
Qed.

Lemma scrape_english_collection_Ok channel s s' :
  scrape_english_collection w channel s = Ok (tt, s') ->
  (channel < List.length (heap s))%nat ->
  page_ok w ENGLISH_COLLECTION_URL /\
  topics_ok w (english_key w) (fs s) (english_topics w) /\
  s' = {| heap := alter (append_children
                           (starts w (english_key w) (List.length (heap s))
                              (english_topics w)))
                    channel (heap s)
                    ++ layout w (english_key w) (List.length (heap s))
                         (english_topics w);
          log := log s
                   ++ {| level := INFO; fmt := "Scraping English collection...";
                         args := [] |}
                   :: flat_map (topic_log w (english_key w)) (english_topics w);
          fs := english_files w (english_key w) (fs s) (english_topics w);
          reads := reads s
                     ++ ENGLISH_COLLECTION_URL
                     :: english_reads w (english_key w) (fs s) (english_topics w) |}.
Proof.
  intros H Hlt. unfold scrape_english_collection in H.
  apply bind_Ok in H as ([] & s1 & Hlog & H).
  inversion Hlog; subst; clear Hlog.
  apply bind_Ok in H as (c & s2 & Hread & H).
  apply bind_Ok in H as (key & s3 & Hkey & H).
  apply bind_Ok in H as (sections & s4 & Hsec & H).
  assert (Hpage : (let* c := downloader_read w ENGLISH_COLLECTION_URL in
                   let contents := BeautifulSoup c in
                   let* collection_key := get_collection_key contents in
                   let* l := asset_list_sections contents in
                   ret (collection_key, l))
                    {| heap := heap s;
                       log := log s ++
                         [{| level := INFO; fmt := "Scraping English collection...";
                             args := [] |}];
                       fs := fs s; reads := reads s |}
                  = Ok ((key, sections), s4)).
  { unfold bind at 1. rewrite Hread. simpl.
    unfold bind at 1. rewrite Hkey.
    unfold bind at 1. rewrite Hsec. reflexivity. }
  apply read_page_Ok in Hpage as (Hok & Hk & Hs & ->).
  apply scrape_topics_Ok in H; [|assumption]. simpl in H.
  unfold english_key, english_topics. rewrite Hk, Hs. simpl.
  destruct H as (Hoks & ->).
  split; [exact Hok|]. split; [exact Hoks|].
  unfold kept. f_equal; rewrite <- ?app_assoc; reflexivity.
Qed.

Lemma scrape_multilanguage_slideshows_Ok channel s s' :
  scrape_multilanguage_slideshows w channel s = Ok (tt, s') ->
  (channel < List.length (heap s))%nat ->
  page_ok w SLIDESHOWS_URL /\
  languages_ok w (fs s) (language_sections w) /\
  s' = {| heap := alter (append_children
                           (seq (List.length (heap s))
                              (List.length (language_cells w))))
                    channel (heap s) ++ language_cells w;
          log := log s
                   ++ {| level := INFO; fmt := "Scraping multi-language content...";
                         args := [] |}
                   :: List.map (language_log w) (language_sections w);
          fs := multilanguage_files w (fs s) (language_sections w);
          reads := reads s
                     ++ SLIDESHOWS_URL
                     :: multilanguage_reads w (fs s) (language_sections w) |}.
Proof.
  intros H Hlt. unfold scrape_multilanguage_slideshows in H.
  apply bind_Ok in H as ([] & s1 & Hlog & H).
  inversion Hlog; subst; clear Hlog.
  apply bind_Ok in H as (c & s2 & Hread & H).
  apply bind_Ok in H as (key & s3 & Hkey & H).
  apply bind_Ok in H as (sections & s4 & Hsec & H).
  assert (Hpage : (let* c := downloader_read w SLIDESHOWS_URL in
                   let contents := BeautifulSoup c in
                   let* collection_key := get_collection_key contents in
                   let* l := asset_list_sections contents in
                   ret (collection_key, l))
                    {| heap := heap s;
                       log := log s ++
                         [{| level := INFO;
                             fmt := "Scraping multi-language content...";
                             args := [] |}];
                       fs := fs s; reads := reads s |}
                  = Ok ((key, sections), s4)).
  { unfold bind at 1. rewrite Hread. simpl.
    unfold bind at 1. rewrite Hkey.
    unfold bind at 1. rewrite Hsec. reflexivity. }
  apply read_page_Ok in Hpage as (Hok & Hk & Hs & ->).
  apply scrape_languages_Ok in H; [|assumption]. simpl in H.
  unfold language_cells, language_sections. rewrite Hs. simpl.
  destruct H as (Hoks & ->).
  split; [exact Hok|]. split; [exact Hoks|].
  unfold kept. f_equal; rewrite <- ?app_assoc; reflexivity.
Qed.


(** A successful run, described completely. *)
Lemma construct_channel_Ok s channel s' :
  construct_channel w s = Ok (channel, s') ->
  channel = List.length (heap s) /\
  run_ok w (fs s) /\
  s' = {| heap := heap s ++ channel_cells w (List.length (heap s));
          log := log s ++ run_log w;
          fs := run_files w (fs s);
          reads := reads s ++ run_reads w (fs s) |}.
Proof.
  intros H. unfold construct_channel in H.
  apply bind_Ok in H as (c & s1 & Halloc & H).
  inversion Halloc; subst; clear Halloc.
  apply bind_Ok in H as ([] & s2 & Heng & H).
  apply scrape_english_collection_Ok in Heng;
    [|simpl; rewrite length_app; simpl; lia].
  destruct Heng as (Hp1 & Ht & ->). simpl in *.
  apply bind_Ok in H as ([] & s3 & Hml & H).
  apply scrape_multilanguage_slideshows_Ok in Hml;
    [|simpl; rewrite !length_app, length_alter, length_app; simpl; lia].
  destruct Hml as (Hp2 & Hl & ->). simpl in *.
  inversion H; subst; clear H.
  split; [reflexivity|]. split; [unfold run_ok; auto|].
  unfold channel_cells, channel_children, topic_cells, run_log, run_files, run_reads.
  rewrite !length_app, length_alter, length_app. simpl.
  replace (List.length (heap s) + 1)%nat with (S (List.length (heap s))) by lia.
  f_equal.
  - rewrite alter_app_l
      by (rewrite length_alter, length_app; simpl; lia).
    rewrite alter_append_children_app.
    rewrite alter_app_r_alt by lia. rewrite Nat.sub_diag.
    simpl. rewrite <- !app_assoc. simpl.
    unfold append_children, channel_node. simpl. reflexivity.
  - rewrite <- !app_assoc. reflexivity.
  - rewrite <- !app_assoc. reflexivity.
Qed.

End Run.

(** ** The shape of the tree *)

Section Shape.

Variable w : World.

Lemma video_nodes_leaves assets :
  Forall (fun n => is_leaf n = true) (default [] (video_nodes w assets)).
Proof.
  unfold video_nodes.
  destruct (mapM _ _) as [vs|] eqn:Hvs; simpl; [|constructor].
  apply mapM_Some_1 in Hvs.
  induction Hvs as [|a n l k Hn _ IH]; constructor; [|exact IH].
  destruct (first_attachment w a); [|discriminate].
  inversion Hn. reflexivity.
Qed.

Lemma packaged_slideshow_kind images source t lang :
  is_slideshow_kind (kind (packaged w images source t lang)) = true /\
  children (packaged w images source t lang) = [].
Proof. unfold packaged. destruct (slides_mode w); auto. Qed.

Lemma packaged_leaf images source t lang :
  is_leaf (packaged w images source t lang) = true.
Proof. unfold packaged. destruct (slides_mode w); reflexivity. Qed.

Lemma listing_leaves_leaves address t :
  Forall (fun n => is_leaf n = true) (listing_leaves w address t).
Proof.
  unfold listing_leaves, topic_slideshow. apply Forall_app. split.
  - apply video_nodes_leaves.
  - destruct (nonempty _); repeat constructor. apply packaged_leaf.
Qed.

Lemma language_cells_slideshows langs :
  Forall (fun n => is_slideshow_kind (kind n) = true /\ children n = [])
    (flat_map (language_nodes w) langs).
Proof.
  induction langs as [|t langs IH]; simpl; [constructor|].
  apply Forall_app. split; [|exact IH].
  unfold language_nodes. destruct (nonempty _); repeat constructor;
    apply packaged_slideshow_kind.
Qed.

(** The topic at [length pre] and its leaves, inside any heap that holds
    the block there. *)
Lemma topic_block_shape key t (pre post : list Node) :
  topic_at (pre ++ topic_block w key (List.length pre) t ++ post)
    (List.length pre) = true.
Proof.
  unfold topic_at.
  rewrite lookup_app_r by lia. rewrite Nat.sub_diag. simpl.
  apply forallb_forall. intros r Hr. apply in_seq in Hr.
  unfold leaf_at.
  rewrite lookup_app_r by lia.
  replace (r - List.length pre)%nat with (S (r - S (List.length pre))) by lia.
  simpl. rewrite lookup_app_l by lia.
  destruct (topic_leaves w key t !! (r - S (List.length pre))%nat) as [n|] eqn:Hn.
  - pose proof (listing_leaves_leaves (english_assets_url key t) (sec_name t)) as Hl.
    rewrite Forall_forall in Hl. apply Hl.
    apply list_elem_of_lookup. eauto.
  - apply lookup_ge_None in Hn. lia.
Qed.

Lemma layout_shape key topics :
  forall pre post : list Node,
  forallb (topic_at (pre ++ layout w key (List.length pre) topics ++ post))
    (starts w key (List.length pre) topics) = true.
Proof.
  induction topics as [|t topics IH]; intros pre post; [reflexivity|].
  simpl. apply andb_true_intro. split.
  - rewrite <- app_assoc. apply (topic_block_shape key t pre).
  - specialize (IH (pre ++ topic_block w key (List.length pre) t) post).
    rewrite length_app in IH. rewrite <- !app_assoc in IH.
    rewrite <- app_assoc. exact IH.
Qed.

Lemma language_cells_shape (pre : list Node) langs :
  forallb (slideshow_at (pre ++ flat_map (language_nodes w) langs))
    (seq (List.length pre) (List.length (flat_map (language_nodes w) langs))) = true.
Proof.
  apply forallb_forall. intros r Hr. apply in_seq in Hr.
  unfold slideshow_at. rewrite lookup_app_r by lia.
  destruct (flat_map (language_nodes w) langs !! (r - List.length pre)%nat)
    as [n|] eqn:Hn.
  - pose proof (language_cells_slideshows langs) as Hl.
    rewrite Forall_forall in Hl.
    destruct (Hl n) as [Hk Hc]; [apply list_elem_of_lookup; eauto|].
    rewrite Hc, Hk. reflexivity.
  - apply lookup_ge_None in Hn. lia.
Qed.

Lemma channel_cells_topics (pre : list Node) :
  forallb (topic_at (pre ++ channel_cells w (List.length pre)))
    (starts w (english_key w) (S (List.length pre)) (english_topics w)) = true.
Proof.
  unfold channel_cells.
  pose proof (layout_shape (english_key w) (english_topics w)
                (pre ++ [channel_node (channel_children w (List.length pre))])
                (language_cells w)) as H.
  rewrite length_app in H. simpl in H.
  replace (List.length pre + 1)%nat with (S (List.length pre)) in H by lia.
  rewrite <- app_assoc in H. exact H.
Qed.

Lemma channel_cells_slideshows (pre : list Node) :
  forallb (slideshow_at (pre ++ channel_cells w (List.length pre)))
    (seq (S (List.length pre) + List.length (topic_cells w (List.length pre)))
       (List.length (language_cells w))) = true.
Proof.
  unfold channel_cells.
  pose proof (language_cells_shape
                (pre ++ channel_node (channel_children w (List.length pre))
                     :: topic_cells w (List.length pre))
                (language_sections w)) as H.
  rewrite length_app in H. simpl in H.
  replace (List.length pre + S (List.length (topic_cells w (List.length pre))))%nat
    with (S (List.length pre + List.length (topic_cells w (List.length pre))))
    in H by lia.
  rewrite <- app_assoc in H. exact H.
Qed.

Lemma forallb_impl {A} (f g : A -> bool) l :
  (forall x, f x = true -> g x = true) ->
  forallb f l = true -> forallb g l = true.
Proof.
  intros Hfg H. apply forallb_forall. intros x Hx.
  rewrite forallb_forall in H. auto.
Qed.

Lemma channel_cells_two_level (pre : list Node) :
  two_level (pre ++ channel_cells w (List.length pre)) (List.length pre) = true.
Proof.
  unfold two_level.
  assert (Hc : (pre ++ channel_cells w (List.length pre)) !! List.length pre
               = Some (channel_node (channel_children w (List.length pre)))).
  { rewrite lookup_app_r by lia. rewrite Nat.sub_diag. reflexivity. }
  rewrite Hc. simpl.
  unfold channel_children. rewrite forallb_app.
  apply andb_true_intro. split.
  - eapply forallb_impl; [|apply channel_cells_topics].
    intros x Hx. unfold channel_child_at. rewrite Hx. reflexivity.
  - eapply forallb_impl; [|apply channel_cells_slideshows].
    intros x Hx. unfold channel_child_at. rewrite Hx. apply orb_true_r.
Qed.

Lemma leaf_at_depth h r : leaf_at h r = true -> depth_within h 0 r = true.
Proof.
  unfold leaf_at, is_leaf. simpl. destruct (h !! r); [|discriminate].
  intros H. apply andb_prop in H. tauto.
Qed.

Lemma channel_child_at_depth h r :
  channel_child_at h r = true -> depth_within h 1 r = true.
Proof.
  unfold channel_child_at, topic_at, slideshow_at. simpl.
  destruct (h !! r) as [n|]; [|discriminate].
  intros H. apply orb_prop in H. destruct H as [H|H].
  - destruct (kind n); try discriminate.
    apply forallb_forall. intros x Hx.
    apply leaf_at_depth. rewrite forallb_forall in H. auto.
  - apply andb_prop in H. destruct H as [_ H].
    apply bool_decide_eq_true in H. rewrite H. reflexivity.
Qed.

Lemma two_level_depth h c : two_level h c = true -> depth_within h 2 c = true.
Proof.
  unfold two_level. simpl. destruct (h !! c) as [n|]; [|discriminate].
  destruct (kind n); try discriminate.
  intros H. apply forallb_forall. intros x Hx.
  apply (channel_child_at_depth h x). rewrite forallb_forall in H. auto.
Qed.

End Shape.

(** * The properties of the specification *)

Lemma first_attachment_web w a v :
  first_attachment w a = Some v ->
  exists rest, web w (storage_url a) = Some (AttachmentsJson (v :: rest)).
Proof.
  unfold first_attachment.
  destruct (web w (storage_url a)) as [c|]; [|discriminate].
  destruct c as [?|?|[|v0 rest]|?|]; try discriminate.
  intros H. inversion H; subst. eauto.
Qed.

Lemma video_nodes_Forall2 w assets videos :
  video_nodes w assets = Some videos ->
  Forall2 (fun a n => exists v rest,
             web w (storage_url a) = Some (AttachmentsJson (v :: rest)) /\
             n = video_node a v)
    (List.filter is_mp4 assets) videos.
Proof.
  intros H. apply mapM_Some_1 in H.
  induction H as [|a n l k Hn _ IH]; constructor; [|exact IH].
  destruct (first_attachment w a) as [v|] eqn:Hv; [|discriminate].
  inversion Hn; subst.
  apply first_attachment_web in Hv as [rest Hw]. eauto.
Qed.

(** C1. For every asset of the listing a section's asset URL serves,
    [scrape_collection_files] branches on the extension: the [png] assets
    become the images of the topic's slideshow, in listing order, each with
    its thumbnail URL rewritten ([element.png] to [view@2x.png]) and its name
    as caption; every [mp4] asset becomes a VideoNode that is appended to
    the children of the topic; every other asset is answered by one warning
    in the log and by nothing in the tree. *)
Theorem scrape_collection_files_branches (w : World) topic address s s' :
  scrape_collection_files w topic address s = Ok (tt, s') ->
  (topic < List.length (heap s))%nat ->
  let assets := listing w address in
  let images :=
    List.map
      (fun a => {| url := str_replace (thumbnail_url a) "element.png" "view@2x.png";
                   caption := Some (name a) |})
      (List.filter (fun a => String.eqb (extension a) "png") assets) in
  let slideshow :=
    if nonempty images
    then [packaged w images address (title_of (heap s) topic) (Some "en")]
    else [] in
  exists videos,
    Forall2 (fun a n => exists v rest,
               web w (storage_url a) = Some (AttachmentsJson (v :: rest)) /\
               n = video_node a v)
      (List.filter (fun a => String.eqb (extension a) "mp4") assets) videos /\
    heap s' = alter (append_children
                       (seq (List.length (heap s))
                          (List.length (videos ++ slideshow))))
                topic (heap s) ++ videos ++ slideshow /\
    log s' = log s ++
      List.map (warning_for address)
        (List.filter
           (fun a => negb (String.eqb (extension a) "png")
                     && negb (String.eqb (extension a) "mp4")) assets).
Proof.
  intros H Hlt assets images slideshow.
  apply scrape_collection_files_Ok in H; [|assumption].
  destruct H as ((_ & [videos Hvideos] & _) & ->). simpl.
  exists videos. split; [apply video_nodes_Forall2, Hvideos|].
  unfold listing_leaves. rewrite Hvideos. simpl.
  split; reflexivity.
Qed.

Lemma topic_run_eq :
  scrape_collection_files (Sample.world false) 1 Sample.prevention_url
    (Sample.topic_state ∅) = Ok (tt, Sample.topic_run).
Proof. vm_compute. reflexivity. Qed.

Lemma scrape_collection_files_branches_witness :
  scrape_collection_files (Sample.world false) 1 Sample.prevention_url
    (Sample.topic_state ∅) = Ok (tt, Sample.topic_run) /\
  (1 < List.length (heap (Sample.topic_state ∅)))%nat /\
  exists videos : list Node,
    List.length videos = 1%nat /\
    children_of (heap Sample.topic_run) 1 = [2; 3]%nat /\
    log Sample.topic_run = [warning_for Sample.prevention_url Sample.leaflet].
Proof.
  split; [exact topic_run_eq|]. split; [simpl; lia|].
  destruct (scrape_collection_files_branches _ _ _ _ _ topic_run_eq)
    as (videos & Hv & Hheap & Hlog); [simpl; lia|].
  exists videos.
  apply Forall2_length in Hv. vm_compute in Hv.
  split; [symmetry; exact Hv|].
  split; vm_compute; reflexivity.
Defined.

(** C2. The tree [construct_channel] returns has at most two levels below
    the channel: the children of the channel are the English topics followed
    by the multi-language slideshows; every topic holds leaves only
    (slideshow, document or video nodes without children), every
    multi-language slideshow is itself without children, and so no node sits
    deeper than two levels below the channel. *)
Theorem channel_tree_two_levels (w : World) s channel s' :
  construct_channel w s = Ok (channel, s') ->
  exists topics slideshows,
    children_of (heap s') channel = topics ++ slideshows /\
    List.length topics = List.length (english_topics w) /\
    forallb (topic_at (heap s')) topics = true /\
    forallb (slideshow_at (heap s')) slideshows = true /\
    depth_within (heap s') 2 channel = true.
Proof.
  intros H. apply construct_channel_Ok in H as (-> & _ & ->). simpl.
  exists (starts w (english_key w) (S (List.length (heap s))) (english_topics w)),
    (seq (S (List.length (heap s))
          + List.length (topic_cells w (List.length (heap s))))
       (List.length (language_cells w))).
  split; [|split; [|split; [|split]]].
  - unfold children_of. rewrite lookup_app_r by lia.
    rewrite Nat.sub_diag. reflexivity.
  - generalize (S (List.length (heap s))). generalize (english_key w).
    induction (english_topics w) as [|t ts IH]; intros k n; simpl; auto.
  - apply channel_cells_topics.
  - apply channel_cells_slideshows.
  - apply two_level_depth, channel_cells_two_level.
Qed.

Lemma slides_run_eq :
  construct_channel (Sample.world true) (initial ∅) = Ok (0%nat, Sample.slides_run).
Proof. vm_compute. reflexivity. Qed.

Lemma channel_tree_two_levels_witness :
  construct_channel (Sample.world true) (initial ∅) = Ok (0%nat, Sample.slides_run) /\
  children_of (heap Sample.slides_run) 0 = [1; 4; 5; 6]%nat /\
  depth_within (heap Sample.slides_run) 2 0 = true /\
  depth_within (heap Sample.slides_run) 1 0 = false.
Proof.
  split; [exact slides_run_eq|].
  destruct (channel_tree_two_levels _ _ _ _ slides_run_eq)
    as (topics & slideshows & Hc & Hlen & Ht & Hs & Hd).
  split; [reflexivity|]. split; [exact Hd|reflexivity].
Defined.

(** ** Which requests depend on the documents directory *)

Section Requests.

Variable w : World.

Lemma pages_of_images images :
  is_Some (pages_of w images) ->
  Forall (fun u => is_image_url w u = true) (List.map url images).
Proof.
  intros [pages H]. unfold pages_of in H. apply mapM_Some_1 in H.
  induction H as [|image p l k Hp _ IH]; simpl; constructor; [|exact IH].
  unfold page_of in Hp. unfold is_image_url.
  destruct (web w (url image)) as [c|]; [|discriminate].
  destruct c; try discriminate. reflexivity.
Qed.

Lemma filter_all_false {A} (f : A -> bool) l :
  Forall (fun x => f x = false) l -> List.filter f l = [].
Proof.
  induction 1 as [|x l Hx _ IH]; simpl; [reflexivity|].
  rewrite Hx. exact IH.
Qed.

Lemma filter_all_true {A} (f : A -> bool) l :
  Forall (fun x => f x = true) l -> List.filter f l = l.
Proof.
  induction 1 as [|x l Hx _ IH]; simpl; [reflexivity|].
  rewrite Hx, IH. reflexivity.
Qed.

Lemma image_reads_not_image files0 images source :
  (generates_pdf w files0 source = true -> is_Some (pages_of w images)) ->
  List.filter (not_image w) (image_reads w files0 images source) = [].
Proof.
  intros H. unfold image_reads.
  destruct (generates_pdf w files0 source); [|reflexivity].
  apply filter_all_false.
  eapply Forall_impl; [apply pages_of_images, H; reflexivity|].
  intros u Hu. unfold not_image. simpl in Hu. rewrite Hu. reflexivity.
Qed.

Lemma storage_urls_not_image assets :
  is_Some (video_nodes w assets) ->
  Forall (fun u => not_image w u = true)
    (List.map storage_url (List.filter is_mp4 assets)).
Proof.
  intros [videos H]. apply video_nodes_Forall2 in H.
  induction H as [|a n l k (v & rest & Hw & _) _ IH]; simpl; constructor;
    [|exact IH].
  unfold not_image, is_image_url. rewrite Hw. reflexivity.
Qed.

Lemma listing_reads_not_image files0 address :
  listing_ok w files0 address ->
  List.filter (not_image w) (listing_reads w files0 address)
  = listing_requests w address.
Proof.
  intros ([r Hr] & Hvideos & Hpages).
  unfold listing_reads, listing_requests. simpl.
  unfold not_image at 1. unfold is_image_url. rewrite Hr. simpl.
  f_equal. rewrite List.filter_app.
  rewrite (filter_all_true _ _ (storage_urls_not_image _ Hvideos)).
  destruct (nonempty (collected w address)) eqn:Hne.
  - rewrite image_reads_not_image by auto. apply app_nil_r.
  - apply app_nil_r.
Qed.

Lemma english_reads_not_image key topics :
  forall files0,
  topics_ok w key files0 topics ->
  List.filter (not_image w) (english_reads w key files0 topics)
  = flat_map (fun t => listing_requests w (english_assets_url key t)) topics.
Proof.
  induction topics as [|t topics IH]; intros files0 H; [reflexivity|].
  destruct H as [Hok Hoks]. cbn [english_reads flat_map].
  rewrite List.filter_app, listing_reads_not_image by assumption.
  f_equal. apply IH, Hoks.
Qed.

Lemma language_reads_not_image files0 t :
  language_ok w files0 t ->
  List.filter (not_image w) (language_reads w files0 t) = [slideshow_assets_url t].
Proof.
  intros ([r Hr] & _ & Hpages). unfold language_reads. simpl.
  unfold not_image at 1. unfold is_image_url. rewrite Hr. simpl.
  f_equal. destruct (nonempty (slides_of w t)) eqn:Hne; [|reflexivity].
  apply image_reads_not_image. auto.
Qed.

Lemma multilanguage_reads_not_image langs :
  forall files0,
  languages_ok w files0 langs ->
  List.filter (not_image w) (multilanguage_reads w files0 langs)
  = List.map slideshow_assets_url langs.
Proof.
  induction langs as [|t langs IH]; intros files0 H; [reflexivity|].
  destruct H as [Hok Hoks]. cbn [multilanguage_reads List.map].
  rewrite List.filter_app, language_reads_not_image by assumption.
  simpl. f_equal. apply IH, Hoks.
Qed.

Lemma page_not_image address : page_ok w address -> not_image w address = true.
Proof.
  intros (_ & [k Hk] & _). unfold page_at in Hk.
  unfold not_image, is_image_url.
  destruct (web w address) as [c|]; [|reflexivity].
  destruct c; try reflexivity. discriminate.
Qed.

Lemma run_reads_not_image files0 :
  run_ok w files0 ->
  List.filter (not_image w) (run_reads w files0) = scrape_reads w.
Proof.
  intros (Hp1 & Ht & Hp2 & Hl). unfold run_reads, scrape_reads. simpl.
  rewrite (page_not_image _ Hp1). f_equal.
  rewrite List.filter_app. simpl. rewrite (page_not_image _ Hp2).
  rewrite english_reads_not_image by assumption.
  rewrite multilanguage_reads_not_image by assumption. reflexivity.
Qed.

End Requests.

Lemma create_slideshow_pdf_present (w : World) images source t language_name lang s :
  images <> [] ->
  LANGUAGE_MAP !! language_name = Some lang ->
  slides_mode w = false ->
  is_Some (fs s !! pdf_path w source) ->
  create_slideshow w images source t language_name s
  = Ok (List.length (heap s),
        {| heap := heap s ++ [document_node w images source t lang];
           log := log s; fs := fs s; reads := reads s |}).
Proof.
  intros Hne Hlang Hmode Hthere.
  assert (Hgen : generates_pdf w (fs s) source = false).
  { unfold generates_pdf. rewrite Hmode. simpl.
    rewrite bool_decide_eq_true_2 by assumption. reflexivity. }
  rewrite (create_slideshow_run w images source t language_name s lang Hne Hlang)
    by (rewrite Hgen; discriminate).
  unfold files_after, image_reads, packaged.
  rewrite Hgen, Hmode, app_nil_r. reflexivity.
Qed.

(** C3. In PDF mode, when the PDF of the slideshow's [source_id] is already
    in the documents directory, [create_slideshow] downloads no image and
    writes no file: the directory and the list of requests are left as they
    were, and the node wraps the existing file.  Nothing else is guarded:
    whatever the directory holds, a run that returns has issued the same
    page and API requests, [scrape_reads]; only the image downloads of
    [create_slideshow] are absent for the PDFs already there. *)
Theorem pdf_reused_nothing_else_cached (w : World) :
  (forall images source t language_name lang s,
     images <> [] ->
     LANGUAGE_MAP !! language_name = Some lang ->
     slides_mode w = false ->
     is_Some (fs s !! pdf_path w source) ->
     create_slideshow w images source t language_name s
     = Ok (List.length (heap s),
           {| heap := heap s ++ [document_node w images source t lang];
              log := log s; fs := fs s; reads := reads s |}))
  /\
  (forall s channel s',
     construct_channel w s = Ok (channel, s') ->
     exists new,
       reads s' = reads s ++ new /\
       List.filter (fun address => negb (is_image_url w address)) new
       = scrape_reads w).
Proof.
  split.
  - intros images source t language_name lang s.
    apply create_slideshow_pdf_present.
  - intros s channel s' H.
    apply construct_channel_Ok in H as (_ & Hok & ->). simpl.
    exists (run_reads w (fs s)). split; [reflexivity|].
    apply (run_reads_not_image w _ Hok).
Qed.

Lemma pdf_run_eq :
  construct_channel (Sample.world false) (initial ∅) = Ok (0%nat, Sample.pdf_run).
Proof. vm_compute. reflexivity. Qed.

Lemma pdf_rerun_eq :
  construct_channel (Sample.world false) (initial Sample.used_directory)
  = Ok (0%nat, Sample.pdf_rerun).
Proof. vm_compute. reflexivity. Qed.

Lemma used_directory_lookup :
  Sample.used_directory !! pdf_path (Sample.world false) Sample.prevention_url
  = Some Sample.stale.
Proof. apply lookup_singleton_eq. Qed.

Lemma pdf_reused_nothing_else_cached_witness :
  (exists s',
     create_slideshow (Sample.world false)
       [slide_of_asset Sample.wash] Sample.prevention_url "Prevention" "English"
       (Sample.topic_state Sample.used_directory)
     = Ok (2%nat, s') /\
     reads s' = [] /\ fs s' = Sample.used_directory)
  /\
  (construct_channel (Sample.world false) (initial ∅) = Ok (0%nat, Sample.pdf_run) /\
   construct_channel (Sample.world false) (initial Sample.used_directory)
   = Ok (0%nat, Sample.pdf_rerun) /\
   List.length (reads Sample.pdf_run) = 12%nat /\
   List.length (reads Sample.pdf_rerun) = 10%nat /\
   List.filter (fun address => negb (is_image_url (Sample.world false) address))
     (reads Sample.pdf_run)
   = List.filter (fun address => negb (is_image_url (Sample.world false) address))
       (reads Sample.pdf_rerun)).
Proof.
  destruct (pdf_reused_nothing_else_cached (Sample.world false)) as [Hskip Hrest].
  split.
  - eexists. split.
    + apply (Hskip [slide_of_asset Sample.wash] Sample.prevention_url
               "Prevention" "English" (Some "en")).
      * discriminate.
      * exact English_in_LANGUAGE_MAP.
      * reflexivity.
      * simpl. rewrite used_directory_lookup. eauto.
    + split; reflexivity.
  - split; [exact pdf_run_eq|]. split; [exact pdf_rerun_eq|].
    destruct (Hrest _ _ _ pdf_run_eq) as (new1 & Hr1 & Hf1).
    destruct (Hrest _ _ _ pdf_rerun_eq) as (new2 & Hr2 & Hf2).
    split; [reflexivity|]. split; [reflexivity|].
    rewrite Hr1, Hr2. cbn [reads initial app].
    rewrite Hf1, Hf2. reflexivity.
Defined.

(** ** What [create_slideshow] packages *)

Lemma pages_of_in_order w images pages :
  pages_of w images = Some pages ->
  Forall2 (fun image page =>
             exists img, web w (url image) = Some (ImageBytes img) /\
                         page = to_rgb img)
    images pages.
Proof.
  intros H. unfold pages_of in H. apply mapM_Some_1 in H.
  induction H as [|image p l k Hp _ IH]; constructor; [|exact IH].
  unfold page_of in Hp.
  destruct (web w (url image)) as [c|]; [|discriminate].
  destruct c; try discriminate. inversion Hp. eauto.
Qed.





(** ** Where the PDF of a slideshow goes *)

Lemma files_after_elsewhere w files0 images source p :
  p <> pdf_path w source ->
  files_after w files0 images source !! p = files0 !! p.
Proof.
  intros Hp. unfold files_after.
  destruct (generates_pdf w files0 source); [|reflexivity].
  apply lookup_insert_ne. congruence.
Qed.

(** C9. The PDF of a slideshow lies at a path computed from its
    [source_id] alone: the documents directory, the path separator, the MD5
    hex digest of the UTF-8 encoding of the [source_id], and [.pdf].  A call
    of [create_slideshow] in PDF mode returns a document node for that path
    and touches no other file, so two calls with the same [source_id] name
    and write the same file whatever images, title and language they are
    given. *)
Theorem pdf_path_of_source_id_alone (w : World) source :
  pdf_path w source
  = "documents" +:+ os_path_sep w +:+ MD5.hexdigest (encode_utf8 source) +:+ ".pdf"
  /\
  forall images1 t1 language1 s1 r1 s1' images2 t2 language2 s2 r2 s2',
    slides_mode w = false ->
    create_slideshow w images1 source t1 language1 s1 = Ok (r1, s1') ->
    create_slideshow w images2 source t2 language2 s2 = Ok (r2, s2') ->
    exists n1 n2,
      heap s1' !! r1 = Some n1 /\ heap s2' !! r2 = Some n2 /\
      files n1 = [ThumbnailFile (head_url images1); DocumentFile (pdf_path w source)] /\
      files n2 = [ThumbnailFile (head_url images2); DocumentFile (pdf_path w source)] /\
      (forall p, p <> pdf_path w source ->
                 fs s1' !! p = fs s1 !! p /\ fs s2' !! p = fs s2 !! p).
Proof.
  split; [reflexivity|].
  intros images1 t1 language1 s1 r1 s1' images2 t2 language2 s2 r2 s2' Hmode H1 H2.
  apply create_slideshow_Ok in H1 as (lang1 & _ & _ & _ & -> & ->).
  apply create_slideshow_Ok in H2 as (lang2 & _ & _ & _ & -> & ->).
  simpl. unfold packaged. rewrite Hmode.
  exists (document_node w images1 source t1 lang1),
    (document_node w images2 source t2 lang2).
  split; [rewrite lookup_app_r by lia; rewrite Nat.sub_diag; reflexivity|].
  split; [rewrite lookup_app_r by lia; rewrite Nat.sub_diag; reflexivity|].
  split; [reflexivity|]. split; [reflexivity|].
  intros p Hp. split; apply files_after_elsewhere, Hp.
Qed.

Lemma sample_slideshow_eq :
  create_slideshow (Sample.world false) [slide_of_asset Sample.wash]
    Sample.prevention_url "Prevention" "English" (Sample.topic_state ∅)
  = Ok (2%nat,
        Sample.final
          (create_slideshow (Sample.world false) [slide_of_asset Sample.wash]
             Sample.prevention_url "Prevention" "English" (Sample.topic_state ∅))).
Proof. vm_compute. reflexivity. Qed.

Lemma sample_slideshow_again_eq :
  create_slideshow (Sample.world false) [slide_of_asset Sample.mask]
    Sample.prevention_url "Masks" "French" (Sample.channel_state ∅)
  = Ok (1%nat,
        Sample.final
          (create_slideshow (Sample.world false) [slide_of_asset Sample.mask]
             Sample.prevention_url "Masks" "French" (Sample.channel_state ∅))).
Proof. vm_compute. reflexivity. Qed.

Lemma pdf_path_of_source_id_alone_witness :
  pdf_path (Sample.world false) Sample.prevention_url
  = "documents/4000e99309054e9597791cb3f3e6c17d.pdf" /\
  exists n1 n2,
    files n1 = [ThumbnailFile "https://cdn/a1/view@2x.png";
                DocumentFile (pdf_path (Sample.world false) Sample.prevention_url)] /\
    files n2 = [ThumbnailFile "https://cdn/a2/view@2x.png";
                DocumentFile (pdf_path (Sample.world false) Sample.prevention_url)].
Proof.
  split; [vm_compute; reflexivity|].
  destruct (pdf_path_of_source_id_alone (Sample.world false) Sample.prevention_url)
    as [_ H].
  destruct (H _ _ _ _ _ _ _ _ _ _ _ _ eq_refl
              sample_slideshow_eq sample_slideshow_again_eq)
    as (n1 & n2 & _ & _ & Hf1 & Hf2 & _).
  exists n1, n2. split; [exact Hf1 | exact Hf2].
Defined.

(** ** Topics and their sections *)

Section Topics.

Variable w : World.

Lemma Forall2_seq_lookup (h l : list Node) :
  forall a,
  (forall i x, l !! i = Some x -> h !! (a + i)%nat = Some x) ->
  Forall2 (fun c x => h !! c = Some x) (seq a (List.length l)) l.
Proof.
  induction l as [|x l IH]; intros a H; simpl; constructor.
  - specialize (H 0%nat x eq_refl). rewrite Nat.add_0_r in H. exact H.
  - apply IH. intros i y Hy. specialize (H (S i) y Hy).
    replace (S a + i)%nat with (a + S i)%nat by lia. exact H.
Qed.

(** The cells of [layout], read back through the references of [starts]. *)
Lemma layout_topics key topics :
  forall pre post : list Node,
  Forall2 (fun t r =>
             exists cs,
               (pre ++ layout w key (List.length pre) topics ++ post) !! r
               = Some (topic_node t cs) /\
               Forall2 (fun c leaf =>
                          (pre ++ layout w key (List.length pre) topics ++ post) !! c
                          = Some leaf)
                 cs (topic_leaves w key t))
    topics (starts w key (List.length pre) topics).
Proof.
  induction topics as [|t topics IH]; intros pre post; simpl; constructor.
  - exists (seq (S (List.length pre)) (List.length (topic_leaves w key t))). split.
    + rewrite lookup_app_r by lia. rewrite Nat.sub_diag. reflexivity.
    + apply Forall2_seq_lookup. intros i x Hx.
      rewrite lookup_app_r by lia.
      replace (S (List.length pre) + i - List.length pre)%nat with (S i) by lia.
      simpl. rewrite <- app_assoc. rewrite lookup_app_l; [exact Hx|].
      apply lookup_lt_Some in Hx. exact Hx.
  - specialize (IH (pre ++ topic_block w key (List.length pre) t) post).
    rewrite length_app in IH.
    rewrite <- !app_assoc in IH. rewrite <- app_assoc. exact IH.
Qed.

Lemma english_reads_listing key topics t :
  In t topics ->
  forall files0, In (english_assets_url key t) (english_reads w key files0 topics).
Proof.
  induction topics as [|t0 topics IH]; intros Hin files0; [contradiction|].
  cbn [english_reads]. apply in_or_app. destruct Hin as [->|Hin].
  - left. unfold listing_reads. left. reflexivity.
  - right. apply IH, Hin.
Qed.

Lemma Forall2_In_l {A B} (P : A -> B -> Prop) (Q : A -> Prop) l k :
  Forall2 P l k -> (forall x, In x l -> Q x) ->
  Forall2 (fun x y => P x y /\ Q x) l k.
Proof.
  induction 1 as [|x y l k Hxy _ IH]; intros HQ; constructor.
  - split; [exact Hxy|]. apply HQ. left. reflexivity.
  - apply IH. intros z Hz. apply HQ. right. exact Hz.
Qed.

(** What [scrape_english_collection] adds below the channel. *)
Lemma english_children channel s s' :
  scrape_english_collection w channel s = Ok (tt, s') ->
  (channel < List.length (heap s))%nat ->
  exists refs,
    children_of (heap s') channel = children_of (heap s) channel ++ refs /\
    Forall2 (fun t r =>
               (exists cs,
                  heap s' !! r = Some (topic_node t cs) /\
                  Forall2 (fun c leaf => heap s' !! c = Some leaf)
                    cs (topic_leaves w (english_key w) t)) /\
               In (english_assets_url (english_key w) t) (reads s'))
      (english_topics w) refs.
Proof.
  intros H Hlt.
  apply scrape_english_collection_Ok in H as (_ & _ & ->); [|assumption]. simpl.
  exists (starts w (english_key w) (List.length (heap s)) (english_topics w)).
  split.
  - unfold children_of. rewrite lookup_app_l by (rewrite length_alter; lia).
    rewrite list_lookup_alter_eq.
    destruct (heap s !! channel) as [n|] eqn:Hn; [reflexivity|].
    apply lookup_ge_None in Hn. lia.
  - pose proof (layout_topics (english_key w) (english_topics w)
                  (alter (append_children
                            (starts w (english_key w) (List.length (heap s))
                               (english_topics w))) channel (heap s)) []) as HL.
    rewrite length_alter, !app_nil_r in HL.
    apply Forall2_In_l; [exact HL|].
    intros t Ht. apply in_or_app. right. right.
    apply english_reads_listing, Ht.
Qed.

Lemma excluded_ids t :
  excluded t = true <-> sec_id t = 262354%Z \/ sec_id t = 261412%Z.
Proof.
  unfold excluded, EXCLUDED_TOPIC_IDS. rewrite bool_decide_eq_true.
  rewrite !elem_of_cons, elem_of_nil. tauto.
Qed.

End Topics.

(** C6. Every section of the English page that is kept is identified by
    its section key: [scrape_english_collection] appends to the channel one
    topic node per kept section, in page order, with the section key as
    [source_id] and the section name as title; the assets of the section are
    requested from [ENGLISH_ASSETS_URL] formatted with the collection key of
    the page and the same section key, and the nodes made from that listing
    are the children of that topic. *)
Theorem topic_per_section_key (w : World) channel s s' :
  scrape_english_collection w channel s = Ok (tt, s') ->
  (channel < List.length (heap s))%nat ->
  exists refs,
    children_of (heap s') channel = children_of (heap s) channel ++ refs /\
    Forall2 (fun t r =>
               let address :=
                 str_format ENGLISH_ASSETS_URL
                   [("collection", english_key w); ("section", section_key t)] in
               exists n,
                 heap s' !! r = Some n /\
                 kind n = TopicNode /\
                 source_id n = section_key t /\
                 title n = sec_name t /\
                 In address (reads s') /\
                 Forall2 (fun c leaf => heap s' !! c = Some leaf)
                   (children n) (listing_leaves w address (sec_name t)))
      (english_topics w) refs.
Proof.
  intros H Hlt. destruct (english_children w channel s s' H Hlt) as (refs & Hc & HF).
  exists refs. split; [exact Hc|].
  eapply Forall2_impl; [exact HF|].
  intros t r ((cs & Hn & Hleaves) & Hin). simpl.
  exists (topic_node t cs). repeat split; assumption.
Qed.

Lemma english_run_eq :
  scrape_english_collection (Sample.world true) 0 (Sample.channel_state ∅)
  = Ok (tt, Sample.english_run).
Proof. vm_compute. reflexivity. Qed.

Lemma sample_english_topics :
  english_topics (Sample.world true) = [Sample.prevention; Sample.videos].
Proof. vm_compute. reflexivity. Qed.

Lemma topic_per_section_key_witness :
  scrape_english_collection (Sample.world true) 0 (Sample.channel_state ∅)
  = Ok (tt, Sample.english_run) /\
  (0 < List.length (heap (Sample.channel_state ∅)))%nat /\
  exists r1 r2 n1 n2,
    children_of (heap Sample.english_run) 0 = [r1; r2] /\
    heap Sample.english_run !! r1 = Some n1 /\
    heap Sample.english_run !! r2 = Some n2 /\
    source_id n1 = "s1" /\ title n1 = "Prevention" /\
    source_id n2 = "s2" /\ title n2 = "Videos".
Proof.
  split; [exact english_run_eq|]. split; [simpl; lia|].
  destruct (topic_per_section_key (Sample.world true) 0 (Sample.channel_state ∅)
              Sample.english_run english_run_eq)
    as (refs & Hc & HF); [simpl; lia|].
  rewrite sample_english_topics in HF.
  inversion HF as [|t1 r1 l1 k1 H1 HF1]; subst.
  inversion HF1 as [|t2 r2 l2 k2 H2 HF2]; subst.
  inversion HF2; subst.
  destruct H1 as (n1 & Hn1 & _ & Hs1 & Ht1 & _).
  destruct H2 as (n2 & Hn2 & _ & Hs2 & Ht2 & _).
  exists r1, r2, n1, n2.
  split; [exact Hc|]. repeat split; assumption.
Defined.

(** ** The excluded sections *)

Lemma excluded_eqb t :
  excluded t = (Z.eqb (sec_id t) 262354 || Z.eqb (sec_id t) 261412)%bool.
Proof.
  destruct (excluded t) eqn:He.
  - apply excluded_ids in He. symmetry. apply orb_true_iff.
    rewrite !Z.eqb_eq. exact He.
  - symmetry. apply orb_false_iff. rewrite !Z.eqb_neq.
    split; intros Hid; assert (Ht : excluded t = true)
      by (apply excluded_ids; auto); congruence.
Qed.

Lemma kept_by_id sections :
  kept sections
  = List.filter
      (fun t => negb (Z.eqb (sec_id t) 262354 || Z.eqb (sec_id t) 261412))
      sections.
Proof.
  unfold kept. induction sections as [|t l IH]; [reflexivity|].
  simpl. rewrite IH, excluded_eqb. reflexivity.
Qed.

(** C8. The sections of the English page whose id is 262354 or 261412
    are left out without a trace: the topic nodes appended to the channel
    are, one for one and in page order, the sections with another id, and
    the log holds the records of those sections only. *)
Theorem excluded_sections_omitted (w : World) channel s s' :
  scrape_english_collection w channel s = Ok (tt, s') ->
  (channel < List.length (heap s))%nat ->
  exists sections refs,
    react_sections (page_at w ENGLISH_COLLECTION_URL) = Some sections /\
    let shown :=
      List.filter
        (fun t => negb (Z.eqb (sec_id t) 262354 || Z.eqb (sec_id t) 261412))
        sections in
    children_of (heap s') channel = children_of (heap s) channel ++ refs /\
    Forall2 (fun t r =>
               exists n,
                 heap s' !! r = Some n /\ kind n = TopicNode /\
                 source_id n = section_key t /\ title n = sec_name t)
      shown refs /\
    log s' = log s
               ++ {| level := INFO; fmt := "Scraping English collection...";
                     args := [] |}
               :: flat_map (topic_log w (english_key w)) shown.
Proof.
  intros H Hlt.
  destruct (english_children w channel s s' H Hlt) as (refs & Hc & HF).
  apply scrape_english_collection_Ok in H as ((_ & _ & [sections Hs]) & _ & ->);
    [|assumption].
  exists sections, refs. split; [exact Hs|]. simpl.
  assert (Htopics : english_topics w
                    = List.filter
                        (fun t => negb (Z.eqb (sec_id t) 262354
                                        || Z.eqb (sec_id t) 261412)) sections).
  { unfold english_topics. rewrite Hs. simpl. apply kept_by_id. }
  rewrite <- Htopics.
  split; [exact Hc|]. split; [|reflexivity].
  eapply Forall2_impl; [exact HF|].
  intros t r ((cs & Hn & _) & _). exists (topic_node t cs). auto.
Qed.

Lemma excluded_sections_omitted_witness :
  scrape_english_collection (Sample.world true) 0 (Sample.channel_state ∅)
  = Ok (tt, Sample.english_run) /\
  (0 < List.length (heap (Sample.channel_state ∅)))%nat /\
  exists sections refs,
    sections = [Sample.prevention; Sample.hidden; Sample.videos] /\
    children_of (heap Sample.english_run) 0 = refs /\
    List.length refs = 2%nat.
Proof.
  split; [exact english_run_eq|]. split; [simpl; lia|].
  destruct (excluded_sections_omitted (Sample.world true) 0
              (Sample.channel_state ∅) Sample.english_run english_run_eq)
    as (sections & refs & Hs & Hc & HF & _); [simpl; lia|].
  exists sections, refs.
  assert (Hsec : sections = [Sample.prevention; Sample.hidden; Sample.videos]).
  { vm_compute in Hs. inversion Hs. reflexivity. }
  split; [exact Hsec|]. split; [exact Hc|].
  subst sections. apply Forall2_length in HF. symmetry. exact HF.
Defined.

(** ** Language names *)

Section LanguageNames.

Variable w : World.

Lemma LANGUAGE_MAP_codes key c :
  LANGUAGE_MAP !! key = Some (Some c) -> c <> "".
Proof.
  intros H. unfold LANGUAGE_MAP in H.
  apply elem_of_list_to_map_2 in H. unfold LANGUAGE_MAP_items in H.
  repeat (apply elem_of_cons in H as [H|H]; [inversion H; discriminate|]).
  apply elem_of_nil in H. contradiction.
Qed.

Lemma translated_name_Some language_name r :
  translated_name w language_name = Some r ->
  exists code,
    LANGUAGE_MAP !! language_name = Some code /\
    match code with
    | Some c => exists l, getlang w c = Some l /\ r = native_name l
    | None => r = language_name
    end.
Proof.
  unfold translated_name.
  destruct (LANGUAGE_MAP !! language_name) as [code|] eqn:Hcode; [|discriminate].
  intros H. exists code. split; [reflexivity|].
  destruct code as [c|]; simpl in H.
  - pose proof (LANGUAGE_MAP_codes _ _ Hcode) as Hc.
    apply String.eqb_neq in Hc. rewrite Hc in H. simpl in H.
    destruct (getlang w c) as [l|]; [|discriminate].
    inversion H. eauto.
  - inversion H. reflexivity.
Qed.

Lemma language_cells_map langs :
  flat_map (language_nodes w) langs
  = List.map (language_node w) (List.filter (has_slides w) langs).
Proof.
  induction langs as [|t langs IH]; [reflexivity|].
  simpl. unfold language_nodes at 1. unfold has_slides at 1.
  destruct (nonempty (slides_of w t)); simpl; rewrite IH; reflexivity.
Qed.

Lemma languages_ok_names langs :
  forall files0,
  languages_ok w files0 langs ->
  Forall (fun t => is_Some (translated_name w (sec_name t))) langs.
Proof.
  induction langs as [|t langs IH]; intros files0 H; constructor.
  - destruct H as ((_ & Hn & _) & _). exact Hn.
  - destruct H as (_ & H). eapply IH, H.
Qed.

Lemma Forall2_map_lookup (h : list Node) {A} (f : A -> Node) (l : list A) :
  forall a,
  (forall i x, l !! i = Some x -> h !! (a + i)%nat = Some (f x)) ->
  Forall2 (fun x r => h !! r = Some (f x)) l (seq a (List.length l)).
Proof.
  induction l as [|x l IH]; intros a H; simpl; constructor.
  - specialize (H 0%nat x eq_refl). rewrite Nat.add_0_r in H. exact H.
  - apply IH. intros i y Hy. specialize (H (S i) y Hy).
    replace (S a + i)%nat with (a + S i)%nat by lia. exact H.
Qed.

Lemma Forall2_Forall_l {A B} (P : A -> B -> Prop) (Q : A -> Prop) l k :
  Forall2 P l k -> Forall Q l -> Forall2 (fun x y => P x y /\ Q x) l k.
Proof.
  induction 1 as [|x y l k Hxy _ IH]; intros HQ; constructor;
    inversion HQ; subst; auto.
Qed.

Lemma Forall_filter_bool {A} (Q : A -> Prop) (f : A -> bool) l :
  Forall Q l -> Forall Q (List.filter f l).
Proof.
  induction 1 as [|x l Hx _ IH]; simpl; [constructor|].
  destruct (f x); [constructor|]; assumption.
Qed.

(** What [scrape_multilanguage_slideshows] adds below the channel. *)
Lemma language_children channel s s' :
  scrape_multilanguage_slideshows w channel s = Ok (tt, s') ->
  (channel < List.length (heap s))%nat ->
  exists refs,
    children_of (heap s') channel = children_of (heap s) channel ++ refs /\
    Forall2 (fun t r =>
               heap s' !! r = Some (language_node w t) /\
               is_Some (translated_name w (sec_name t)))
      (List.filter (has_slides w) (language_sections w)) refs.
Proof.
  intros H Hlt.
  apply scrape_multilanguage_slideshows_Ok in H as (_ & Hok & ->); [|assumption].
  simpl. unfold language_cells. rewrite language_cells_map, length_map.
  exists (seq (List.length (heap s))
            (List.length (List.filter (has_slides w) (language_sections w)))).
  split.
  - unfold children_of. rewrite lookup_app_l by (rewrite length_alter; lia).
    rewrite list_lookup_alter_eq.
    destruct (heap s !! channel) as [n|] eqn:Hn; [reflexivity|].
    apply lookup_ge_None in Hn. lia.
  - apply Forall2_Forall_l.
    + apply Forall2_map_lookup. intros i t Ht.
      rewrite lookup_app_r by (rewrite length_alter; lia).
      rewrite length_alter.
      replace (List.length (heap s) + i - List.length (heap s))%nat with i by lia.
      rewrite list_lookup_fmap. rewrite Ht. reflexivity.
    + apply Forall_filter_bool. eapply languages_ok_names, Hok.
Qed.

End LanguageNames.

(** C7. The translation of language names is a lookup in the fixed table
    [LANGUAGE_MAP]: every node [scrape_multilanguage_slideshows] appends to
    the channel (one per section with slides, in page order) has as language
    the code the table gives for the section's name; its title is the native
    name [getlang] gives for that code when the code is not null, and the
    section's own name when the code is null. *)
Theorem language_names_from_table (w : World) channel s s' :
  scrape_multilanguage_slideshows w channel s = Ok (tt, s') ->
  (channel < List.length (heap s))%nat ->
  exists refs,
    children_of (heap s') channel = children_of (heap s) channel ++ refs /\
    Forall2 (fun t r =>
               exists n code,
                 heap s' !! r = Some n /\
                 LANGUAGE_MAP !! sec_name t = Some code /\
                 language n = code /\
                 match code with
                 | Some c => exists l, getlang w c = Some l /\ title n = native_name l
                 | None => title n = sec_name t
                 end)
      (List.filter (fun t => nonempty (slides_of w t)) (language_sections w)) refs.
Proof.
  intros H Hlt. destruct (language_children w channel s s' H Hlt) as (refs & Hc & HF).
  exists refs. split; [exact Hc|].
  eapply Forall2_impl; [exact HF|].
  intros t r (Hn & [name Hname]).
  destruct (translated_name_Some w _ _ Hname) as (code & Hcode & Htitle).
  exists (language_node w t), code. split; [exact Hn|]. split; [exact Hcode|].
  unfold language_node, packaged. rewrite Hname, Hcode. simpl.
  destruct (slides_mode w); simpl; auto.
Qed.

Lemma languages_run_eq :
  scrape_multilanguage_slideshows (Sample.world true) 0 (Sample.channel_state ∅)
  = Ok (tt, Sample.languages_run).
Proof. vm_compute. reflexivity. Qed.

Lemma sample_languages_shown :
  List.filter (fun t => nonempty (slides_of (Sample.world true) t))
    (language_sections (Sample.world true))
  = [Sample.french; Sample.tetun].
Proof. vm_compute. reflexivity. Qed.

Lemma language_names_from_table_witness :
  scrape_multilanguage_slideshows (Sample.world true) 0 (Sample.channel_state ∅)
  = Ok (tt, Sample.languages_run) /\
  (0 < List.length (heap (Sample.channel_state ∅)))%nat /\
  exists r1 r2 n1 n2,
    children_of (heap Sample.languages_run) 0 = [r1; r2] /\
    heap Sample.languages_run !! r1 = Some n1 /\
    heap Sample.languages_run !! r2 = Some n2 /\
    language n1 = Some "fr" /\ title n1 = "Francais" /\
    language n2 = None /\ title n2 = "Tetun".
Proof.
  split; [exact languages_run_eq|]. split; [simpl; lia|].
  destruct (language_names_from_table (Sample.world true) 0
              (Sample.channel_state ∅) Sample.languages_run languages_run_eq)
    as (refs & Hc & HF); [simpl; lia|].
  rewrite sample_languages_shown in HF.
  inversion HF as [|t1 r1 l1 k1 H1 HF1]; subst.
  inversion HF1 as [|t2 r2 l2 k2 H2 HF2]; subst.
  inversion HF2; subst.
  destruct H1 as (n1 & code1 & Hn1 & Hcode1 & Hl1 & Ht1).
  destruct H2 as (n2 & code2 & Hn2 & Hcode2 & Hl2 & Ht2).
  vm_compute in Hcode1, Hcode2.
  injection Hcode1 as <-. injection Hcode2 as <-.
  destruct Ht1 as (l & Hg & Ht1). vm_compute in Hg. injection Hg as <-.
  exists r1, r2, n1, n2.
  split; [exact Hc|]. repeat split; assumption.
Defined.

(** ** One listing request per section *)

Section Listings.

Variable w : World.

Lemma image_reads_not_listing files0 images source :
  (generates_pdf w files0 source = true -> is_Some (pages_of w images)) ->
  List.filter (is_listing_url w) (image_reads w files0 images source) = [].
Proof.
  intros H. unfold image_reads.
  destruct (generates_pdf w files0 source); [|reflexivity].
  apply filter_all_false.
  eapply Forall_impl; [apply pages_of_images, H; reflexivity|].
  intros u Hu. simpl in Hu. unfold is_image_url in Hu. unfold is_listing_url.
  destruct (web w u) as [c|]; [|reflexivity].
  destruct c; try reflexivity; discriminate.
Qed.

Lemma storage_urls_not_listing assets :
  is_Some (video_nodes w assets) ->
  List.filter (is_listing_url w)
    (List.map storage_url (List.filter is_mp4 assets)) = [].
Proof.
  intros [videos H]. apply video_nodes_Forall2 in H.
  apply filter_all_false.
  induction H as [|a n l k (v & rest & Hw & _) _ IH]; simpl; constructor;
    [|exact IH].
  unfold is_listing_url. rewrite Hw. reflexivity.
Qed.

Lemma listing_reads_one_listing files0 address :
  listing_ok w files0 address ->
  List.filter (is_listing_url w) (listing_reads w files0 address) = [address].
Proof.
  intros ([r Hr] & Hvideos & Hpages).
  unfold listing_reads. simpl.
  unfold is_listing_url at 1. rewrite Hr. f_equal.
  rewrite List.filter_app, storage_urls_not_listing by assumption.
  destruct (nonempty (collected w address)) eqn:Hne; [|reflexivity].
  apply image_reads_not_listing. auto.
Qed.

Lemma language_reads_one_listing files0 t :
  language_ok w files0 t ->
  List.filter (is_listing_url w) (language_reads w files0 t)
  = [slideshow_assets_url t].
Proof.
  intros ([r Hr] & _ & Hpages). unfold language_reads. simpl.
  unfold is_listing_url at 1. rewrite Hr. f_equal.
  destruct (nonempty (slides_of w t)) eqn:Hne; [|reflexivity].
  apply image_reads_not_listing. auto.
Qed.

End Listings.

(** C5, as the code has it.  For every section the importer asks the
    asset API once: the requests of [scrape_collection_files] and of the
    body of the multi-language loop hold exactly one asset listing, the one
    at the URL of the section, and the nodes are made from the [data] of
    that one answer; no request follows the pagination of the listing. *)
Theorem one_listing_request_per_section (w : World) :
  (forall topic address s s',
     scrape_collection_files w topic address s = Ok (tt, s') ->
     (topic < List.length (heap s))%nat ->
     exists response new,
       web w address = Some (AssetsJson response) /\
       reads s' = reads s ++ new /\
       List.filter (is_listing_url w) new = [address] /\
       heap s' = alter (append_children
                          (seq (List.length (heap s))
                             (List.length
                                (listing_leaves w address (title_of (heap s) topic)))))
                   topic (heap s)
                   ++ listing_leaves w address (title_of (heap s) topic) /\
       listing w address = data response)
  /\
  (forall channel t s s',
     scrape_language w channel t s = Ok (tt, s') ->
     (channel < List.length (heap s))%nat ->
     let address :=
       str_format SLIDESHOW_ASSETS_URL
         [("collection", "qac6i4-foozd4-68u325"); ("section", section_key t)] in
     exists response new,
       web w address = Some (AssetsJson response) /\
       reads s' = reads s ++ new /\
       List.filter (is_listing_url w) new = [address] /\
       slides_of w t = List.map slide_of (data response)).
Proof.
  split.
  - intros topic address s s' H Hlt.
    apply scrape_collection_files_Ok in H as (Hok & ->); [|assumption].
    pose proof Hok as ([r Hr] & _).
    exists r, (listing_reads w (fs s) address). simpl.
    split; [exact Hr|]. split; [reflexivity|].
    split; [apply listing_reads_one_listing, Hok|].
    split; [reflexivity|]. unfold listing. rewrite Hr. reflexivity.
  - intros channel t s s' H Hlt address.
    apply scrape_language_Ok in H as (Hok & ->); [|assumption].
    pose proof Hok as ([r Hr] & _).
    exists r, (language_reads w (fs s) t). simpl.
    split; [exact Hr|]. split; [reflexivity|].
    split; [apply language_reads_one_listing, Hok|].
    unfold slides_of, listing. rewrite Hr. reflexivity.
Qed.

Lemma one_listing_request_per_section_witness :
  scrape_collection_files (Sample.world false) 1 Sample.prevention_url
    (Sample.topic_state ∅) = Ok (tt, Sample.topic_run) /\
  (1 < List.length (heap (Sample.topic_state ∅)))%nat /\
  exists new,
    reads Sample.topic_run = new /\
    List.filter (is_listing_url (Sample.world false)) new = [Sample.prevention_url].
Proof.
  split; [exact topic_run_eq|]. split; [simpl; lia|].
  destruct (one_listing_request_per_section (Sample.world false)) as [H _].
  destruct (H 1%nat Sample.prevention_url (Sample.topic_state ∅) Sample.topic_run
              topic_run_eq)
    as (response & new & _ & Hr & Hf & _); [simpl; lia|].
  exists new. split; [exact Hr | exact Hf].
Defined.

(** C5, as the specification words it, fails: the listing of a section
    names a second page, the run returns, and the second page was never
    requested. *)
Lemma second_page_never_requested :
  ~ (forall s',
       scrape_collection_files (Sample.world false) 1 Sample.prevention_url
         (Sample.topic_state ∅) = Ok (tt, s') ->
       forall response page,
         web (Sample.world false) Sample.prevention_url
         = Some (AssetsJson response) ->
         next_page response = Some page ->
         In page (reads s')).
Proof.
  intros H.
  specialize (H _ topic_run_eq
                {| data := [Sample.wash; Sample.clip; Sample.leaflet; Sample.mask];
                   next_page := Some Sample.prevention_page2 |}
                Sample.prevention_page2).
  assert (Hin : In Sample.prevention_page2 (reads Sample.topic_run)).
  { apply H; [vm_compute; reflexivity | reflexivity]. }
  vm_compute in Hin.
  repeat (destruct Hin as [Hin|Hin]; [discriminate|]). exact Hin.
Qed.

(** ** The first image is always there *)

Section FirstImage.

Variable w : World.

Lemma safe_ret {A} (a : A) : safe (ret a).
Proof. intros s e H. discriminate. Qed.

Lemma safe_bind {A B} (m : M A) (k : A -> M B) :
  safe m -> (forall a, safe (k a)) -> safe (bind m k).
Proof.
  intros Hm Hk s e H. apply bind_Raise in H as [H|(a & s1 & _ & H)].
  - eapply Hm, H.
  - eapply Hk, H.
Qed.

Lemma safe_raise {A} e : image_index_error e = false -> safe (@raise A e).
Proof. intros He s e' H. inversion H; subst. exact He. Qed.

Lemma safe_for_each {A} (xs : list A) (body : A -> M unit) :
  (forall x, safe (body x)) -> safe (for_each xs body).
Proof.
  intros Hb. induction xs as [|x xs IH]; simpl.
  - apply safe_ret.
  - apply safe_bind; [apply Hb | intros _; exact IH].
Qed.

Lemma safe_for_fold {A B} (xs : list A) (body : B -> A -> M B) :
  (forall acc x, safe (body acc x)) -> forall acc, safe (for_fold xs acc body).
Proof.
  intros Hb. induction xs as [|x xs IH]; intros acc; simpl.
  - apply safe_ret.
  - apply safe_bind; [apply Hb | intros acc'; apply IH].
Qed.

Lemma safe_total {A} (m : M A) : (forall s, exists r, m s = Ok r) -> safe m.
Proof. intros H s e He. destruct (H s) as [r Hr]. congruence. Qed.

Lemma safe_alloc n : safe (alloc n).
Proof. apply safe_total. intros s. eexists. reflexivity. Qed.

Lemma safe_add_child p c : safe (add_child p c).
Proof. apply safe_total. intros s. eexists. reflexivity. Qed.

Lemma safe_LOGGER lv f a : safe (LOGGER lv f a).
Proof. apply safe_total. intros s. eexists. reflexivity. Qed.

Lemma safe_get_title r : safe (get_title r).
Proof. apply safe_total. intros s. eexists. reflexivity. Qed.

Lemma safe_downloader_read address : safe (downloader_read w address).
Proof.
  intros s e H. unfold downloader_read in H.
  destruct (web w address); inversion H. reflexivity.
Qed.

Lemma safe_LANGUAGE_MAP_getitem key : safe (LANGUAGE_MAP_getitem key).
Proof.
  unfold LANGUAGE_MAP_getitem. destruct (LANGUAGE_MAP !! key).
  - apply safe_ret.
  - apply safe_raise. reflexivity.
Qed.

Lemma safe_open_image acc image : safe (open_image w acc image).
Proof.
  unfold open_image. apply safe_bind; [apply safe_downloader_read|].
  intros c. apply safe_bind; [|intros img; apply safe_ret].
  unfold Image_open. destruct c; try (apply safe_raise; reflexivity).
  apply safe_ret.
Qed.

(** With an image to start from, [create_slideshow] finds [images[0]] and
    [image_list[0]]. *)
Lemma safe_create_slideshow images source t language_name :
  images <> [] -> safe (create_slideshow w images source t language_name).
Proof.
  intros Hne. unfold create_slideshow.
  destruct images as [|first rest]; [congruence|].
  apply safe_bind; [apply safe_ret|]. intros first'.
  destruct (bool_decide ("--slides" ∈ argv w)).
  - apply safe_bind; [apply safe_LANGUAGE_MAP_getitem|].
    intros lang. apply safe_alloc.
  - apply safe_bind; [apply safe_total; intros s; eexists; reflexivity|].
    intros present. apply safe_bind.
    + destruct (negb present); [|apply safe_ret].
      intros s e H. apply bind_Raise in H as [H|(l & s1 & Hloop & H)].
      * eapply (safe_for_fold _ _ (safe_open_image)), H.
      * apply open_images_Ok in Hloop as (pages & Hpages & -> & _).
        apply pages_of_length in Hpages.
        destruct pages; [discriminate|]. discriminate.
    + intros _. apply safe_bind; [apply safe_LANGUAGE_MAP_getitem|].
      intros lang. apply safe_alloc.
Qed.

Lemma safe_scrape_asset topic address images asset :
  safe (scrape_asset w topic address images asset).
Proof.
  unfold scrape_asset.
  destruct (String.eqb (extension asset) "png"); [apply safe_ret|].
  destruct (String.eqb (extension asset) "mp4").
  - apply safe_bind; [apply safe_downloader_read|]. intros c.
    apply safe_bind.
    { unfold attachments_data. destruct c; try (apply safe_raise; reflexivity).
      apply safe_ret. }
    intros video_data. apply safe_bind.
    { destruct video_data; [apply safe_raise; reflexivity | apply safe_ret]. }
    intros video. apply safe_bind; [apply safe_alloc|].
    intros node. apply safe_bind; [apply safe_add_child|].
    intros _. apply safe_ret.
  - apply safe_bind; [apply safe_LOGGER | intros _; apply safe_ret].
Qed.

Lemma safe_assets_data address c : safe (assets_data address c).
Proof.
  unfold assets_data. destruct c; try (apply safe_raise; reflexivity).
  apply safe_ret.
Qed.

Lemma safe_scrape_collection_files topic address :
  safe (scrape_collection_files w topic address).
Proof.
  unfold scrape_collection_files.
  apply safe_bind; [apply safe_downloader_read|]. intros c.
  apply safe_bind; [apply safe_assets_data|]. intros assets.
  apply safe_bind; [apply safe_for_fold; intros; apply safe_scrape_asset|].
  intros images. destruct images as [|image images]; simpl; [apply safe_ret|].
  apply safe_bind; [apply safe_get_title|]. intros ttl.
  apply safe_bind; [apply safe_create_slideshow; discriminate|].
  intros node. apply safe_add_child.
Qed.

Lemma safe_translate language_name : safe (translate w language_name).
Proof.
  unfold translate. apply safe_bind; [apply safe_LANGUAGE_MAP_getitem|].
  intros code. destruct (truthy code); [|apply safe_ret].
  apply safe_bind; [apply safe_LANGUAGE_MAP_getitem|].
  intros code'. destruct (getlang w _); [apply safe_ret|].
  apply safe_raise. reflexivity.
Qed.

Lemma safe_scrape_language channel t : safe (scrape_language w channel t).
Proof.
  unfold scrape_language.
  apply safe_bind; [apply safe_downloader_read|]. intros c.
  apply safe_bind; [apply safe_assets_data|]. intros slide_data.
  apply safe_bind; [apply safe_translate|]. intros name.
  apply safe_bind; [apply safe_LOGGER|]. intros _.
  destruct slide_data as [|slide slide_data]; simpl; [apply safe_ret|].
  apply safe_bind; [apply safe_create_slideshow; discriminate|].
  intros node. apply safe_add_child.
Qed.

Lemma safe_get_collection_key p : safe (get_collection_key p).
Proof.
  unfold get_collection_key. destruct (resource_key p);
    [apply safe_ret | apply safe_raise; reflexivity].
Qed.

Lemma safe_asset_list_sections p : safe (asset_list_sections p).
Proof.
  unfold asset_list_sections. destruct (react_sections p);
    [apply safe_ret | apply safe_raise; reflexivity].
Qed.

Lemma safe_scrape_english_collection channel :
  safe (scrape_english_collection w channel).
Proof.
  unfold scrape_english_collection.
  apply safe_bind; [apply safe_LOGGER|]. intros _.
  apply safe_bind; [apply safe_downloader_read|]. intros c.
  apply safe_bind; [apply safe_get_collection_key|]. intros key.
  apply safe_bind; [apply safe_asset_list_sections|]. intros sections.
  apply safe_for_each. intros topic. unfold scrape_topic.
  apply safe_bind; [apply safe_LOGGER|]. intros _.
  apply safe_bind; [apply safe_alloc|]. intros node.
  apply safe_bind; [apply safe_add_child|]. intros _.
  apply safe_scrape_collection_files.
Qed.

Lemma safe_scrape_multilanguage_slideshows channel :
  safe (scrape_multilanguage_slideshows w channel).
Proof.
  unfold scrape_multilanguage_slideshows.
  apply safe_bind; [apply safe_LOGGER|]. intros _.
  apply safe_bind; [apply safe_downloader_read|]. intros c.
  apply safe_bind; [apply safe_get_collection_key|]. intros key.
  apply safe_bind; [apply safe_asset_list_sections|]. intros sections.
  apply safe_for_each. intros t. apply safe_scrape_language.
Qed.

End FirstImage.

(** C10. [create_slideshow] is never called with an empty list of
    images.  Called with one it raises the IndexError of [images[0]]; but
    both call sites sit behind the test of the length of the list, so
    neither [scrape_collection_files] nor the body of the multi-language
    loop, nor a whole run, ever raises the IndexError of [images[0]] or of
    [image_list[0]], and with an image in the list [create_slideshow] raises
    neither. *)
Theorem first_image_always_present (w : World) :
  (forall source t language_name s,
     create_slideshow w [] source t language_name s
     = Raise (IndexError "images[0]")) /\
  (forall images source t language_name s e,
     images <> [] ->
     create_slideshow w images source t language_name s = Raise e ->
     image_index_error e = false) /\
  (forall topic address s e,
     scrape_collection_files w topic address s = Raise e ->
     image_index_error e = false) /\
  (forall channel t s e,
     scrape_language w channel t s = Raise e ->
     image_index_error e = false) /\
  (forall s e,
     construct_channel w s = Raise e -> image_index_error e = false).
Proof.
  split; [reflexivity|].
  split; [intros images source t language_name s e Hne;
          apply (safe_create_slideshow w _ _ _ _ Hne)|].
  split; [intros topic address; apply safe_scrape_collection_files|].
  split; [intros channel t; apply safe_scrape_language|].
  unfold construct_channel. apply safe_bind; [apply safe_alloc|].
  intros channel. apply safe_bind; [apply safe_scrape_english_collection|].
  intros _. apply safe_bind; [apply safe_scrape_multilanguage_slideshows|].
  intros _. apply safe_ret.
Qed.

Lemma offline_run_eq :
  construct_channel Sample.offline (initial ∅)
  = Raise (DownloadError ENGLISH_COLLECTION_URL).
Proof. vm_compute. reflexivity. Qed.

Lemma first_image_always_present_witness :
  construct_channel Sample.offline (initial ∅)
  = Raise (DownloadError ENGLISH_COLLECTION_URL) /\
  image_index_error (DownloadError ENGLISH_COLLECTION_URL) = false /\
  image_index_error (IndexError "images[0]") = true.
Proof.
  split; [exact offline_run_eq|].
  destruct (first_image_always_present Sample.offline) as (_ & _ & _ & _ & H).
  split; [exact (H _ _ offline_run_eq) | reflexivity].
Defined.

(** ** When a run returns

    The conditions [listing_ok], [language_ok] and [run_ok], which the
    lemmas above draw from a run that returned, are also enough for the run
    to return. *)

Section Returns.

Variable w : World.

Lemma scrape_asset_returns topic address images a s :
  (is_mp4 a = true -> is_Some (first_attachment w a)) ->
  exists r, scrape_asset w topic address images a s = Ok r.
Proof.
  intros H. unfold scrape_asset.
  destruct (String.eqb (extension a) "png"); [eexists; reflexivity|].
  unfold is_mp4 in H. destruct (String.eqb (extension a) "mp4").
  - destruct (H eq_refl) as [v Hv]. unfold first_attachment in Hv.
    fold (storage_url a). unfold bind, downloader_read.
    destruct (web w (storage_url a)) as [c|]; [|discriminate].
    destruct c as [?|?|[|v0 rest]|?|]; try discriminate.
    eexists. reflexivity.
  - eexists. reflexivity.
Qed.

Lemma scrape_assets_returns topic address assets :
  is_Some (video_nodes w assets) ->
  forall images s,
  exists r, for_fold assets images (scrape_asset w topic address) s = Ok r.
Proof.
  induction assets as [|a assets IH]; intros Hv images s.
  - eexists. reflexivity.
  - assert (Ha : is_mp4 a = true -> is_Some (first_attachment w a)).
    { intros Hmp4. destruct Hv as [vs Hv]. unfold video_nodes in Hv.
      simpl in Hv. rewrite Hmp4 in Hv. simpl in Hv.
      destruct (first_attachment w a); [eauto | discriminate]. }
    assert (Hrest : is_Some (video_nodes w assets)).
    { destruct Hv as [vs Hv]. unfold video_nodes in *. simpl in Hv.
      destruct (is_mp4 a); [|eauto]. simpl in Hv.
      destruct (first_attachment w a); [|discriminate]. simpl in Hv.
      destruct (mapM _ (List.filter is_mp4 assets)); [eauto | discriminate]. }
    destruct (scrape_asset_returns topic address images a s Ha) as [[images1 s1] H1].
    simpl. unfold bind at 1. rewrite H1. apply IH, Hrest.
Qed.

Lemma scrape_collection_files_returns topic address s :
  listing_ok w (fs s) address ->
  (topic < List.length (heap s))%nat ->
  exists s', scrape_collection_files w topic address s = Ok (tt, s').
Proof.
  intros ([r Hr] & Hvideos & Hpages) Hlt.
  assert (Hlisting : listing w address = data r)
    by (unfold listing; rewrite Hr; reflexivity).
  unfold scrape_collection_files.
  unfold bind at 1. unfold downloader_read. rewrite Hr.
  unfold bind at 1. simpl.
  rewrite Hlisting in Hvideos.
  destruct (scrape_assets_returns topic address (data r) Hvideos []
              {| heap := heap s; log := log s; fs := fs s;
                 reads := reads s ++ [address] |}) as [[images s3] Hloop].
  unfold bind at 1. rewrite Hloop.
  apply scrape_assets_Ok in Hloop as (videos & _ & -> & ->); [|exact Hlt].
  simpl. unfold collected in Hpages. rewrite Hlisting in Hpages.
  fold (nonempty (List.map slide_of_asset (List.filter is_png (data r)))).
  destruct (nonempty _) eqn:Hne; [|eexists; reflexivity].
  unfold bind at 1. unfold get_title at 1.
  unfold bind at 1.
  rewrite (create_slideshow_run w _ address _ "English" _ (Some "en")
             (nonempty_true _ Hne) English_in_LANGUAGE_MAP)
    by (simpl; auto).
  eexists. reflexivity.
Qed.

Lemma scrape_topics_returns channel key topics :
  forall s,
  topics_ok w key (fs s) topics ->
  (channel < List.length (heap s))%nat ->
  exists s', for_each topics (scrape_topic w channel key) s = Ok (tt, s').
Proof.
  induction topics as [|t topics IH]; intros s Hok Hlt.
  - eexists. reflexivity.
  - destruct Hok as [Hone Hrest].
    assert (H1 : exists s1, scrape_topic w channel key t s = Ok (tt, s1)).
    { unfold scrape_topic. unfold bind at 1. unfold LOGGER at 1.
      unfold bind at 1. unfold alloc at 1.
      unfold bind at 1. unfold add_child at 1.
      change (str_format ENGLISH_ASSETS_URL _) with (english_assets_url key t).
      apply scrape_collection_files_returns; [exact Hone|].
      simpl. rewrite length_alter, length_app. simpl. lia. }
    destruct H1 as [s1 H1]. simpl. unfold bind at 1. rewrite H1.
    apply scrape_topic_Ok in H1 as (_ & ->); [|exact Hlt].
    apply IH; simpl; [exact Hrest|].
    rewrite length_app, length_alter. lia.
Qed.

Lemma translate_returns language_name :
  is_Some (translated_name w language_name) ->
  forall s, exists r, translate w language_name s = Ok (r, s).
Proof.
  intros [r H] s. unfold translated_name in H.
  unfold translate, LANGUAGE_MAP_getitem, bind.
  destruct (LANGUAGE_MAP !! language_name) as [code|]; [|discriminate].
  simpl. destruct (truthy code).
  - simpl. destruct (getlang w (default "" code)); [|discriminate].
    eexists. reflexivity.
  - eexists. reflexivity.
Qed.

Lemma scrape_language_returns channel t s :
  language_ok w (fs s) t ->
  exists s', scrape_language w channel t s = Ok (tt, s').
Proof.
  intros ([r Hr] & Hname & Hpages).
  assert (Hslides : slides_of w t = List.map slide_of (data r))
    by (unfold slides_of, listing; rewrite Hr; reflexivity).
  unfold scrape_language.
  change (str_format SLIDESHOW_ASSETS_URL _) with (slideshow_assets_url t).
  unfold bind at 1. unfold downloader_read. rewrite Hr.
  unfold bind at 1. simpl.
  destruct (translate_returns _ Hname
              {| heap := heap s; log := log s; fs := fs s;
                 reads := reads s ++ [slideshow_assets_url t] |}) as [name Htr].
  unfold bind at 1. rewrite Htr.
  unfold bind at 1. unfold LOGGER at 1.
  change (fun slide : Asset =>
            {| url := view_url (thumbnail_url slide); caption := None |})
    with slide_of.
  rewrite Hslides in Hpages.
  fold (nonempty (List.map slide_of (data r))).
  destruct (nonempty _) eqn:Hne; [|eexists; reflexivity].
  destruct Hname as [name' Hname].
  destruct (translated_name_known w _ _ Hname) as [lang Hlang].
  unfold bind at 1.
  rewrite (create_slideshow_run w _ (slideshow_assets_url t) name (sec_name t) _
             lang (nonempty_true _ Hne) Hlang)
    by (simpl; auto).
  eexists. reflexivity.
Qed.

Lemma scrape_languages_returns channel langs :
  forall s,
  languages_ok w (fs s) langs ->
  (channel < List.length (heap s))%nat ->
  exists s', for_each langs (scrape_language w channel) s = Ok (tt, s').
Proof.
  induction langs as [|t langs IH]; intros s Hok Hlt.
  - eexists. reflexivity.
  - destruct Hok as [Hone Hrest].
    destruct (scrape_language_returns channel t s Hone) as [s1 H1].
    simpl. unfold bind at 1. rewrite H1.
    apply scrape_language_Ok in H1 as (_ & ->); [|exact Hlt].
    apply IH; simpl; [exact Hrest|].
    rewrite length_app, length_alter. lia.
Qed.

Lemma read_page_returns address s :
  page_ok w address ->
  exists c key sections,
    downloader_read w address s
    = Ok (c, {| heap := heap s; log := log s; fs := fs s;
                reads := reads s ++ [address] |}) /\
    resource_key (BeautifulSoup c) = Some key /\
    react_sections (BeautifulSoup c) = Some sections /\
    page_at w address = BeautifulSoup c.
Proof.
  intros ([c Hc] & [key Hk] & [sections Hs]).
  unfold page_at in *. rewrite Hc in Hk, Hs.
  exists c, key, sections. unfold downloader_read. rewrite Hc. auto.
Qed.

Lemma scrape_english_collection_returns channel s :
  page_ok w ENGLISH_COLLECTION_URL ->
  topics_ok w (english_key w) (fs s) (english_topics w) ->
  (channel < List.length (heap s))%nat ->
  exists s', scrape_english_collection w channel s = Ok (tt, s').
Proof.
  intros Hp Ht Hlt. unfold scrape_english_collection.
  erewrite bind_run by reflexivity.
  match goal with
  | |- exists s', bind (downloader_read w ENGLISH_COLLECTION_URL) _ ?st = _ =>
      destruct (read_page_returns ENGLISH_COLLECTION_URL st Hp)
        as (c & key & sections & Hread & Hk & Hs & Hpage)
  end.
  erewrite bind_run by exact Hread.
  erewrite bind_run by (unfold get_collection_key; rewrite Hk; reflexivity).
  erewrite bind_run by (unfold asset_list_sections; rewrite Hs; reflexivity).
  apply scrape_topics_returns; [|simpl; exact Hlt].
  unfold english_key, english_topics, kept in Ht.
  rewrite Hpage, Hk, Hs in Ht. exact Ht.
Qed.

Lemma scrape_multilanguage_slideshows_returns channel s :
  page_ok w SLIDESHOWS_URL ->
  languages_ok w (fs s) (language_sections w) ->
  (channel < List.length (heap s))%nat ->
  exists s', scrape_multilanguage_slideshows w channel s = Ok (tt, s').
Proof.
  intros Hp Hl Hlt. unfold scrape_multilanguage_slideshows.
  erewrite bind_run by reflexivity.
  match goal with
  | |- exists s', bind (downloader_read w SLIDESHOWS_URL) _ ?st = _ =>
      destruct (read_page_returns SLIDESHOWS_URL st Hp)
        as (c & key & sections & Hread & Hk & Hs & Hpage)
  end.
  erewrite bind_run by exact Hread.
  erewrite bind_run by (unfold get_collection_key; rewrite Hk; reflexivity).
  erewrite bind_run by (unfold asset_list_sections; rewrite Hs; reflexivity).
  apply scrape_languages_returns; [|simpl; exact Hlt].
  unfold language_sections in Hl. rewrite Hpage, Hs in Hl. exact Hl.
Qed.

(** The run returns exactly when the world is as [run_ok] says. *)
Lemma construct_channel_returns s :
  run_ok w (fs s) <->
  exists s', construct_channel w s = Ok (List.length (heap s), s').
Proof.
  split.
  - intros (Hp1 & Ht & Hp2 & Hl).
    unfold construct_channel.
    erewrite bind_run by reflexivity.
    match goal with
    | |- exists s', bind (scrape_english_collection w _) _ ?st = _ =>
        destruct (scrape_english_collection_returns (List.length (heap s)) st Hp1 Ht)
          as [s1 He]; [simpl; rewrite length_app; simpl; lia|]
    end.
    erewrite bind_run by exact He.
    apply scrape_english_collection_Ok in He as (_ & _ & ->);
      [|simpl; rewrite length_app; simpl; lia].
    match goal with
    | |- exists s', bind (scrape_multilanguage_slideshows w _) _ ?st = _ =>
        destruct (scrape_multilanguage_slideshows_returns (List.length (heap s)) st
                    Hp2 Hl)
          as [s2 Hm];
          [simpl; rewrite length_app, length_alter, length_app; simpl; lia|]
    end.
    erewrite bind_run by exact Hm. eexists. reflexivity.
  - intros [s' H]. apply construct_channel_Ok in H as (_ & Hok & _). exact Hok.
Qed.

End Returns.

(** ** RFC 1321 test vectors, and the strings of the script *)

Example md5_empty :
  MD5.hexdigest (encode_utf8 "") = "d41d8cd98f00b204e9800998ecf8427e".
Proof. vm_compute. reflexivity. Qed.

Example md5_abc :
  MD5.hexdigest (encode_utf8 "abc") = "900150983cd24fb0d6963f7d28e17f72".
Proof. vm_compute. reflexivity. Qed.

Example md5_two_blocks :
  MD5.hexdigest (encode_utf8
    "12345678901234567890123456789012345678901234567890123456789012345678901234567890")
  = "57edf4a22be3c955ac49da2e2107b67a".
Proof. vm_compute. reflexivity. Qed.

Example view_url_example :
  view_url "https://cdn/x/element.png?v=1&element.pngelement.png"
  = "https://cdn/x/view@2x.png?v=1&view@2x.pngview@2x.png".
Proof. vm_compute. reflexivity. Qed.

Example english_assets_url_example :
  english_assets_url "ck" Sample.prevention
  = "https://brandfolder.com/api/v4/collections/ck/sections/s1/assets?sort_by=position&order=ASC&search=&fast_jsonapi=true".
Proof. vm_compute. reflexivity. Qed.

Example storage_url_example :
  storage_url Sample.clip
  = "https://brandfolder.com/api/v4/assets/v1/attachments?fields=url,thumbnail_url".
Proof. vm_compute. reflexivity. Qed.

(** * Further properties of the script *)

(** ** Error and edge behaviour *)

Lemma for_fold_app {A B} (xs ys : list A) (body : B -> A -> M B) :
  forall acc s,
  for_fold (xs ++ ys) acc body s
  = bind (for_fold xs acc body) (fun acc' => for_fold ys acc' body) s.
Proof.
  induction xs as [|x xs IH]; intros acc s; simpl.
  - unfold bind, ret. reflexivity.
  - unfold bind in *. destruct (body acc x s) as [[acc1 s1]|e]; [|reflexivity].
    apply IH.
Qed.

(** X1. A language name that is not a key of [LANGUAGE_MAP] makes
    [create_slideshow] raise [KeyError] for that name.  With [--slides] the
    lookup is the first thing to fail; without it the lookup comes after the
    PDF has been dealt with, so the error shows when the file is there or
    its images download and decode. *)
Theorem create_slideshow_unknown_language (w : World) images source t language_name s :
  images <> [] ->
  LANGUAGE_MAP !! language_name = None ->
  (generates_pdf w (fs s) source = true -> is_Some (pages_of w images)) ->
  create_slideshow w images source t language_name s
  = Raise (KeyError language_name).
Proof.
  unfold create_slideshow, generates_pdf, slides_mode, LANGUAGE_MAP_getitem.
  intros Hne Hlang Hpages. destruct images as [|first rest]; [congruence|].
  rewrite bind_run with (a := first) (s1 := s) by reflexivity.
  rewrite Hlang.
  destruct (bool_decide ("--slides" ∈ argv w)); [reflexivity|].
  unfold bind at 1. unfold os_path_exists.
  destruct (bool_decide (is_Some (fs s !! pdf_path w source)));
    cbn [negb andb] in *; [reflexivity|].
  destruct Hpages as [pages Hpages]; [reflexivity|].
  unfold bind at 1. unfold bind at 1.
  rewrite (open_images_run w _ [] s pages Hpages).
  pose proof (pages_of_length w _ _ Hpages) as Hlen.
  destruct pages as [|im more]; [discriminate|]. reflexivity.
Qed.

Lemma create_slideshow_unknown_language_witness :
  create_slideshow (Sample.world true) [slide_of_asset Sample.wash]
    Sample.prevention_url "Prevention" "Klingon" (Sample.topic_state ∅)
  = Raise (KeyError "Klingon").
Proof.
  apply create_slideshow_unknown_language.
  - discriminate.
  - vm_compute. reflexivity.
  - intros H. vm_compute in H. discriminate.
Defined.

(** X2. The body of the multi-language loop translates the name of the
    section before it looks at the slides: a section whose name is not in
    [LANGUAGE_MAP] raises [KeyError], and one whose code [getlang] does not
    know raises [AttributeError], whether the listing holds slides or not. *)
Theorem scrape_language_name_comes_first (w : World) channel t s response :
  web w (slideshow_assets_url t) = Some (AssetsJson response) ->
  (LANGUAGE_MAP !! sec_name t = None ->
   scrape_language w channel t s = Raise (KeyError (sec_name t))) /\
  (forall c,
     LANGUAGE_MAP !! sec_name t = Some (Some c) ->
     getlang w c = None ->
     scrape_language w channel t s
     = Raise (AttributeError "getlang(...).native_name")).
Proof.
  intros Hweb. unfold scrape_language.
  change (str_format SLIDESHOW_ASSETS_URL _) with (slideshow_assets_url t).
  unfold bind at 1. unfold downloader_read. rewrite Hweb.
  unfold bind at 1. simpl.
  unfold bind at 1. unfold translate, LANGUAGE_MAP_getitem.
  split.
  - intros Hnone. rewrite Hnone. reflexivity.
  - intros c Hc Hg. rewrite Hc.
    pose proof (LANGUAGE_MAP_codes _ _ Hc) as Hne.
    apply String.eqb_neq in Hne.
    unfold bind, ret, truthy. rewrite Hne. simpl. rewrite Hg. reflexivity.
Qed.

Lemma scrape_language_name_comes_first_witness :
  scrape_language (Sample.world true) 0
    {| sec_id := 13; sec_name := "Klingon"; section_key := "h1" |}
    (Sample.channel_state ∅)
  = Raise (KeyError "Klingon").
Proof.
  apply (scrape_language_name_comes_first (Sample.world true) 0
           {| sec_id := 13; sec_name := "Klingon"; section_key := "h1" |}
           (Sample.channel_state ∅) {| data := []; next_page := None |}).
  - vm_compute. reflexivity.
  - vm_compute. reflexivity.
Defined.

(** X3. An [mp4] asset whose attachment listing is empty stops
    [scrape_collection_files] with the IndexError of
    [video_data['data'][0]], once the assets before it have gone through. *)
Theorem mp4_without_attachment (w : World) topic address s response before a after :
  web w address = Some (AssetsJson response) ->
  data response = before ++ a :: after ->
  is_Some (video_nodes w before) ->
  extension a = "mp4" ->
  web w (storage_url a) = Some (AttachmentsJson []) ->
  scrape_collection_files w topic address s
  = Raise (IndexError "video_data['data'][0]").
Proof.
  intros Hweb Hdata Hbefore Hext Hstorage.
  unfold scrape_collection_files.
  unfold bind at 1. unfold downloader_read. rewrite Hweb.
  unfold bind at 1. simpl. rewrite Hdata.
  unfold bind at 1. rewrite for_fold_app.
  match goal with
  | |- context [bind (for_fold before [] _) _ ?st] =>
      destruct (scrape_assets_returns w topic address before Hbefore [] st)
        as [[images s1] Hloop]
  end.
  unfold bind at 1. rewrite Hloop. simpl.
  unfold bind at 1. unfold scrape_asset at 1. rewrite Hext. simpl.
  fold (storage_url a). unfold bind, downloader_read. rewrite Hstorage.
  reflexivity.
Qed.

Lemma mp4_without_attachment_witness :
  scrape_collection_files
    {| argv := []; os_path_sep := "/";
       web := fun address =>
                if String.eqb address "listing"
                then Some (AssetsJson {| data := [Sample.wash; Sample.clip];
                                         next_page := None |})
                else if String.eqb address (storage_url Sample.clip)
                     then Some (AttachmentsJson [])
                     else None;
       getlang := fun _ => None |}
    1 "listing" (Sample.topic_state ∅)
  = Raise (IndexError "video_data['data'][0]").
Proof.
  eapply (mp4_without_attachment _ 1 "listing" (Sample.topic_state ∅)
            {| data := [Sample.wash; Sample.clip]; next_page := None |}
            [Sample.wash] Sample.clip []).
  - reflexivity.
  - reflexivity.
  - vm_compute. eauto.
  - reflexivity.
  - vm_compute. reflexivity.
Defined.

(** X4. A listing without [png] and without [mp4] assets, the empty
    listing included, leaves the tree and the documents directory as they
    were: the topic of such a section stays in the channel without
    children, and all there is to see is the request and one warning per
    asset. *)
Theorem section_without_media (w : World) topic address s s' :
  scrape_collection_files w topic address s = Ok (tt, s') ->
  (topic < List.length (heap s))%nat ->
  Forall (fun a => extension a <> "png" /\ extension a <> "mp4") (listing w address) ->
  heap s' = heap s /\
  fs s' = fs s /\
  reads s' = reads s ++ [address] /\
  log s' = log s ++ List.map (warning_for address) (listing w address).
Proof.
  intros H Hlt Hall.
  apply scrape_collection_files_Ok in H as (_ & ->); [|assumption].
  assert (Hpng : List.filter is_png (listing w address) = []).
  { apply filter_all_false. eapply Forall_impl; [exact Hall|].
    intros a [Hp _]. apply String.eqb_neq, Hp. }
  assert (Hmp4 : List.filter is_mp4 (listing w address) = []).
  { apply filter_all_false. eapply Forall_impl; [exact Hall|].
    intros a [_ Hm]. apply String.eqb_neq, Hm. }
  assert (Hother : List.filter is_other (listing w address) = listing w address).
  { apply filter_all_true. eapply Forall_impl; [exact Hall|].
    intros a [Hp Hm]. unfold is_other, is_png, is_mp4.
    apply String.eqb_neq in Hp, Hm. rewrite Hp, Hm. reflexivity. }
  unfold listing_leaves, topic_slideshow, listing_files, listing_reads,
    collected, video_nodes.
  rewrite Hpng, Hmp4, Hother. simpl.
  rewrite alter_append_children_nil, !app_nil_r. auto.
Qed.

Lemma leaflets_only_eq :
  exists s',
    scrape_collection_files
      {| argv := []; os_path_sep := "/";
         web := fun address =>
                  if String.eqb address "listing"
                  then Some (AssetsJson {| data := [Sample.leaflet];
                                           next_page := None |})
                  else None;
         getlang := fun _ => None |}
      1 "listing" (Sample.topic_state ∅) = Ok (tt, s').
Proof. eexists. vm_compute. reflexivity. Qed.

Lemma section_without_media_witness :
  exists w s',
    scrape_collection_files w 1 "listing" (Sample.topic_state ∅) = Ok (tt, s') /\
    listing w "listing" = [Sample.leaflet] /\
    heap s' = heap (Sample.topic_state ∅) /\
    children_of (heap s') 1 = [].
Proof.
  destruct leaflets_only_eq as [s' Hrun].
  eexists _, s'. split; [exact Hrun|]. split; [reflexivity|].
  destruct (section_without_media _ _ _ _ _ Hrun) as (Hheap & _).
  - simpl. lia.
  - repeat constructor; discriminate.
  - split; [exact Hheap|]. rewrite Hheap. reflexivity.
Defined.

(** X5. A language section whose listing holds no slide adds no node: the
    body of the multi-language loop leaves the tree and the documents
    directory as they were, after one request and one log record. *)
Theorem language_without_slides (w : World) channel t s s' :
  scrape_language w channel t s = Ok (tt, s') ->
  (channel < List.length (heap s))%nat ->
  listing w (slideshow_assets_url t) = [] ->
  heap s' = heap s /\
  fs s' = fs s /\
  reads s' = reads s ++ [slideshow_assets_url t] /\
  log s' = log s ++ [language_log w t].
Proof.
  intros H Hlt Hempty.
  apply scrape_language_Ok in H as (_ & ->); [|assumption].
  unfold language_nodes, language_files, language_reads, slides_of.
  rewrite Hempty. simpl.
  rewrite alter_append_children_nil, app_nil_r. auto.
Qed.

Lemma hindi_run_eq :
  scrape_language (Sample.world true) 0 Sample.hindi (Sample.channel_state ∅)
  = Ok (tt, Sample.final
              (scrape_language (Sample.world true) 0 Sample.hindi
                 (Sample.channel_state ∅))).
Proof. vm_compute. reflexivity. Qed.

Lemma language_without_slides_witness :
  heap (Sample.final
          (scrape_language (Sample.world true) 0 Sample.hindi
             (Sample.channel_state ∅)))
  = heap (Sample.channel_state ∅).
Proof.
  destruct (language_without_slides _ _ _ _ _ hindi_run_eq) as (Hheap & _).
  - simpl. lia.
  - vm_compute. reflexivity.
  - exact Hheap.
Defined.

(** ** The documents directory over a run *)

Section Directory.

Variable w : World.

Lemma generates_pdf_absent files0 source :
  generates_pdf w files0 source = true -> files0 !! pdf_path w source = None.
Proof.
  unfold generates_pdf. intros H. apply andb_prop in H as [_ H].
  apply negb_true_iff, bool_decide_eq_false in H.
  destruct (files0 !! pdf_path w source) eqn:Hl; [|reflexivity].
  exfalso. apply H. eauto.
Qed.

Lemma files_after_keeps files0 images source p x :
  files0 !! p = Some x -> files_after w files0 images source !! p = Some x.
Proof.
  intros Hp. unfold files_after.
  destruct (generates_pdf w files0 source) eqn:Hg; [|exact Hp].
  apply generates_pdf_absent in Hg.
  rewrite lookup_insert_ne by congruence. exact Hp.
Qed.

Lemma listing_files_keeps files0 address p x :
  files0 !! p = Some x -> listing_files w files0 address !! p = Some x.
Proof.
  intros Hp. unfold listing_files.
  destruct (nonempty _); [apply files_after_keeps|]; exact Hp.
Qed.

Lemma language_files_keeps files0 t p x :
  files0 !! p = Some x -> language_files w files0 t !! p = Some x.
Proof.
  intros Hp. unfold language_files.
  destruct (nonempty _); [apply files_after_keeps|]; exact Hp.
Qed.

Lemma english_files_keeps key topics :
  forall files0 p x,
  files0 !! p = Some x -> english_files w key files0 topics !! p = Some x.
Proof.
  induction topics as [|t topics IH]; intros files0 p x Hp; simpl; [exact Hp|].
  apply IH, listing_files_keeps, Hp.
Qed.

Lemma multilanguage_files_keeps langs :
  forall files0 p x,
  files0 !! p = Some x -> multilanguage_files w files0 langs !! p = Some x.
Proof.
  induction langs as [|t langs IH]; intros files0 p x Hp; simpl; [exact Hp|].
  apply IH, language_files_keeps, Hp.
Qed.

Lemma run_files_keeps files0 p x :
  files0 !! p = Some x -> run_files w files0 !! p = Some x.
Proof.
  intros Hp. unfold run_files.
  apply multilanguage_files_keeps, english_files_keeps, Hp.
Qed.

(** Once the PDF of a source is there, or none is wanted, it stays so. *)
Lemma generates_pdf_stays files0 files1 source :
  (forall p x, files0 !! p = Some x -> files1 !! p = Some x) ->
  generates_pdf w files0 source = false ->
  generates_pdf w files1 source = false.
Proof.
  unfold generates_pdf. intros Hkeep H.
  destruct (slides_mode w); [reflexivity|]. simpl in *.
  apply negb_false_iff, bool_decide_eq_true in H. destruct H as [x Hx].
  apply negb_false_iff, bool_decide_eq_true. eauto.
Qed.

Lemma generates_pdf_after files0 images source :
  generates_pdf w (files_after w files0 images source) source = false.
Proof.
  unfold files_after. destruct (generates_pdf w files0 source) eqn:Hg; [|exact Hg].
  unfold generates_pdf. destruct (slides_mode w); [reflexivity|]. simpl.
  apply negb_false_iff, bool_decide_eq_true.
  rewrite lookup_insert_eq. eauto.
Qed.

Lemma files_after_quiet files0 images source :
  generates_pdf w files0 source = false ->
  files_after w files0 images source = files0 /\
  image_reads w files0 images source = [].
Proof. intros H. unfold files_after, image_reads. rewrite H. auto. Qed.

Lemma listing_quiet files0 address :
  (nonempty (collected w address) = true ->
   generates_pdf w files0 address = false) ->
  listing_files w files0 address = files0 /\
  listing_reads w files0 address = listing_requests w address.
Proof.
  intros H. unfold listing_files, listing_reads, listing_requests.
  destruct (nonempty (collected w address)).
  - destruct (files_after_quiet files0 (collected w address) address (H eq_refl))
      as [-> ->]. rewrite app_nil_r. auto.
  - rewrite app_nil_r. auto.
Qed.

Lemma language_quiet files0 t :
  (has_slides w t = true ->
   generates_pdf w files0 (slideshow_assets_url t) = false) ->
  language_files w files0 t = files0 /\
  language_reads w files0 t = [slideshow_assets_url t].
Proof.
  intros H. unfold language_files, language_reads. unfold has_slides in H.
  destruct (nonempty (slides_of w t)); [|auto].
  destruct (files_after_quiet files0 (slides_of w t) (slideshow_assets_url t)
              (H eq_refl)) as [-> ->]. auto.
Qed.

Lemma english_quiet key topics files0 :
  (forall t, In t topics ->
             nonempty (collected w (english_assets_url key t)) = true ->
             generates_pdf w files0 (english_assets_url key t) = false) ->
  english_files w key files0 topics = files0 /\
  english_reads w key files0 topics
  = flat_map (fun t => listing_requests w (english_assets_url key t)) topics.
Proof.
  induction topics as [|t topics IH]; intros H; [auto|].
  cbn [english_files english_reads flat_map].
  destruct (listing_quiet files0 (english_assets_url key t)) as [-> ->].
  { apply H. left. reflexivity. }
  destruct IH as [-> ->]; [|auto].
  intros t' Ht'. apply H. right. exact Ht'.
Qed.

Lemma multilanguage_quiet langs files0 :
  (forall t, In t langs -> has_slides w t = true ->
             generates_pdf w files0 (slideshow_assets_url t) = false) ->
  multilanguage_files w files0 langs = files0 /\
  multilanguage_reads w files0 langs = List.map slideshow_assets_url langs.
Proof.
  induction langs as [|t langs IH]; intros H; [auto|].
  cbn [multilanguage_files multilanguage_reads List.map].
  destruct (language_quiet files0 t) as [-> ->].
  { apply H. left. reflexivity. }
  destruct IH as [-> ->]; [|auto].
  intros t' Ht'. apply H. right. exact Ht'.
Qed.

Lemma run_quiet files0 :
  (forall t, In t (english_topics w) ->
             nonempty (collected w (english_assets_url (english_key w) t)) = true ->
             generates_pdf w files0 (english_assets_url (english_key w) t) = false) ->
  (forall t, In t (language_sections w) -> has_slides w t = true ->
             generates_pdf w files0 (slideshow_assets_url t) = false) ->
  run_files w files0 = files0 /\ run_reads w files0 = scrape_reads w.
Proof.
  intros He Hl. unfold run_files, run_reads, scrape_reads.
  destruct (english_quiet (english_key w) (english_topics w) files0 He) as [-> ->].
  destruct (multilanguage_quiet (language_sections w) files0 Hl) as [-> ->].
  auto.
Qed.

(** After the English loop no PDF of a topic is left to generate. *)
Lemma english_settled key topics :
  forall files0 t,
  In t topics ->
  nonempty (collected w (english_assets_url key t)) = true ->
  generates_pdf w (english_files w key files0 topics) (english_assets_url key t)
  = false.
Proof.
  induction topics as [|t0 topics IH]; intros files0 t Hin Hne; [contradiction|].
  cbn [english_files]. destruct Hin as [->|Hin]; [|apply IH; assumption].
  eapply generates_pdf_stays; [intros p x; apply english_files_keeps|].
  unfold listing_files. rewrite Hne. apply generates_pdf_after.
Qed.

Lemma multilanguage_settled langs :
  forall files0 t,
  In t langs -> has_slides w t = true ->
  generates_pdf w (multilanguage_files w files0 langs) (slideshow_assets_url t)
  = false.
Proof.
  induction langs as [|t0 langs IH]; intros files0 t Hin Hne; [contradiction|].
  cbn [multilanguage_files]. destruct Hin as [->|Hin]; [|apply IH; assumption].
  eapply generates_pdf_stays; [intros p x; apply multilanguage_files_keeps|].
  unfold language_files. unfold has_slides in Hne. rewrite Hne.
  apply generates_pdf_after.
Qed.

Lemma topics_ok_quiet key topics :
  forall files0 files1,
  topics_ok w key files0 topics ->
  (forall t, In t topics ->
             nonempty (collected w (english_assets_url key t)) = true ->
             generates_pdf w files1 (english_assets_url key t) = false) ->
  topics_ok w key files1 topics.
Proof.
  induction topics as [|t topics IH]; intros files0 files1 Hok Hq; [exact I|].
  destruct Hok as ((Hr & Hv & _) & Hoks). cbn [topics_ok].
  assert (Hqt : nonempty (collected w (english_assets_url key t)) = true ->
                generates_pdf w files1 (english_assets_url key t) = false)
    by (apply Hq; left; reflexivity).
  split.
  - split; [exact Hr|]. split; [exact Hv|].
    intros Hne Hg. rewrite (Hqt Hne) in Hg. discriminate.
  - destruct (listing_quiet files1 (english_assets_url key t) Hqt) as [-> _].
    eapply IH; [exact Hoks|]. intros t' Ht'. apply Hq. right. exact Ht'.
Qed.

Lemma languages_ok_quiet langs :
  forall files0 files1,
  languages_ok w files0 langs ->
  (forall t, In t langs -> has_slides w t = true ->
             generates_pdf w files1 (slideshow_assets_url t) = false) ->
  languages_ok w files1 langs.
Proof.
  induction langs as [|t langs IH]; intros files0 files1 Hok Hq; [exact I|].
  destruct Hok as ((Hr & Hn & _) & Hoks). cbn [languages_ok].
  assert (Hqt : has_slides w t = true ->
                generates_pdf w files1 (slideshow_assets_url t) = false)
    by (apply Hq; left; reflexivity).
  split.
  - split; [exact Hr|]. split; [exact Hn|].
    intros Hne Hg. rewrite (Hqt Hne) in Hg. discriminate.
  - destruct (language_quiet files1 t Hqt) as [-> _].
    eapply IH; [exact Hoks|]. intros t' Ht'. apply Hq. right. exact Ht'.
Qed.

End Directory.

(** X6. A run never deletes or overwrites a file of the documents
    directory: every PDF that is there when [construct_channel] starts is
    there, with the same pages, when it returns. *)
Theorem existing_files_kept (w : World) s channel s' p pages :
  construct_channel w s = Ok (channel, s') ->
  fs s !! p = Some pages ->
  fs s' !! p = Some pages.
Proof.
  intros H Hp. apply construct_channel_Ok in H as (_ & _ & ->). simpl.
  apply run_files_keeps, Hp.
Qed.

Lemma existing_files_kept_witness :
  fs Sample.pdf_rerun !! pdf_path (Sample.world false) Sample.prevention_url
  = Some Sample.stale.
Proof.
  apply (existing_files_kept (Sample.world false) (initial Sample.used_directory)
           0 Sample.pdf_rerun _ _ pdf_rerun_eq).
  exact used_directory_lookup.
Defined.

(** X7. With [--slides] on the command line a run writes no file and
    downloads no image: the documents directory is left as it was and the
    requests are the page and API requests alone. *)
Theorem slides_mode_writes_nothing (w : World) s channel s' :
  slides_mode w = true ->
  construct_channel w s = Ok (channel, s') ->
  fs s' = fs s /\ reads s' = reads s ++ scrape_reads w.
Proof.
  intros Hmode H. apply construct_channel_Ok in H as (_ & _ & ->). simpl.
  destruct (run_quiet w (fs s)) as [-> ->]; [| |auto];
    intros t _ _; unfold generates_pdf; rewrite Hmode; reflexivity.
Qed.

Lemma slides_mode_writes_nothing_witness :
  fs Sample.slides_run = ∅ /\ List.length (reads Sample.slides_run) = 8%nat.
Proof.
  destruct (slides_mode_writes_nothing (Sample.world true) (initial ∅) 0
              Sample.slides_run eq_refl slides_run_eq) as [Hfs Hreads].
  split; [exact Hfs | reflexivity].
Defined.

(** X8. A run that returned can be repeated on the directory it left: the
    second run returns as well, builds the same nodes, leaves every file as
    it is and downloads no image. *)
Theorem rerun_changes_nothing (w : World) s channel s' s2 :
  construct_channel w s = Ok (channel, s') ->
  fs s2 = fs s' ->
  exists s2',
    construct_channel w s2 = Ok (List.length (heap s2), s2') /\
    heap s2' = heap s2 ++ channel_cells w (List.length (heap s2)) /\
    fs s2' = fs s2 /\
    reads s2' = reads s2 ++ scrape_reads w.
Proof.
  intros H Hfs. apply construct_channel_Ok in H as (_ & Hok & ->).
  simpl in Hfs. destruct Hok as (Hp1 & Ht & Hp2 & Hl).
  assert (He : forall t, In t (english_topics w) ->
             nonempty (collected w (english_assets_url (english_key w) t)) = true ->
             generates_pdf w (fs s2) (english_assets_url (english_key w) t) = false).
  { intros t Hin Hne. rewrite Hfs. unfold run_files.
    eapply generates_pdf_stays; [intros p x; apply multilanguage_files_keeps|].
    apply english_settled; assumption. }
  assert (Hm : forall t, In t (language_sections w) -> has_slides w t = true ->
             generates_pdf w (fs s2) (slideshow_assets_url t) = false).
  { intros t Hin Hne. rewrite Hfs. unfold run_files.
    apply multilanguage_settled; assumption. }
  assert (Hok2 : run_ok w (fs s2)).
  { split; [exact Hp1|]. split; [eapply topics_ok_quiet; eassumption|].
    split; [exact Hp2|].
    destruct (english_quiet w (english_key w) (english_topics w) (fs s2) He)
      as [-> _].
    eapply languages_ok_quiet; eassumption. }
  apply construct_channel_returns in Hok2 as [s2' Hrun].
  exists s2'. split; [exact Hrun|].
  apply construct_channel_Ok in Hrun as (_ & _ & ->). simpl.
  destruct (run_quiet w (fs s2) He Hm) as [-> ->]. auto.
Qed.

Lemma pdf_second_run_eq :
  construct_channel (Sample.world false) (initial (fs Sample.pdf_run))
  = Ok (0%nat,
        Sample.final
          (construct_channel (Sample.world false) (initial (fs Sample.pdf_run)))).
Proof. vm_compute. reflexivity. Qed.

Lemma rerun_changes_nothing_witness :
  exists s2',
    construct_channel (Sample.world false) (initial (fs Sample.pdf_run))
    = Ok (0%nat, s2') /\
    fs s2' = fs Sample.pdf_run /\
    reads s2' = scrape_reads (Sample.world false).
Proof.
  destruct (rerun_changes_nothing (Sample.world false) (initial ∅) 0
              Sample.pdf_run (initial (fs Sample.pdf_run)) pdf_run_eq eq_refl)
    as (s2' & Hrun & _ & Hfs & Hreads).
  exists s2'. split; [exact Hrun|]. split; [exact Hfs | exact Hreads].
Defined.

(** ** The PDFs a run writes *)

Section Written.

Variable w : World.

Lemma to_rgb_mode img : mode (to_rgb img) <> "RGBA".
Proof.
  unfold to_rgb. destruct (String.eqb_spec (mode img) "RGBA") as [_|Hne];
    simpl; [discriminate | exact Hne].
Qed.

Lemma pages_of_rgb images pages :
  images <> [] ->
  pages_of w images = Some pages ->
  pages <> [] /\ Forall (fun page => mode page <> "RGBA") pages.
Proof.
  intros Hne H. apply pages_of_in_order in H. split.
  - destruct H; [contradiction | discriminate].
  - clear Hne. induction H as [|image page images pages (img & _ & ->) _ IH];
      constructor; [apply to_rgb_mode | exact IH].
Qed.

Lemma nonempty_not_nil {A} (l : list A) : nonempty l = true -> l <> [].
Proof. destruct l; [discriminate | discriminate]. Qed.

Lemma files_after_new files0 images source p pages :
  images <> [] ->
  (generates_pdf w files0 source = true -> is_Some (pages_of w images)) ->
  files0 !! p = None ->
  files_after w files0 images source !! p = Some pages ->
  pages <> [] /\ Forall (fun page => mode page <> "RGBA") pages.
Proof.
  intros Hne Hok Hp H. unfold files_after in H.
  destruct (generates_pdf w files0 source); [|congruence].
  destruct (decide (p = pdf_path w source)) as [->|Hd].
  - rewrite lookup_insert_eq in H. destruct (Hok eq_refl) as [x Hx].
    rewrite Hx in H. simpl in H. injection H as <-.
    eapply pages_of_rgb; eassumption.
  - rewrite lookup_insert_ne in H by congruence. congruence.
Qed.

Lemma english_files_new key topics :
  forall files0 p pages,
  topics_ok w key files0 topics ->
  files0 !! p = None ->
  english_files w key files0 topics !! p = Some pages ->
  pages <> [] /\ Forall (fun page => mode page <> "RGBA") pages.
Proof.
  induction topics as [|t topics IH]; intros files0 p pages Hok Hp H;
    cbn [english_files] in H; [congruence|].
  destruct Hok as ((_ & _ & Hpages) & Hoks).
  destruct (listing_files w files0 (english_assets_url key t) !! p) as [x|] eqn:Hx.
  - rewrite (english_files_keeps w key topics _ p x Hx) in H. injection H as <-.
    unfold listing_files in Hx.
    destruct (nonempty (collected w (english_assets_url key t))) eqn:Hne;
      [|congruence].
    apply (files_after_new files0 (collected w (english_assets_url key t))
             (english_assets_url key t) p x);
      [apply nonempty_not_nil, Hne | exact (Hpages eq_refl) | exact Hp | exact Hx].
  - eapply IH; eassumption.
Qed.

Lemma multilanguage_files_new langs :
  forall files0 p pages,
  languages_ok w files0 langs ->
  files0 !! p = None ->
  multilanguage_files w files0 langs !! p = Some pages ->
  pages <> [] /\ Forall (fun page => mode page <> "RGBA") pages.
Proof.
  induction langs as [|t langs IH]; intros files0 p pages Hok Hp H;
    cbn [multilanguage_files] in H; [congruence|].
  destruct Hok as ((_ & _ & Hpages) & Hoks).
  destruct (language_files w files0 t !! p) as [x|] eqn:Hx.
  - rewrite (multilanguage_files_keeps w langs _ p x Hx) in H. injection H as <-.
    unfold language_files in Hx.
    destruct (nonempty (slides_of w t)) eqn:Hne; [|congruence].
    apply (files_after_new files0 (slides_of w t) (slideshow_assets_url t) p x);
      [apply nonempty_not_nil, Hne | exact (Hpages eq_refl) | exact Hp | exact Hx].
  - eapply IH; eassumption.
Qed.

End Written.

(** X9. Every file a run adds to the documents directory is a PDF with at
    least one page and without a page in mode [RGBA]: the images are
    converted to [RGB] before they are saved. *)
Theorem written_pdfs_have_rgb_pages (w : World) s channel s' p pages :
  construct_channel w s = Ok (channel, s') ->
  fs s !! p = None ->
  fs s' !! p = Some pages ->
  pages <> [] /\ Forall (fun page => mode page <> "RGBA") pages.
Proof.
  intros H Hp Hp'. apply construct_channel_Ok in H as (_ & Hok & ->).
  simpl in Hp'. destruct Hok as (_ & Ht & _ & Hl). unfold run_files in Hp'.
  destruct (english_files w (english_key w) (fs s) (english_topics w) !! p)
    as [x|] eqn:Hx.
  - rewrite (multilanguage_files_keeps w _ _ p x Hx) in Hp'. injection Hp' as <-.
    eapply english_files_new; eassumption.
  - eapply multilanguage_files_new; eassumption.
Qed.

Lemma prevention_pdf_lookup :
  fs Sample.pdf_run !! pdf_path (Sample.world false) Sample.prevention_url
  = Some (default [] (fs Sample.pdf_run
                        !! pdf_path (Sample.world false) Sample.prevention_url)).
Proof. vm_compute. reflexivity. Qed.

Lemma written_pdfs_have_rgb_pages_witness :
  Forall (fun page => mode page <> "RGBA")
    (default [] (fs Sample.pdf_run
                   !! pdf_path (Sample.world false) Sample.prevention_url)).
Proof.
  apply (written_pdfs_have_rgb_pages (Sample.world false) (initial ∅) 0
           Sample.pdf_run _ _ pdf_run_eq eq_refl prevention_pdf_lookup).
Defined.

(** ** The name of a PDF *)

Lemma hex_length bs : String.length (MD5.hex bs) = (2 * List.length bs)%nat.
Proof. induction bs as [|b bs IH]; simpl; [reflexivity | rewrite IH; lia]. Qed.

Lemma le_bytes_length n x : List.length (MD5.le_bytes n x) = n.
Proof. revert x. induction n as [|n IH]; intros x; simpl; [|rewrite IH]; reflexivity. Qed.

Lemma digest_length msg : List.length (MD5.digest msg) = 16%nat.
Proof.
  unfold MD5.digest. destruct (fold_left _ _ _) as [[[a b] c] d].
  rewrite !length_app, !le_bytes_length. reflexivity.
Qed.

Lemma hex_digit_in n :
  In (MD5.hex_digit n) (list_ascii_of_string "0123456789abcdef").
Proof.
  unfold MD5.hex_digit.
  destruct (nth_in_or_default (Z.to_nat n)
              (list_ascii_of_string "0123456789abcdef") "0"%char) as [H| ->];
    [exact H | left; reflexivity].
Qed.

Lemma hex_digits bs :
  Forall (fun c => In c (list_ascii_of_string "0123456789abcdef"))
    (list_ascii_of_string (MD5.hex bs)).
Proof.
  induction bs as [|b bs IH]; simpl; [constructor|].
  constructor; [apply hex_digit_in|]. constructor; [apply hex_digit_in | exact IH].
Qed.

(** X10. Whatever the [source_id], the PDF is stored directly in the
    documents directory under a name of 32 lower-case hexadecimal digits
    followed by [.pdf]: no character of the [source_id] reaches the file
    system. *)
Theorem pdf_name_is_hex (w : World) source :
  exists filename,
    pdf_path w source
    = DOCUMENT_DOWNLOAD_DIR +:+ os_path_sep w +:+ filename +:+ ".pdf" /\
    String.length filename = 32%nat /\
    Forall (fun c => In c (list_ascii_of_string "0123456789abcdef"))
      (list_ascii_of_string filename).
Proof.
  exists (MD5.hexdigest (encode_utf8 source)). split; [reflexivity|].
  unfold MD5.hexdigest. split; [|apply hex_digits].
  rewrite hex_length, digest_length. reflexivity.
Qed.

(** ** Every node is attached once *)

Section Attached.

Variable w : World.

Lemma leaves_no_children (l : list Node) :
  Forall (fun n => is_leaf n = true) l -> flat_map children l = [].
Proof.
  induction 1 as [|n l Hn _ IH]; simpl; [reflexivity|].
  unfold is_leaf in Hn. apply andb_prop in Hn as [_ Hn].
  apply bool_decide_eq_true in Hn. rewrite Hn, IH. reflexivity.
Qed.

Lemma slideshows_no_children (l : list Node) :
  Forall (fun n => is_slideshow_kind (kind n) = true /\ children n = []) l ->
  flat_map children l = [].
Proof.
  induction 1 as [|n l [_ Hn] _ IH]; simpl; [reflexivity|].
  rewrite Hn, IH. reflexivity.
Qed.

Lemma topic_block_children key start t :
  flat_map children (topic_block w key start t)
  = seq (S start) (List.length (topic_leaves w key t)).
Proof.
  unfold topic_block. cbn [flat_map children topic_node].
  unfold topic_leaves at 2.
  rewrite (leaves_no_children _ (listing_leaves_leaves w _ _)).
  apply app_nil_r.
Qed.

Lemma layout_attached key topics :
  forall start,
  starts w key start topics ++ flat_map children (layout w key start topics)
  ≡ₚ seq start (List.length (layout w key start topics)).
Proof.
  induction topics as [|t topics IH]; intros start; cbn [starts layout];
    [reflexivity|].
  rewrite flat_map_app, length_app, seq_app, <- IH.
  rewrite (topic_block_children key start t).
  change (List.length (topic_block w key start t))
    with (S (List.length (topic_leaves w key t))).
  cbn [seq app]. constructor.
  apply Permutation_app_swap_app.
Qed.

Lemma channel_cells_attached base :
  flat_map children (channel_cells w base)
  ≡ₚ seq (S base) (List.length (channel_cells w base) - 1).
Proof.
  unfold channel_cells, channel_children.
  cbn [flat_map children channel_node List.length].
  rewrite Nat.sub_succ, Nat.sub_0_r, flat_map_app, length_app, seq_app.
  unfold language_cells at 2.
  rewrite (slideshows_no_children _ (language_cells_slideshows w _)), app_nil_r.
  unfold topic_cells at 2 3 4. rewrite <- layout_attached.
  unfold topic_cells.
  rewrite <- !app_assoc. apply Permutation_app_head, Permutation_app_comm.
Qed.

End Attached.

(** X11. A run leaves the nodes that were there untouched, and every node
    it creates besides the channel is the child of exactly one node: the
    child lists of the new nodes, taken together, name each new reference
    after the channel once and nothing else. *)
Theorem every_new_node_attached_once (w : World) s channel s' :
  construct_channel w s = Ok (channel, s') ->
  take (List.length (heap s)) (heap s') = heap s /\
  flat_map children (drop (List.length (heap s)) (heap s'))
  ≡ₚ seq (S channel) (List.length (heap s') - S (List.length (heap s))).
Proof.
  intros H. apply construct_channel_Ok in H as (-> & _ & ->). simpl.
  rewrite take_app_length, drop_app_length, length_app. split; [reflexivity|].
  rewrite channel_cells_attached.
  replace (List.length (heap s) + List.length (channel_cells w (List.length (heap s)))
           - S (List.length (heap s)))%nat
    with (List.length (channel_cells w (List.length (heap s))) - 1)%nat by lia.
  reflexivity.
Qed.

Lemma every_new_node_attached_once_witness :
  flat_map children (heap Sample.pdf_run)
  ≡ₚ seq 1 (List.length (heap Sample.pdf_run) - 1).
Proof.
  exact (proj2 (every_new_node_attached_once (Sample.world false) (initial ∅) 0
                  Sample.pdf_run pdf_run_eq)).
Defined.

(** ** When a run returns *)

(** X12. [construct_channel] returns only if the run met no failure
    ([run_ok]): both pages were served with a resource key and a section
    list, every listing that was requested was served as a listing, every
    [mp4] of a kept English section had an attachment, every language name
    was translated, and the images of every PDF that had to be generated
    downloaded and decoded.  Each of these is necessary for a channel to
    be returned. *)
Theorem run_returns_only_if (w : World) s channel s' :
  construct_channel w s = Ok (channel, s') ->
  run_ok w (fs s).
Proof.
  intros H. apply construct_channel_Ok in H as (_ & Hok & _). exact Hok.
Qed.

Lemma run_returns_only_if_witness :
  run_ok (Sample.world false) (fs (initial ∅)).
Proof.
  exact (run_returns_only_if (Sample.world false) (initial ∅) 0 Sample.pdf_run
           pdf_run_eq).
Defined.

(** ** What the [--slides] flag changes *)

Section TwoWorlds.

Variables w1 w2 : World.
Hypothesis same_web : forall address, web w1 address = web w2 address.
Hypothesis same_getlang : forall code, getlang w1 code = getlang w2 code.

Lemma listing_same address : listing w1 address = listing w2 address.
Proof. unfold listing. rewrite same_web. reflexivity. Qed.

Lemma collected_same address : collected w1 address = collected w2 address.
Proof. unfold collected. rewrite listing_same. reflexivity. Qed.

Lemma slides_of_same t : slides_of w1 t = slides_of w2 t.
Proof. unfold slides_of. rewrite listing_same. reflexivity. Qed.

Lemma video_nodes_same assets : video_nodes w1 assets = video_nodes w2 assets.
Proof.
  unfold video_nodes. apply mapM_ext. intros a.
  unfold first_attachment. rewrite same_web. reflexivity.
Qed.

Lemma translated_name_same language_name :
  translated_name w1 language_name = translated_name w2 language_name.
Proof.
  unfold translated_name. destruct (LANGUAGE_MAP !! language_name); [|reflexivity].
  rewrite same_getlang. reflexivity.
Qed.

Lemma page_at_same address : page_at w1 address = page_at w2 address.
Proof. unfold page_at. rewrite same_web. reflexivity. Qed.

Lemma english_key_same : english_key w1 = english_key w2.
Proof. unfold english_key. rewrite page_at_same. reflexivity. Qed.

Lemma english_topics_same : english_topics w1 = english_topics w2.
Proof. unfold english_topics. rewrite page_at_same. reflexivity. Qed.

Lemma language_sections_same : language_sections w1 = language_sections w2.
Proof. unfold language_sections. rewrite page_at_same. reflexivity. Qed.

Lemma repackaged_refl (l : list Node) : Forall2 repackaged l l.
Proof. induction l; constructor; [left; reflexivity | assumption]. Qed.

Lemma packaged_repackaged images source t lang :
  repackaged (packaged w1 images source t lang) (packaged w2 images source t lang).
Proof.
  right. unfold packaged.
  destruct (slides_mode w1), (slides_mode w2); repeat split; reflexivity.
Qed.

Lemma listing_leaves_repackaged address t :
  Forall2 repackaged (listing_leaves w1 address t) (listing_leaves w2 address t).
Proof.
  unfold listing_leaves, topic_slideshow.
  rewrite <- video_nodes_same, <- listing_same, <- collected_same.
  apply Forall2_app; [apply repackaged_refl|].
  destruct (nonempty _);
    [constructor; [apply packaged_repackaged | constructor] | constructor].
Qed.

Lemma topic_leaves_length key t :
  List.length (topic_leaves w1 key t) = List.length (topic_leaves w2 key t).
Proof.
  unfold topic_leaves. eapply Forall2_length, listing_leaves_repackaged.
Qed.

Lemma topic_block_repackaged key start t :
  Forall2 repackaged (topic_block w1 key start t) (topic_block w2 key start t).
Proof.
  unfold topic_block. constructor.
  - left. rewrite topic_leaves_length. reflexivity.
  - apply listing_leaves_repackaged.
Qed.

Lemma layout_repackaged key topics :
  forall start,
  Forall2 repackaged (layout w1 key start topics) (layout w2 key start topics).
Proof.
  induction topics as [|t topics IH]; intros start; cbn [layout]; [constructor|].
  apply Forall2_app; [apply topic_block_repackaged|].
  rewrite (Forall2_length _ _ _ (topic_block_repackaged key start t)). apply IH.
Qed.

Lemma starts_same key topics :
  forall start, starts w1 key start topics = starts w2 key start topics.
Proof.
  induction topics as [|t topics IH]; intros start; cbn [starts]; [reflexivity|].
  rewrite (Forall2_length _ _ _ (topic_block_repackaged key start t)), IH.
  reflexivity.
Qed.

Lemma language_cells_repackaged :
  Forall2 repackaged (language_cells w1) (language_cells w2).
Proof.
  unfold language_cells. rewrite <- language_sections_same.
  induction (language_sections w1) as [|t langs IH]; cbn [flat_map];
    [constructor|].
  apply Forall2_app; [|exact IH].
  unfold language_nodes.
  rewrite <- slides_of_same, <- translated_name_same.
  destruct (nonempty _);
    [constructor; [apply packaged_repackaged | constructor] | constructor].
Qed.

Lemma topic_cells_repackaged base :
  Forall2 repackaged (topic_cells w1 base) (topic_cells w2 base).
Proof.
  unfold topic_cells. rewrite <- english_key_same, <- english_topics_same.
  apply layout_repackaged.
Qed.

Lemma channel_cells_repackaged base :
  Forall2 repackaged (channel_cells w1 base) (channel_cells w2 base).
Proof.
  unfold channel_cells. constructor.
  - left. unfold channel_children.
    rewrite <- english_key_same, <- english_topics_same, starts_same.
    rewrite (Forall2_length _ _ _ (topic_cells_repackaged base)).
    rewrite (Forall2_length _ _ _ language_cells_repackaged).
    reflexivity.
  - apply Forall2_app;
      [apply topic_cells_repackaged | apply language_cells_repackaged].
Qed.

End TwoWorlds.

(** X13. The command line and the path separator change how slideshows
    are packaged and nothing else.  Two runs that return, from the same
    nodes and over the same web and language table, build the same tree
    node for node: channel, topics and videos are equal, and each slideshow
    of one run faces a slideshow of the other with the same [source_id],
    title, license, language and thumbnail. *)
Theorem flag_changes_packaging_only (w1 w2 : World) s1 s2 c1 c2 s1' s2' :
  (forall address, web w1 address = web w2 address) ->
  (forall code, getlang w1 code = getlang w2 code) ->
  heap s1 = heap s2 ->
  construct_channel w1 s1 = Ok (c1, s1') ->
  construct_channel w2 s2 = Ok (c2, s2') ->
  c1 = c2 /\ Forall2 repackaged (heap s1') (heap s2').
Proof.
  intros Hweb Hlang Hheap H1 H2.
  apply construct_channel_Ok in H1 as (-> & _ & ->).
  apply construct_channel_Ok in H2 as (-> & _ & ->). simpl.
  rewrite Hheap. split; [reflexivity|].
  apply Forall2_app; [apply repackaged_refl|].
  apply channel_cells_repackaged; assumption.
Qed.

Lemma flag_changes_packaging_only_witness :
  Forall2 repackaged (heap Sample.slides_run) (heap Sample.pdf_run).
Proof.
  exact (proj2 (flag_changes_packaging_only (Sample.world true) (Sample.world false)
                  (initial ∅) (initial ∅) 0 0 Sample.slides_run Sample.pdf_run
                  (fun _ => eq_refl) (fun _ => eq_refl) eq_refl
                  slides_run_eq pdf_run_eq)).
Defined.

(** ** The addresses of the API requests *)

Lemma list_ascii_of_append (a b : string) :
  list_ascii_of_string (a +:+ b) = list_ascii_of_string a ++ list_ascii_of_string b.
Proof. induction a as [|c a IH]; simpl; [reflexivity | rewrite IH; reflexivity]. Qed.

Lemma list_ascii_inj (a b : string) :
  list_ascii_of_string a = list_ascii_of_string b -> a = b.
Proof.
  intros H. rewrite <- (string_of_list_ascii_of_string a),
    <- (string_of_list_ascii_of_string b), H. reflexivity.
Qed.

(** A field between a fixed prefix and a fixed suffix can be read back. *)
Lemma between_inj (pre suf a b : string) :
  pre +:+ a +:+ suf = pre +:+ b +:+ suf -> a = b.
Proof.
  intros H. apply (f_equal list_ascii_of_string) in H.
  rewrite !list_ascii_of_append in H.
  apply app_inv_head, app_inv_tail in H. apply list_ascii_inj, H.
Qed.

Lemma english_assets_url_form key t :
  english_assets_url key t
  = "https://brandfolder.com/api/v4/collections/" +:+ key +:+ "/sections/"
      +:+ section_key t
      +:+ "/assets?sort_by=position&order=ASC&search=&fast_jsonapi=true".
Proof. unfold english_assets_url. vm_compute. reflexivity. Qed.

Lemma slideshow_assets_url_form t :
  slideshow_assets_url t
  = "https://brandfolder.com/api/v4/collections/qac6i4-foozd4-68u325/sections/"
      +:+ section_key t
      +:+ "/assets?sort_by=position&order=ASC&strict_search=false&fast_jsonapi=true".
Proof. unfold slideshow_assets_url. vm_compute. reflexivity. Qed.

Lemma storage_url_form a :
  storage_url a
  = "https://brandfolder.com/api/v4/assets/" +:+ asset_id a
      +:+ "/attachments?fields=url,thumbnail_url".
Proof. unfold storage_url. vm_compute. reflexivity. Qed.

(** X14. The address of an API request names its section or asset and
    nothing else of it: within a collection two English sections are
    listed at the same address exactly when they have the same section
    key, and likewise for the language sections and for the attachments of
    two assets and their ids.  Slideshows of sections with different keys
    therefore get different [source_id]s. *)
Theorem request_addresses_identify (key : string) (t1 t2 : SectionInfo) (a1 a2 : Asset) :
  (english_assets_url key t1 = english_assets_url key t2
   <-> section_key t1 = section_key t2) /\
  (slideshow_assets_url t1 = slideshow_assets_url t2
   <-> section_key t1 = section_key t2) /\
  (storage_url a1 = storage_url a2 <-> asset_id a1 = asset_id a2).
Proof.
  split; [|split]; split.
  - rewrite !english_assets_url_form. intros H.
    apply (f_equal list_ascii_of_string) in H.
    rewrite !list_ascii_of_append in H.
    repeat apply app_inv_head in H. apply app_inv_tail in H.
    apply list_ascii_inj, H.
  - intros H. rewrite !english_assets_url_form, H. reflexivity.
  - rewrite !slideshow_assets_url_form. apply between_inj.
  - intros H. rewrite !slideshow_assets_url_form, H. reflexivity.
  - rewrite !storage_url_form. apply between_inj.
  - intros H. rewrite !storage_url_form, H. reflexivity.
Qed.

(** ** The slides of a language section *)

(** X15. Unlike the English sections, a language section is not sorted by
    extension: with [--slides] its node is a SlideshowNode with one slide
    per asset of the listing, whatever the extension, in listing order and
    with an empty caption; the section adds no other node and logs its
    name and no warning. *)
Theorem language_slides_ignore_extension (w : World) channel t s s' response :
  slides_mode w = true ->
  web w (slideshow_assets_url t) = Some (AssetsJson response) ->
  data response <> [] ->
  (channel < List.length (heap s))%nat ->
  scrape_language w channel t s = Ok (tt, s') ->
  exists node,
    drop (List.length (heap s)) (heap s') = [node] /\
    kind node = SlideshowNode /\
    tail (files node)
    = List.map (fun a => SlideImageFile (view_url (thumbnail_url a)) "")
        (data response) /\
    exists shown,
      log s' = log s ++ [{| level := INFO; fmt := "    {}"; args := [shown] |}].
Proof.
  intros Hmode Hweb Hdata Hlt H.
  apply scrape_language_Ok in H as (_ & ->); [|exact Hlt]. simpl.
  assert (Hslides : slides_of w t = List.map slide_of (data response))
    by (unfold slides_of, listing; rewrite Hweb; reflexivity).
  unfold language_nodes. rewrite Hslides.
  destruct (data response) as [|a assets] eqn:Hd; [contradiction|].
  cbn [List.map nonempty List.length Nat.ltb Nat.leb].
  eexists. split.
  { rewrite <- (length_alter
                  (append_children (seq (List.length (heap s)) 1)) (heap s) channel)
      at 1.
    apply drop_app_length. }
  unfold packaged. rewrite Hmode. split; [reflexivity|]. split.
  - cbn [files slideshow_node tail List.map]. rewrite map_map. reflexivity.
  - eexists. reflexivity.
Qed.

Lemma french_run_eq :
  scrape_language (Sample.world true) 0 Sample.french (Sample.channel_state ∅)
  = Ok (tt, Sample.final
              (scrape_language (Sample.world true) 0 Sample.french
                 (Sample.channel_state ∅))).
Proof. vm_compute. reflexivity. Qed.

Lemma french_listing :
  web (Sample.world true) (slideshow_assets_url Sample.french)
  = Some (AssetsJson {| data := [Sample.wash]; next_page := None |}).
Proof. vm_compute. reflexivity. Qed.

Lemma language_slides_ignore_extension_witness :
  exists node,
    drop 1 (heap (Sample.final
                    (scrape_language (Sample.world true) 0 Sample.french
                       (Sample.channel_state ∅))))
    = [node] /\
    kind node = SlideshowNode.
Proof.
  destruct (language_slides_ignore_extension (Sample.world true) 0 Sample.french
              (Sample.channel_state ∅)
              (Sample.final
                 (scrape_language (Sample.world true) 0 Sample.french
                    (Sample.channel_state ∅)))
              _ eq_refl french_listing)
    as (node & Hnode & Hkind & _).
  - discriminate.
  - simpl. lia.
  - exact french_run_eq.
  - exists node. split; [exact Hnode | exact Hkind].
Defined.

(** ** A section that cannot be listed *)

Lemma for_each_app {A} (xs ys : list A) (body : A -> M unit) s :
  for_each (xs ++ ys) body s
  = (for_each xs body >> for_each ys body) s.
Proof.
  revert s. induction xs as [|x xs IH]; intros s; simpl.
  - reflexivity.
  - unfold bind in *. destruct (body x s) as [[[] s1]|e]; [|reflexivity].
    apply IH.
Qed.

Lemma scrape_topic_unlisted (w : World) channel key t s :
  web w (english_assets_url key t) = None ->
  scrape_topic w channel key t s = Raise (DownloadError (english_assets_url key t)).
Proof.
  intros Hweb. unfold scrape_topic.
  change (str_format ENGLISH_ASSETS_URL _) with (english_assets_url key t).
  unfold bind at 1. unfold LOGGER at 1.
  unfold bind at 1. unfold alloc at 1.
  unfold bind at 1. unfold add_child at 1.
  unfold scrape_collection_files. unfold bind at 1. unfold downloader_read.
  rewrite Hweb. reflexivity.
Qed.

(** X16. Nothing is skipped silently when a listing is not served.  If
    the sections of the English page before [t] can be scraped and the
    listing of the kept section [t] cannot be downloaded, the whole run
    stops with the DownloadError of that listing: no channel is returned,
    and the sections after [t] and the language page are never reached. *)
Theorem unlisted_section_stops_run (w : World) s page key sections before t after :
  web w ENGLISH_COLLECTION_URL = Some (Html page) ->
  resource_key page = Some key ->
  react_sections page = Some sections ->
  kept sections = before ++ t :: after ->
  topics_ok w key (fs s) before ->
  web w (english_assets_url key t) = None ->
  construct_channel w s = Raise (DownloadError (english_assets_url key t)).
Proof.
  intros Hpage Hkey Hsections Hkept Hbefore Hweb.
  unfold construct_channel. erewrite bind_run by reflexivity.
  unfold bind at 1. unfold scrape_english_collection.
  erewrite bind_run by reflexivity.
  erewrite bind_run by (unfold downloader_read; rewrite Hpage; reflexivity).
  cbn [BeautifulSoup].
  erewrite bind_run by (unfold get_collection_key; rewrite Hkey; reflexivity).
  erewrite bind_run by (unfold asset_list_sections; rewrite Hsections; reflexivity).
  change (List.filter (fun t0 => negb (excluded t0)) sections) with (kept sections).
  rewrite Hkept, for_each_app.
  match goal with
  | |- context [bind (for_each before ?body) _ ?st] =>
      destruct (scrape_topics_returns w (List.length (heap s)) key before st)
        as [s1 Hloop];
        [exact Hbefore | simpl; rewrite length_app; simpl; lia|]
  end.
  erewrite bind_run by exact Hloop.
  cbn [for_each]. unfold bind at 1.
  rewrite (scrape_topic_unlisted w (List.length (heap s)) key t s1 Hweb).
  reflexivity.
Qed.

Lemma unlisted_section_stops_run_witness :
  construct_channel
    {| argv := []; os_path_sep := "/";
       web := fun address =>
                if String.eqb address ENGLISH_COLLECTION_URL
                then Some (Html {| resource_key := Some "ck";
                                   react_sections :=
                                     Some [Sample.videos; Sample.hidden;
                                           Sample.french; Sample.prevention] |})
                else if String.eqb address
                          (english_assets_url "ck" Sample.videos)
                then Some (AssetsJson {| data := []; next_page := None |})
                else None;
       getlang := fun _ => None |}
    (initial ∅)
  = Raise (DownloadError (english_assets_url "ck" Sample.french)).
Proof.
  eapply (unlisted_section_stops_run _ (initial ∅) _ "ck" _
            [Sample.videos] Sample.french [Sample.prevention]).
  - reflexivity.
  - reflexivity.
  - reflexivity.
  - vm_compute. reflexivity.
  - split; [|exact I]. split; [|split].
    + eexists. vm_compute. reflexivity.
    + vm_compute. eauto.
    + intros Hne. vm_compute in Hne. discriminate.
  - vm_compute. reflexivity.
Defined.
